(** * RugShield bot: risk scoring, metrics classification and text scoring

    A shallow embedding of the rule engine of the bot:
    - [modules/analyzer.py]: [_fetch_token_data] (fallback chain),
      [_analyze_metrics], [_analyze_text_data], [_assess_risk];
    - [modules/social_analyzer.py]: [_determine_activity_level];
    - [modules/scam_database.py]: [_format_scam_tweet].

    Conventions of the embedding.
    - A Python [float] is an IEEE 754 binary64 number: Rocq's primitive
      [float], with the same literals, the same rounding and the same
      comparisons ([<] and [==] are false on NaN).  Python's [/] raises
      [ZeroDivisionError] on a zero divisor; this is written out in [py_div].
    - A Python [int] is a [Z].
    - A Python [str] whose content comes from outside (description, address,
      tweet) is a list of Unicode code points, so that [len] and slices count
      characters as Python does.  The fixed labels the code returns
      ("high", "Very low market cap", ...) are Rocq strings.
    - A [try: ... except Exception] block is a computation in the error monad
      [Result] followed by its handler. *)

From Stdlib Require Import ZArith NArith List String Ascii Bool Lia Floats.
Import ListNotations.

Set Warnings "-inexact-float".
Local Open Scope Z_scope.

(** ** Python strings *)

Module PyStr.

Definition char := N.
Definition str := list char.

(** A string literal of the source, as code points. *)
Definition lit (s : string) : str :=
  List.map N_of_ascii (list_ascii_of_string s).

(** ** Case mapping

    [s.lower()] and [s.upper()] apply the full case mapping of the Unicode
    character database to every code point; the tables below are those of
    Unicode 14.0.0.  One code point can become several (the sharp s becomes
    "SS" in upper case), and the capital sigma is lowered by its context.
    The code points below 128 follow the rule of the ASCII letters and are
    not listed. *)

(** The code points from 128 on that [upper()] changes, each with the code
    points it becomes. *)
Definition to_upper : list (N * list N) :=
  [
   (181, [924]); (223, [83; 83]); (224, [192]); (225, [193]); (226, [194]);
   (227, [195]); (228, [196]); (229, [197]); (230, [198]); (231, [199]);
   (232, [200]); (233, [201]); (234, [202]); (235, [203]); (236, [204]);
   (237, [205]); (238, [206]); (239, [207]); (240, [208]); (241, [209]);
   (242, [210]); (243, [211]); (244, [212]); (245, [213]); (246, [214]);
   (248, [216]); (249, [217]); (250, [218]); (251, [219]); (252, [220]);
   (253, [221]); (254, [222]); (255, [376]); (257, [256]); (259, [258]);
   (261, [260]); (263, [262]); (265, [264]); (267, [266]); (269, [268]);
   (271, [270]); (273, [272]); (275, [274]); (277, [276]); (279, [278]);
   (281, [280]); (283, [282]); (285, [284]); (287, [286]); (289, [288]);
   (291, [290]); (293, [292]); (295, [294]); (297, [296]); (299, [298]);
   (301, [300]); (303, [302]); (305, [73]); (307, [306]); (309, [308]);
   (311, [310]); (314, [313]); (316, [315]); (318, [317]); (320, [319]);
   (322, [321]); (324, [323]); (326, [325]); (328, [327]); (329, [700; 78]);
   (331, [330]); (333, [332]); (335, [334]); (337, [336]); (339, [338]);
   (341, [340]); (343, [342]); (345, [344]); (347, [346]); (349, [348]);
   (351, [350]); (353, [352]); (355, [354]); (357, [356]); (359, [358]);
   (361, [360]); (363, [362]); (365, [364]); (367, [366]); (369, [368]);
   (371, [370]); (373, [372]); (375, [374]); (378, [377]); (380, [379]);
   (382, [381]); (383, [83]); (384, [579]); (387, [386]); (389, [388]);
   (392, [391]); (396, [395]); (402, [401]); (405, [502]); (409, [408]);
   (410, [573]); (414, [544]); (417, [416]); (419, [418]); (421, [420]);
   (424, [423]); (429, [428]); (432, [431]); (436, [435]); (438, [437]);
   (441, [440]); (445, [444]); (447, [503]); (453, [452]); (454, [452]);
   (456, [455]); (457, [455]); (459, [458]); (460, [458]); (462, [461]);
   (464, [463]); (466, [465]); (468, [467]); (470, [469]); (472, [471]);
   (474, [473]); (476, [475]); (477, [398]); (479, [478]); (481, [480]);
   (483, [482]); (485, [484]); (487, [486]); (489, [488]); (491, [490]);
   (493, [492]); (495, [494]); (496, [74; 780]); (498, [497]); (499, [497]);
   (501, [500]); (505, [504]); (507, [506]); (509, [508]); (511, [510]);
   (513, [512]); (515, [514]); (517, [516]); (519, [518]); (521, [520]);
   (523, [522]); (525, [524]); (527, [526]); (529, [528]); (531, [530]);
   (533, [532]); (535, [534]); (537, [536]); (539, [538]); (541, [540]);
   (543, [542]); (547, [546]); (549, [548]); (551, [550]); (553, [552]);
   (555, [554]); (557, [556]); (559, [558]); (561, [560]); (563, [562]);
   (572, [571]); (575, [11390]); (576, [11391]); (578, [577]); (583, [582]);
   (585, [584]); (587, [586]); (589, [588]); (591, [590]); (592, [11375]);
   (593, [11373]); (594, [11376]); (595, [385]); (596, [390]); (598, [393]);
   (599, [394]); (601, [399]); (603, [400]); (604, [42923]); (608, [403]);
   (609, [42924]); (611, [404]); (613, [42893]); (614, [42922]); (616,
   [407]); (617, [406]); (618, [42926]); (619, [11362]); (620, [42925]);
   (623, [412]); (625, [11374]); (626, [413]); (629, [415]); (637, [11364]);
   (640, [422]); (642, [42949]); (643, [425]); (647, [42929]); (648, [430]);
   (649, [580]); (650, [433]); (651, [434]); (652, [581]); (658, [439]);
   (669, [42930]); (670, [42928]); (837, [921]); (881, [880]); (883, [882]);
   (887, [886]); (891, [1021]); (892, [1022]); (893, [1023]); (912, [921;
   776; 769]); (940, [902]); (941, [904]); (942, [905]); (943, [906]); (944,
   [933; 776; 769]); (945, [913]); (946, [914]); (947, [915]); (948, [916]);
   (949, [917]); (950, [918]); (951, [919]); (952, [920]); (953, [921]);
   (954, [922]); (955, [923]); (956, [924]); (957, [925]); (958, [926]);
   (959, [927]); (960, [928]); (961, [929]); (962, [931]); (963, [931]);
   (964, [932]); (965, [933]); (966, [934]); (967, [935]); (968, [936]);
   (969, [937]); (970, [938]); (971, [939]); (972, [908]); (973, [910]);
   (974, [911]); (976, [914]); (977, [920]); (981, [934]); (982, [928]);
   (983, [975]); (985, [984]); (987, [986]); (989, [988]); (991, [990]);
   (993, [992]); (995, [994]); (997, [996]); (999, [998]); (1001, [1000]);
   (1003, [1002]); (1005, [1004]); (1007, [1006]); (1008, [922]); (1009,
   [929]); (1010, [1017]); (1011, [895]); (1013, [917]); (1016, [1015]);
   (1019, [1018]); (1072, [1040]); (1073, [1041]); (1074, [1042]); (1075,
   [1043]); (1076, [1044]); (1077, [1045]); (1078, [1046]); (1079, [1047]);
   (1080, [1048]); (1081, [1049]); (1082, [1050]); (1083, [1051]); (1084,
   [1052]); (1085, [1053]); (1086, [1054]); (1087, [1055]); (1088, [1056]);
   (1089, [1057]); (1090, [1058]); (1091, [1059]); (1092, [1060]); (1093,
   [1061]); (1094, [1062]); (1095, [1063]); (1096, [1064]); (1097, [1065]);
   (1098, [1066]); (1099, [1067]); (1100, [1068]); (1101, [1069]); (1102,
   [1070]); (1103, [1071]); (1104, [1024]); (1105, [1025]); (1106, [1026]);
   (1107, [1027]); (1108, [1028]); (1109, [1029]); (1110, [1030]); (1111,
   [1031]); (1112, [1032]); (1113, [1033]); (1114, [1034]); (1115, [1035]);
   (1116, [1036]); (1117, [1037]); (1118, [1038]); (1119, [1039]); (1121,
   [1120]); (1123, [1122]); (1125, [1124]); (1127, [1126]); (1129, [1128]);
   (1131, [1130]); (1133, [1132]); (1135, [1134]); (1137, [1136]); (1139,
   [1138]); (1141, [1140]); (1143, [1142]); (1145, [1144]); (1147, [1146]);
   (1149, [1148]); (1151, [1150]); (1153, [1152]); (1163, [1162]); (1165,
   [1164]); (1167, [1166]); (1169, [1168]); (1171, [1170]); (1173, [1172]);
   (1175, [1174]); (1177, [1176]); (1179, [1178]); (1181, [1180]); (1183,
   [1182]); (1185, [1184]); (1187, [1186]); (1189, [1188]); (1191, [1190]);
   (1193, [1192]); (1195, [1194]); (1197, [1196]); (1199, [1198]); (1201,
   [1200]); (1203, [1202]); (1205, [1204]); (1207, [1206]); (1209, [1208]);
   (1211, [1210]); (1213, [1212]); (1215, [1214]); (1218, [1217]); (1220,
   [1219]); (1222, [1221]); (1224, [1223]); (1226, [1225]); (1228, [1227]);
   (1230, [1229]); (1231, [1216]); (1233, [1232]); (1235, [1234]); (1237,
   [1236]); (1239, [1238]); (1241, [1240]); (1243, [1242]); (1245, [1244]);
   (1247, [1246]); (1249, [1248]); (1251, [1250]); (1253, [1252]); (1255,
   [1254]); (1257, [1256]); (1259, [1258]); (1261, [1260]); (1263, [1262]);
   (1265, [1264]); (1267, [1266]); (1269, [1268]); (1271, [1270]); (1273,
   [1272]); (1275, [1274]); (1277, [1276]); (1279, [1278]); (1281, [1280]);
   (1283, [1282]); (1285, [1284]); (1287, [1286]); (1289, [1288]); (1291,
   [1290]); (1293, [1292]); (1295, [1294]); (1297, [1296]); (1299, [1298]);
   (1301, [1300]); (1303, [1302]); (1305, [1304]); (1307, [1306]); (1309,
   [1308]); (1311, [1310]); (1313, [1312]); (1315, [1314]); (1317, [1316]);
   (1319, [1318]); (1321, [1320]); (1323, [1322]); (1325, [1324]); (1327,
   [1326]); (1377, [1329]); (1378, [1330]); (1379, [1331]); (1380, [1332]);
   (1381, [1333]); (1382, [1334]); (1383, [1335]); (1384, [1336]); (1385,
   [1337]); (1386, [1338]); (1387, [1339]); (1388, [1340]); (1389, [1341]);
   (1390, [1342]); (1391, [1343]); (1392, [1344]); (1393, [1345]); (1394,
   [1346]); (1395, [1347]); (1396, [1348]); (1397, [1349]); (1398, [1350]);
   (1399, [1351]); (1400, [1352]); (1401, [1353]); (1402, [1354]); (1403,
   [1355]); (1404, [1356]); (1405, [1357]); (1406, [1358]); (1407, [1359]);
   (1408, [1360]); (1409, [1361]); (1410, [1362]); (1411, [1363]); (1412,
   [1364]); (1413, [1365]); (1414, [1366]); (1415, [1333; 1362]); (4304,
   [7312]); (4305, [7313]); (4306, [7314]); (4307, [7315]); (4308, [7316]);
   (4309, [7317]); (4310, [7318]); (4311, [7319]); (4312, [7320]); (4313,
   [7321]); (4314, [7322]); (4315, [7323]); (4316, [7324]); (4317, [7325]);
   (4318, [7326]); (4319, [7327]); (4320, [7328]); (4321, [7329]); (4322,
   [7330]); (4323, [7331]); (4324, [7332]); (4325, [7333]); (4326, [7334]);
   (4327, [7335]); (4328, [7336]); (4329, [7337]); (4330, [7338]); (4331,
   [7339]); (4332, [7340]); (4333, [7341]); (4334, [7342]); (4335, [7343]);
   (4336, [7344]); (4337, [7345]); (4338, [7346]); (4339, [7347]); (4340,
   [7348]); (4341, [7349]); (4342, [7350]); (4343, [7351]); (4344, [7352]);
   (4345, [7353]); (4346, [7354]); (4349, [7357]); (4350, [7358]); (4351,
   [7359]); (5112, [5104]); (5113, [5105]); (5114, [5106]); (5115, [5107]);
   (5116, [5108]); (5117, [5109]); (7296, [1042]); (7297, [1044]); (7298,
   [1054]); (7299, [1057]); (7300, [1058]); (7301, [1058]); (7302, [1066]);
   (7303, [1122]); (7304, [42570]); (7545, [42877]); (7549, [11363]); (7566,
   [42950]); (7681, [7680]); (7683, [7682]); (7685, [7684]); (7687, [7686]);
   (7689, [7688]); (7691, [7690]); (7693, [7692]); (7695, [7694]); (7697,
   [7696]); (7699, [7698]); (7701, [7700]); (7703, [7702]); (7705, [7704]);
   (7707, [7706]); (7709, [7708]); (7711, [7710]); (7713, [7712]); (7715,
   [7714]); (7717, [7716]); (7719, [7718]); (7721, [7720]); (7723, [7722]);
   (7725, [7724]); (7727, [7726]); (7729, [7728]); (7731, [7730]); (7733,
   [7732]); (7735, [7734]); (7737, [7736]); (7739, [7738]); (7741, [7740]);
   (7743, [7742]); (7745, [7744]); (7747, [7746]); (7749, [7748]); (7751,
   [7750]); (7753, [7752]); (7755, [7754]); (7757, [7756]); (7759, [7758]);
   (7761, [7760]); (7763, [7762]); (7765, [7764]); (7767, [7766]); (7769,
   [7768]); (7771, [7770]); (7773, [7772]); (7775, [7774]); (7777, [7776]);
   (7779, [7778]); (7781, [7780]); (7783, [7782]); (7785, [7784]); (7787,
   [7786]); (7789, [7788]); (7791, [7790]); (7793, [7792]); (7795, [7794]);
   (7797, [7796]); (7799, [7798]); (7801, [7800]); (7803, [7802]); (7805,
   [7804]); (7807, [7806]); (7809, [7808]); (7811, [7810]); (7813, [7812]);
   (7815, [7814]); (7817, [7816]); (7819, [7818]); (7821, [7820]); (7823,
   [7822]); (7825, [7824]); (7827, [7826]); (7829, [7828]); (7830, [72;
   817]); (7831, [84; 776]); (7832, [87; 778]); (7833, [89; 778]); (7834,
   [65; 702]); (7835, [7776]); (7841, [7840]); (7843, [7842]); (7845,
   [7844]); (7847, [7846]); (7849, [7848]); (7851, [7850]); (7853, [7852]);
   (7855, [7854]); (7857, [7856]); (7859, [7858]); (7861, [7860]); (7863,
   [7862]); (7865, [7864]); (7867, [7866]); (7869, [7868]); (7871, [7870]);
   (7873, [7872]); (7875, [7874]); (7877, [7876]); (7879, [7878]); (7881,
   [7880]); (7883, [7882]); (7885, [7884]); (7887, [7886]); (7889, [7888]);
   (7891, [7890]); (7893, [7892]); (7895, [7894]); (7897, [7896]); (7899,
   [7898]); (7901, [7900]); (7903, [7902]); (7905, [7904]); (7907, [7906]);
   (7909, [7908]); (7911, [7910]); (7913, [7912]); (7915, [7914]); (7917,
   [7916]); (7919, [7918]); (7921, [7920]); (7923, [7922]); (7925, [7924]);
   (7927, [7926]); (7929, [7928]); (7931, [7930]); (7933, [7932]); (7935,
   [7934]); (7936, [7944]); (7937, [7945]); (7938, [7946]); (7939, [7947]);
   (7940, [7948]); (7941, [7949]); (7942, [7950]); (7943, [7951]); (7952,
   [7960]); (7953, [7961]); (7954, [7962]); (7955, [7963]); (7956, [7964]);
   (7957, [7965]); (7968, [7976]); (7969, [7977]); (7970, [7978]); (7971,
   [7979]); (7972, [7980]); (7973, [7981]); (7974, [7982]); (7975, [7983]);
   (7984, [7992]); (7985, [7993]); (7986, [7994]); (7987, [7995]); (7988,
   [7996]); (7989, [7997]); (7990, [7998]); (7991, [7999]); (8000, [8008]);
   (8001, [8009]); (8002, [8010]); (8003, [8011]); (8004, [8012]); (8005,
   [8013]); (8016, [933; 787]); (8017, [8025]); (8018, [933; 787; 768]);
   (8019, [8027]); (8020, [933; 787; 769]); (8021, [8029]); (8022, [933;
   787; 834]); (8023, [8031]); (8032, [8040]); (8033, [8041]); (8034,
   [8042]); (8035, [8043]); (8036, [8044]); (8037, [8045]); (8038, [8046]);
   (8039, [8047]); (8048, [8122]); (8049, [8123]); (8050, [8136]); (8051,
   [8137]); (8052, [8138]); (8053, [8139]); (8054, [8154]); (8055, [8155]);
   (8056, [8184]); (8057, [8185]); (8058, [8170]); (8059, [8171]); (8060,
   [8186]); (8061, [8187]); (8064, [7944; 921]); (8065, [7945; 921]); (8066,
   [7946; 921]); (8067, [7947; 921]); (8068, [7948; 921]); (8069, [7949;
   921]); (8070, [7950; 921]); (8071, [7951; 921]); (8072, [7944; 921]);
   (8073, [7945; 921]); (8074, [7946; 921]); (8075, [7947; 921]); (8076,
   [7948; 921]); (8077, [7949; 921]); (8078, [7950; 921]); (8079, [7951;
   921]); (8080, [7976; 921]); (8081, [7977; 921]); (8082, [7978; 921]);
   (8083, [7979; 921]); (8084, [7980; 921]); (8085, [7981; 921]); (8086,
   [7982; 921]); (8087, [7983; 921]); (8088, [7976; 921]); (8089, [7977;
   921]); (8090, [7978; 921]); (8091, [7979; 921]); (8092, [7980; 921]);
   (8093, [7981; 921]); (8094, [7982; 921]); (8095, [7983; 921]); (8096,
   [8040; 921]); (8097, [8041; 921]); (8098, [8042; 921]); (8099, [8043;
   921]); (8100, [8044; 921]); (8101, [8045; 921]); (8102, [8046; 921]);
   (8103, [8047; 921]); (8104, [8040; 921]); (8105, [8041; 921]); (8106,
   [8042; 921]); (8107, [8043; 921]); (8108, [8044; 921]); (8109, [8045;
   921]); (8110, [8046; 921]); (8111, [8047; 921]); (8112, [8120]); (8113,
   [8121]); (8114, [8122; 921]); (8115, [913; 921]); (8116, [902; 921]);
   (8118, [913; 834]); (8119, [913; 834; 921]); (8124, [913; 921]); (8126,
   [921]); (8130, [8138; 921]); (8131, [919; 921]); (8132, [905; 921]);
   (8134, [919; 834]); (8135, [919; 834; 921]); (8140, [919; 921]); (8144,
   [8152]); (8145, [8153]); (8146, [921; 776; 768]); (8147, [921; 776;
   769]); (8150, [921; 834]); (8151, [921; 776; 834]); (8160, [8168]);
   (8161, [8169]); (8162, [933; 776; 768]); (8163, [933; 776; 769]); (8164,
   [929; 787]); (8165, [8172]); (8166, [933; 834]); (8167, [933; 776; 834]);
   (8178, [8186; 921]); (8179, [937; 921]); (8180, [911; 921]); (8182, [937;
   834]); (8183, [937; 834; 921]); (8188, [937; 921]); (8526, [8498]);
   (8560, [8544]); (8561, [8545]); (8562, [8546]); (8563, [8547]); (8564,
   [8548]); (8565, [8549]); (8566, [8550]); (8567, [8551]); (8568, [8552]);
   (8569, [8553]); (8570, [8554]); (8571, [8555]); (8572, [8556]); (8573,
   [8557]); (8574, [8558]); (8575, [8559]); (8580, [8579]); (9424, [9398]);
   (9425, [9399]); (9426, [9400]); (9427, [9401]); (9428, [9402]); (9429,
   [9403]); (9430, [9404]); (9431, [9405]); (9432, [9406]); (9433, [9407]);
   (9434, [9408]); (9435, [9409]); (9436, [9410]); (9437, [9411]); (9438,
   [9412]); (9439, [9413]); (9440, [9414]); (9441, [9415]); (9442, [9416]);
   (9443, [9417]); (9444, [9418]); (9445, [9419]); (9446, [9420]); (9447,
   [9421]); (9448, [9422]); (9449, [9423]); (11312, [11264]); (11313,
   [11265]); (11314, [11266]); (11315, [11267]); (11316, [11268]); (11317,
   [11269]); (11318, [11270]); (11319, [11271]); (11320, [11272]); (11321,
   [11273]); (11322, [11274]); (11323, [11275]); (11324, [11276]); (11325,
   [11277]); (11326, [11278]); (11327, [11279]); (11328, [11280]); (11329,
   [11281]); (11330, [11282]); (11331, [11283]); (11332, [11284]); (11333,
   [11285]); (11334, [11286]); (11335, [11287]); (11336, [11288]); (11337,
   [11289]); (11338, [11290]); (11339, [11291]); (11340, [11292]); (11341,
   [11293]); (11342, [11294]); (11343, [11295]); (11344, [11296]); (11345,
   [11297]); (11346, [11298]); (11347, [11299]); (11348, [11300]); (11349,
   [11301]); (11350, [11302]); (11351, [11303]); (11352, [11304]); (11353,
   [11305]); (11354, [11306]); (11355, [11307]); (11356, [11308]); (11357,
   [11309]); (11358, [11310]); (11359, [11311]); (11361, [11360]); (11365,
   [570]); (11366, [574]); (11368, [11367]); (11370, [11369]); (11372,
   [11371]); (11379, [11378]); (11382, [11381]); (11393, [11392]); (11395,
   [11394]); (11397, [11396]); (11399, [11398]); (11401, [11400]); (11403,
   [11402]); (11405, [11404]); (11407, [11406]); (11409, [11408]); (11411,
   [11410]); (11413, [11412]); (11415, [11414]); (11417, [11416]); (11419,
   [11418]); (11421, [11420]); (11423, [11422]); (11425, [11424]); (11427,
   [11426]); (11429, [11428]); (11431, [11430]); (11433, [11432]); (11435,
   [11434]); (11437, [11436]); (11439, [11438]); (11441, [11440]); (11443,
   [11442]); (11445, [11444]); (11447, [11446]); (11449, [11448]); (11451,
   [11450]); (11453, [11452]); (11455, [11454]); (11457, [11456]); (11459,
   [11458]); (11461, [11460]); (11463, [11462]); (11465, [11464]); (11467,
   [11466]); (11469, [11468]); (11471, [11470]); (11473, [11472]); (11475,
   [11474]); (11477, [11476]); (11479, [11478]); (11481, [11480]); (11483,
   [11482]); (11485, [11484]); (11487, [11486]); (11489, [11488]); (11491,
   [11490]); (11500, [11499]); (11502, [11501]); (11507, [11506]); (11520,
   [4256]); (11521, [4257]); (11522, [4258]); (11523, [4259]); (11524,
   [4260]); (11525, [4261]); (11526, [4262]); (11527, [4263]); (11528,
   [4264]); (11529, [4265]); (11530, [4266]); (11531, [4267]); (11532,
   [4268]); (11533, [4269]); (11534, [4270]); (11535, [4271]); (11536,
   [4272]); (11537, [4273]); (11538, [4274]); (11539, [4275]); (11540,
   [4276]); (11541, [4277]); (11542, [4278]); (11543, [4279]); (11544,
   [4280]); (11545, [4281]); (11546, [4282]); (11547, [4283]); (11548,
   [4284]); (11549, [4285]); (11550, [4286]); (11551, [4287]); (11552,
   [4288]); (11553, [4289]); (11554, [4290]); (11555, [4291]); (11556,
   [4292]); (11557, [4293]); (11559, [4295]); (11565, [4301]); (42561,
   [42560]); (42563, [42562]); (42565, [42564]); (42567, [42566]); (42569,
   [42568]); (42571, [42570]); (42573, [42572]); (42575, [42574]); (42577,
   [42576]); (42579, [42578]); (42581, [42580]); (42583, [42582]); (42585,
   [42584]); (42587, [42586]); (42589, [42588]); (42591, [42590]); (42593,
   [42592]); (42595, [42594]); (42597, [42596]); (42599, [42598]); (42601,
   [42600]); (42603, [42602]); (42605, [42604]); (42625, [42624]); (42627,
   [42626]); (42629, [42628]); (42631, [42630]); (42633, [42632]); (42635,
   [42634]); (42637, [42636]); (42639, [42638]); (42641, [42640]); (42643,
   [42642]); (42645, [42644]); (42647, [42646]); (42649, [42648]); (42651,
   [42650]); (42787, [42786]); (42789, [42788]); (42791, [42790]); (42793,
   [42792]); (42795, [42794]); (42797, [42796]); (42799, [42798]); (42803,
   [42802]); (42805, [42804]); (42807, [42806]); (42809, [42808]); (42811,
   [42810]); (42813, [42812]); (42815, [42814]); (42817, [42816]); (42819,
   [42818]); (42821, [42820]); (42823, [42822]); (42825, [42824]); (42827,
   [42826]); (42829, [42828]); (42831, [42830]); (42833, [42832]); (42835,
   [42834]); (42837, [42836]); (42839, [42838]); (42841, [42840]); (42843,
   [42842]); (42845, [42844]); (42847, [42846]); (42849, [42848]); (42851,
   [42850]); (42853, [42852]); (42855, [42854]); (42857, [42856]); (42859,
   [42858]); (42861, [42860]); (42863, [42862]); (42874, [42873]); (42876,
   [42875]); (42879, [42878]); (42881, [42880]); (42883, [42882]); (42885,
   [42884]); (42887, [42886]); (42892, [42891]); (42897, [42896]); (42899,
   [42898]); (42900, [42948]); (42903, [42902]); (42905, [42904]); (42907,
   [42906]); (42909, [42908]); (42911, [42910]); (42913, [42912]); (42915,
   [42914]); (42917, [42916]); (42919, [42918]); (42921, [42920]); (42933,
   [42932]); (42935, [42934]); (42937, [42936]); (42939, [42938]); (42941,
   [42940]); (42943, [42942]); (42945, [42944]); (42947, [42946]); (42952,
   [42951]); (42954, [42953]); (42961, [42960]); (42967, [42966]); (42969,
   [42968]); (42998, [42997]); (43859, [42931]); (43888, [5024]); (43889,
   [5025]); (43890, [5026]); (43891, [5027]); (43892, [5028]); (43893,
   [5029]); (43894, [5030]); (43895, [5031]); (43896, [5032]); (43897,
   [5033]); (43898, [5034]); (43899, [5035]); (43900, [5036]); (43901,
   [5037]); (43902, [5038]); (43903, [5039]); (43904, [5040]); (43905,
   [5041]); (43906, [5042]); (43907, [5043]); (43908, [5044]); (43909,
   [5045]); (43910, [5046]); (43911, [5047]); (43912, [5048]); (43913,
   [5049]); (43914, [5050]); (43915, [5051]); (43916, [5052]); (43917,
   [5053]); (43918, [5054]); (43919, [5055]); (43920, [5056]); (43921,
   [5057]); (43922, [5058]); (43923, [5059]); (43924, [5060]); (43925,
   [5061]); (43926, [5062]); (43927, [5063]); (43928, [5064]); (43929,
   [5065]); (43930, [5066]); (43931, [5067]); (43932, [5068]); (43933,
   [5069]); (43934, [5070]); (43935, [5071]); (43936, [5072]); (43937,
   [5073]); (43938, [5074]); (43939, [5075]); (43940, [5076]); (43941,
   [5077]); (43942, [5078]); (43943, [5079]); (43944, [5080]); (43945,
   [5081]); (43946, [5082]); (43947, [5083]); (43948, [5084]); (43949,
   [5085]); (43950, [5086]); (43951, [5087]); (43952, [5088]); (43953,
   [5089]); (43954, [5090]); (43955, [5091]); (43956, [5092]); (43957,
   [5093]); (43958, [5094]); (43959, [5095]); (43960, [5096]); (43961,
   [5097]); (43962, [5098]); (43963, [5099]); (43964, [5100]); (43965,
   [5101]); (43966, [5102]); (43967, [5103]); (64256, [70; 70]); (64257,
   [70; 73]); (64258, [70; 76]); (64259, [70; 70; 73]); (64260, [70; 70;
   76]); (64261, [83; 84]); (64262, [83; 84]); (64275, [1348; 1350]);
   (64276, [1348; 1333]); (64277, [1348; 1339]); (64278, [1358; 1350]);
   (64279, [1348; 1341]); (65345, [65313]); (65346, [65314]); (65347,
   [65315]); (65348, [65316]); (65349, [65317]); (65350, [65318]); (65351,
   [65319]); (65352, [65320]); (65353, [65321]); (65354, [65322]); (65355,
   [65323]); (65356, [65324]); (65357, [65325]); (65358, [65326]); (65359,
   [65327]); (65360, [65328]); (65361, [65329]); (65362, [65330]); (65363,
   [65331]); (65364, [65332]); (65365, [65333]); (65366, [65334]); (65367,
   [65335]); (65368, [65336]); (65369, [65337]); (65370, [65338]); (66600,
   [66560]); (66601, [66561]); (66602, [66562]); (66603, [66563]); (66604,
   [66564]); (66605, [66565]); (66606, [66566]); (66607, [66567]); (66608,
   [66568]); (66609, [66569]); (66610, [66570]); (66611, [66571]); (66612,
   [66572]); (66613, [66573]); (66614, [66574]); (66615, [66575]); (66616,
   [66576]); (66617, [66577]); (66618, [66578]); (66619, [66579]); (66620,
   [66580]); (66621, [66581]); (66622, [66582]); (66623, [66583]); (66624,
   [66584]); (66625, [66585]); (66626, [66586]); (66627, [66587]); (66628,
   [66588]); (66629, [66589]); (66630, [66590]); (66631, [66591]); (66632,
   [66592]); (66633, [66593]); (66634, [66594]); (66635, [66595]); (66636,
   [66596]); (66637, [66597]); (66638, [66598]); (66639, [66599]); (66776,
   [66736]); (66777, [66737]); (66778, [66738]); (66779, [66739]); (66780,
   [66740]); (66781, [66741]); (66782, [66742]); (66783, [66743]); (66784,
   [66744]); (66785, [66745]); (66786, [66746]); (66787, [66747]); (66788,
   [66748]); (66789, [66749]); (66790, [66750]); (66791, [66751]); (66792,
   [66752]); (66793, [66753]); (66794, [66754]); (66795, [66755]); (66796,
   [66756]); (66797, [66757]); (66798, [66758]); (66799, [66759]); (66800,
   [66760]); (66801, [66761]); (66802, [66762]); (66803, [66763]); (66804,
   [66764]); (66805, [66765]); (66806, [66766]); (66807, [66767]); (66808,
   [66768]); (66809, [66769]); (66810, [66770]); (66811, [66771]); (66967,
   [66928]); (66968, [66929]); (66969, [66930]); (66970, [66931]); (66971,
   [66932]); (66972, [66933]); (66973, [66934]); (66974, [66935]); (66975,
   [66936]); (66976, [66937]); (66977, [66938]); (66979, [66940]); (66980,
   [66941]); (66981, [66942]); (66982, [66943]); (66983, [66944]); (66984,
   [66945]); (66985, [66946]); (66986, [66947]); (66987, [66948]); (66988,
   [66949]); (66989, [66950]); (66990, [66951]); (66991, [66952]); (66992,
   [66953]); (66993, [66954]); (66995, [66956]); (66996, [66957]); (66997,
   [66958]); (66998, [66959]); (66999, [66960]); (67000, [66961]); (67001,
   [66962]); (67003, [66964]); (67004, [66965]); (68800, [68736]); (68801,
   [68737]); (68802, [68738]); (68803, [68739]); (68804, [68740]); (68805,
   [68741]); (68806, [68742]); (68807, [68743]); (68808, [68744]); (68809,
   [68745]); (68810, [68746]); (68811, [68747]); (68812, [68748]); (68813,
   [68749]); (68814, [68750]); (68815, [68751]); (68816, [68752]); (68817,
   [68753]); (68818, [68754]); (68819, [68755]); (68820, [68756]); (68821,
   [68757]); (68822, [68758]); (68823, [68759]); (68824, [68760]); (68825,
   [68761]); (68826, [68762]); (68827, [68763]); (68828, [68764]); (68829,
   [68765]); (68830, [68766]); (68831, [68767]); (68832, [68768]); (68833,
   [68769]); (68834, [68770]); (68835, [68771]); (68836, [68772]); (68837,
   [68773]); (68838, [68774]); (68839, [68775]); (68840, [68776]); (68841,
   [68777]); (68842, [68778]); (68843, [68779]); (68844, [68780]); (68845,
   [68781]); (68846, [68782]); (68847, [68783]); (68848, [68784]); (68849,
   [68785]); (68850, [68786]); (71872, [71840]); (71873, [71841]); (71874,
   [71842]); (71875, [71843]); (71876, [71844]); (71877, [71845]); (71878,
   [71846]); (71879, [71847]); (71880, [71848]); (71881, [71849]); (71882,
   [71850]); (71883, [71851]); (71884, [71852]); (71885, [71853]); (71886,
   [71854]); (71887, [71855]); (71888, [71856]); (71889, [71857]); (71890,
   [71858]); (71891, [71859]); (71892, [71860]); (71893, [71861]); (71894,
   [71862]); (71895, [71863]); (71896, [71864]); (71897, [71865]); (71898,
   [71866]); (71899, [71867]); (71900, [71868]); (71901, [71869]); (71902,
   [71870]); (71903, [71871]); (93792, [93760]); (93793, [93761]); (93794,
   [93762]); (93795, [93763]); (93796, [93764]); (93797, [93765]); (93798,
   [93766]); (93799, [93767]); (93800, [93768]); (93801, [93769]); (93802,
   [93770]); (93803, [93771]); (93804, [93772]); (93805, [93773]); (93806,
   [93774]); (93807, [93775]); (93808, [93776]); (93809, [93777]); (93810,
   [93778]); (93811, [93779]); (93812, [93780]); (93813, [93781]); (93814,
   [93782]); (93815, [93783]); (93816, [93784]); (93817, [93785]); (93818,
   [93786]); (93819, [93787]); (93820, [93788]); (93821, [93789]); (93822,
   [93790]); (93823, [93791]); (125218, [125184]); (125219, [125185]);
   (125220, [125186]); (125221, [125187]); (125222, [125188]); (125223,
   [125189]); (125224, [125190]); (125225, [125191]); (125226, [125192]);
   (125227, [125193]); (125228, [125194]); (125229, [125195]); (125230,
   [125196]); (125231, [125197]); (125232, [125198]); (125233, [125199]);
   (125234, [125200]); (125235, [125201]); (125236, [125202]); (125237,
   [125203]); (125238, [125204]); (125239, [125205]); (125240, [125206]);
   (125241, [125207]); (125242, [125208]); (125243, [125209]); (125244,
   [125210]); (125245, [125211]); (125246, [125212]); (125247, [125213]);
   (125248, [125214]); (125249, [125215]); (125250, [125216]); (125251,
   [125217])
  ]%N.

(** The code points from 128 on that [lower()] changes, each with the code
    points it becomes. *)
Definition to_lower : list (N * list N) :=
  [
   (192, [224]); (193, [225]); (194, [226]); (195, [227]); (196, [228]);
   (197, [229]); (198, [230]); (199, [231]); (200, [232]); (201, [233]);
   (202, [234]); (203, [235]); (204, [236]); (205, [237]); (206, [238]);
   (207, [239]); (208, [240]); (209, [241]); (210, [242]); (211, [243]);
   (212, [244]); (213, [245]); (214, [246]); (216, [248]); (217, [249]);
   (218, [250]); (219, [251]); (220, [252]); (221, [253]); (222, [254]);
   (256, [257]); (258, [259]); (260, [261]); (262, [263]); (264, [265]);
   (266, [267]); (268, [269]); (270, [271]); (272, [273]); (274, [275]);
   (276, [277]); (278, [279]); (280, [281]); (282, [283]); (284, [285]);
   (286, [287]); (288, [289]); (290, [291]); (292, [293]); (294, [295]);
   (296, [297]); (298, [299]); (300, [301]); (302, [303]); (304, [105;
   775]); (306, [307]); (308, [309]); (310, [311]); (313, [314]); (315,
   [316]); (317, [318]); (319, [320]); (321, [322]); (323, [324]); (325,
   [326]); (327, [328]); (330, [331]); (332, [333]); (334, [335]); (336,
   [337]); (338, [339]); (340, [341]); (342, [343]); (344, [345]); (346,
   [347]); (348, [349]); (350, [351]); (352, [353]); (354, [355]); (356,
   [357]); (358, [359]); (360, [361]); (362, [363]); (364, [365]); (366,
   [367]); (368, [369]); (370, [371]); (372, [373]); (374, [375]); (376,
   [255]); (377, [378]); (379, [380]); (381, [382]); (385, [595]); (386,
   [387]); (388, [389]); (390, [596]); (391, [392]); (393, [598]); (394,
   [599]); (395, [396]); (398, [477]); (399, [601]); (400, [603]); (401,
   [402]); (403, [608]); (404, [611]); (406, [617]); (407, [616]); (408,
   [409]); (412, [623]); (413, [626]); (415, [629]); (416, [417]); (418,
   [419]); (420, [421]); (422, [640]); (423, [424]); (425, [643]); (428,
   [429]); (430, [648]); (431, [432]); (433, [650]); (434, [651]); (435,
   [436]); (437, [438]); (439, [658]); (440, [441]); (444, [445]); (452,
   [454]); (453, [454]); (455, [457]); (456, [457]); (458, [460]); (459,
   [460]); (461, [462]); (463, [464]); (465, [466]); (467, [468]); (469,
   [470]); (471, [472]); (473, [474]); (475, [476]); (478, [479]); (480,
   [481]); (482, [483]); (484, [485]); (486, [487]); (488, [489]); (490,
   [491]); (492, [493]); (494, [495]); (497, [499]); (498, [499]); (500,
   [501]); (502, [405]); (503, [447]); (504, [505]); (506, [507]); (508,
   [509]); (510, [511]); (512, [513]); (514, [515]); (516, [517]); (518,
   [519]); (520, [521]); (522, [523]); (524, [525]); (526, [527]); (528,
   [529]); (530, [531]); (532, [533]); (534, [535]); (536, [537]); (538,
   [539]); (540, [541]); (542, [543]); (544, [414]); (546, [547]); (548,
   [549]); (550, [551]); (552, [553]); (554, [555]); (556, [557]); (558,
   [559]); (560, [561]); (562, [563]); (570, [11365]); (571, [572]); (573,
   [410]); (574, [11366]); (577, [578]); (579, [384]); (580, [649]); (581,
   [652]); (582, [583]); (584, [585]); (586, [587]); (588, [589]); (590,
   [591]); (880, [881]); (882, [883]); (886, [887]); (895, [1011]); (902,
   [940]); (904, [941]); (905, [942]); (906, [943]); (908, [972]); (910,
   [973]); (911, [974]); (913, [945]); (914, [946]); (915, [947]); (916,
   [948]); (917, [949]); (918, [950]); (919, [951]); (920, [952]); (921,
   [953]); (922, [954]); (923, [955]); (924, [956]); (925, [957]); (926,
   [958]); (927, [959]); (928, [960]); (929, [961]); (931, [963]); (932,
   [964]); (933, [965]); (934, [966]); (935, [967]); (936, [968]); (937,
   [969]); (938, [970]); (939, [971]); (975, [983]); (984, [985]); (986,
   [987]); (988, [989]); (990, [991]); (992, [993]); (994, [995]); (996,
   [997]); (998, [999]); (1000, [1001]); (1002, [1003]); (1004, [1005]);
   (1006, [1007]); (1012, [952]); (1015, [1016]); (1017, [1010]); (1018,
   [1019]); (1021, [891]); (1022, [892]); (1023, [893]); (1024, [1104]);
   (1025, [1105]); (1026, [1106]); (1027, [1107]); (1028, [1108]); (1029,
   [1109]); (1030, [1110]); (1031, [1111]); (1032, [1112]); (1033, [1113]);
   (1034, [1114]); (1035, [1115]); (1036, [1116]); (1037, [1117]); (1038,
   [1118]); (1039, [1119]); (1040, [1072]); (1041, [1073]); (1042, [1074]);
   (1043, [1075]); (1044, [1076]); (1045, [1077]); (1046, [1078]); (1047,
   [1079]); (1048, [1080]); (1049, [1081]); (1050, [1082]); (1051, [1083]);
   (1052, [1084]); (1053, [1085]); (1054, [1086]); (1055, [1087]); (1056,
   [1088]); (1057, [1089]); (1058, [1090]); (1059, [1091]); (1060, [1092]);
   (1061, [1093]); (1062, [1094]); (1063, [1095]); (1064, [1096]); (1065,
   [1097]); (1066, [1098]); (1067, [1099]); (1068, [1100]); (1069, [1101]);
   (1070, [1102]); (1071, [1103]); (1120, [1121]); (1122, [1123]); (1124,
   [1125]); (1126, [1127]); (1128, [1129]); (1130, [1131]); (1132, [1133]);
   (1134, [1135]); (1136, [1137]); (1138, [1139]); (1140, [1141]); (1142,
   [1143]); (1144, [1145]); (1146, [1147]); (1148, [1149]); (1150, [1151]);
   (1152, [1153]); (1162, [1163]); (1164, [1165]); (1166, [1167]); (1168,
   [1169]); (1170, [1171]); (1172, [1173]); (1174, [1175]); (1176, [1177]);
   (1178, [1179]); (1180, [1181]); (1182, [1183]); (1184, [1185]); (1186,
   [1187]); (1188, [1189]); (1190, [1191]); (1192, [1193]); (1194, [1195]);
   (1196, [1197]); (1198, [1199]); (1200, [1201]); (1202, [1203]); (1204,
   [1205]); (1206, [1207]); (1208, [1209]); (1210, [1211]); (1212, [1213]);
   (1214, [1215]); (1216, [1231]); (1217, [1218]); (1219, [1220]); (1221,
   [1222]); (1223, [1224]); (1225, [1226]); (1227, [1228]); (1229, [1230]);
   (1232, [1233]); (1234, [1235]); (1236, [1237]); (1238, [1239]); (1240,
   [1241]); (1242, [1243]); (1244, [1245]); (1246, [1247]); (1248, [1249]);
   (1250, [1251]); (1252, [1253]); (1254, [1255]); (1256, [1257]); (1258,
   [1259]); (1260, [1261]); (1262, [1263]); (1264, [1265]); (1266, [1267]);
   (1268, [1269]); (1270, [1271]); (1272, [1273]); (1274, [1275]); (1276,
   [1277]); (1278, [1279]); (1280, [1281]); (1282, [1283]); (1284, [1285]);
   (1286, [1287]); (1288, [1289]); (1290, [1291]); (1292, [1293]); (1294,
   [1295]); (1296, [1297]); (1298, [1299]); (1300, [1301]); (1302, [1303]);
   (1304, [1305]); (1306, [1307]); (1308, [1309]); (1310, [1311]); (1312,
   [1313]); (1314, [1315]); (1316, [1317]); (1318, [1319]); (1320, [1321]);
   (1322, [1323]); (1324, [1325]); (1326, [1327]); (1329, [1377]); (1330,
   [1378]); (1331, [1379]); (1332, [1380]); (1333, [1381]); (1334, [1382]);
   (1335, [1383]); (1336, [1384]); (1337, [1385]); (1338, [1386]); (1339,
   [1387]); (1340, [1388]); (1341, [1389]); (1342, [1390]); (1343, [1391]);
   (1344, [1392]); (1345, [1393]); (1346, [1394]); (1347, [1395]); (1348,
   [1396]); (1349, [1397]); (1350, [1398]); (1351, [1399]); (1352, [1400]);
   (1353, [1401]); (1354, [1402]); (1355, [1403]); (1356, [1404]); (1357,
   [1405]); (1358, [1406]); (1359, [1407]); (1360, [1408]); (1361, [1409]);
   (1362, [1410]); (1363, [1411]); (1364, [1412]); (1365, [1413]); (1366,
   [1414]); (4256, [11520]); (4257, [11521]); (4258, [11522]); (4259,
   [11523]); (4260, [11524]); (4261, [11525]); (4262, [11526]); (4263,
   [11527]); (4264, [11528]); (4265, [11529]); (4266, [11530]); (4267,
   [11531]); (4268, [11532]); (4269, [11533]); (4270, [11534]); (4271,
   [11535]); (4272, [11536]); (4273, [11537]); (4274, [11538]); (4275,
   [11539]); (4276, [11540]); (4277, [11541]); (4278, [11542]); (4279,
   [11543]); (4280, [11544]); (4281, [11545]); (4282, [11546]); (4283,
   [11547]); (4284, [11548]); (4285, [11549]); (4286, [11550]); (4287,
   [11551]); (4288, [11552]); (4289, [11553]); (4290, [11554]); (4291,
   [11555]); (4292, [11556]); (4293, [11557]); (4295, [11559]); (4301,
   [11565]); (5024, [43888]); (5025, [43889]); (5026, [43890]); (5027,
   [43891]); (5028, [43892]); (5029, [43893]); (5030, [43894]); (5031,
   [43895]); (5032, [43896]); (5033, [43897]); (5034, [43898]); (5035,
   [43899]); (5036, [43900]); (5037, [43901]); (5038, [43902]); (5039,
   [43903]); (5040, [43904]); (5041, [43905]); (5042, [43906]); (5043,
   [43907]); (5044, [43908]); (5045, [43909]); (5046, [43910]); (5047,
   [43911]); (5048, [43912]); (5049, [43913]); (5050, [43914]); (5051,
   [43915]); (5052, [43916]); (5053, [43917]); (5054, [43918]); (5055,
   [43919]); (5056, [43920]); (5057, [43921]); (5058, [43922]); (5059,
   [43923]); (5060, [43924]); (5061, [43925]); (5062, [43926]); (5063,
   [43927]); (5064, [43928]); (5065, [43929]); (5066, [43930]); (5067,
   [43931]); (5068, [43932]); (5069, [43933]); (5070, [43934]); (5071,
   [43935]); (5072, [43936]); (5073, [43937]); (5074, [43938]); (5075,
   [43939]); (5076, [43940]); (5077, [43941]); (5078, [43942]); (5079,
   [43943]); (5080, [43944]); (5081, [43945]); (5082, [43946]); (5083,
   [43947]); (5084, [43948]); (5085, [43949]); (5086, [43950]); (5087,
   [43951]); (5088, [43952]); (5089, [43953]); (5090, [43954]); (5091,
   [43955]); (5092, [43956]); (5093, [43957]); (5094, [43958]); (5095,
   [43959]); (5096, [43960]); (5097, [43961]); (5098, [43962]); (5099,
   [43963]); (5100, [43964]); (5101, [43965]); (5102, [43966]); (5103,
   [43967]); (5104, [5112]); (5105, [5113]); (5106, [5114]); (5107, [5115]);
   (5108, [5116]); (5109, [5117]); (7312, [4304]); (7313, [4305]); (7314,
   [4306]); (7315, [4307]); (7316, [4308]); (7317, [4309]); (7318, [4310]);
   (7319, [4311]); (7320, [4312]); (7321, [4313]); (7322, [4314]); (7323,
   [4315]); (7324, [4316]); (7325, [4317]); (7326, [4318]); (7327, [4319]);
   (7328, [4320]); (7329, [4321]); (7330, [4322]); (7331, [4323]); (7332,
   [4324]); (7333, [4325]); (7334, [4326]); (7335, [4327]); (7336, [4328]);
   (7337, [4329]); (7338, [4330]); (7339, [4331]); (7340, [4332]); (7341,
   [4333]); (7342, [4334]); (7343, [4335]); (7344, [4336]); (7345, [4337]);
   (7346, [4338]); (7347, [4339]); (7348, [4340]); (7349, [4341]); (7350,
   [4342]); (7351, [4343]); (7352, [4344]); (7353, [4345]); (7354, [4346]);
   (7357, [4349]); (7358, [4350]); (7359, [4351]); (7680, [7681]); (7682,
   [7683]); (7684, [7685]); (7686, [7687]); (7688, [7689]); (7690, [7691]);
   (7692, [7693]); (7694, [7695]); (7696, [7697]); (7698, [7699]); (7700,
   [7701]); (7702, [7703]); (7704, [7705]); (7706, [7707]); (7708, [7709]);
   (7710, [7711]); (7712, [7713]); (7714, [7715]); (7716, [7717]); (7718,
   [7719]); (7720, [7721]); (7722, [7723]); (7724, [7725]); (7726, [7727]);
   (7728, [7729]); (7730, [7731]); (7732, [7733]); (7734, [7735]); (7736,
   [7737]); (7738, [7739]); (7740, [7741]); (7742, [7743]); (7744, [7745]);
   (7746, [7747]); (7748, [7749]); (7750, [7751]); (7752, [7753]); (7754,
   [7755]); (7756, [7757]); (7758, [7759]); (7760, [7761]); (7762, [7763]);
   (7764, [7765]); (7766, [7767]); (7768, [7769]); (7770, [7771]); (7772,
   [7773]); (7774, [7775]); (7776, [7777]); (7778, [7779]); (7780, [7781]);
   (7782, [7783]); (7784, [7785]); (7786, [7787]); (7788, [7789]); (7790,
   [7791]); (7792, [7793]); (7794, [7795]); (7796, [7797]); (7798, [7799]);
   (7800, [7801]); (7802, [7803]); (7804, [7805]); (7806, [7807]); (7808,
   [7809]); (7810, [7811]); (7812, [7813]); (7814, [7815]); (7816, [7817]);
   (7818, [7819]); (7820, [7821]); (7822, [7823]); (7824, [7825]); (7826,
   [7827]); (7828, [7829]); (7838, [223]); (7840, [7841]); (7842, [7843]);
   (7844, [7845]); (7846, [7847]); (7848, [7849]); (7850, [7851]); (7852,
   [7853]); (7854, [7855]); (7856, [7857]); (7858, [7859]); (7860, [7861]);
   (7862, [7863]); (7864, [7865]); (7866, [7867]); (7868, [7869]); (7870,
   [7871]); (7872, [7873]); (7874, [7875]); (7876, [7877]); (7878, [7879]);
   (7880, [7881]); (7882, [7883]); (7884, [7885]); (7886, [7887]); (7888,
   [7889]); (7890, [7891]); (7892, [7893]); (7894, [7895]); (7896, [7897]);
   (7898, [7899]); (7900, [7901]); (7902, [7903]); (7904, [7905]); (7906,
   [7907]); (7908, [7909]); (7910, [7911]); (7912, [7913]); (7914, [7915]);
   (7916, [7917]); (7918, [7919]); (7920, [7921]); (7922, [7923]); (7924,
   [7925]); (7926, [7927]); (7928, [7929]); (7930, [7931]); (7932, [7933]);
   (7934, [7935]); (7944, [7936]); (7945, [7937]); (7946, [7938]); (7947,
   [7939]); (7948, [7940]); (7949, [7941]); (7950, [7942]); (7951, [7943]);
   (7960, [7952]); (7961, [7953]); (7962, [7954]); (7963, [7955]); (7964,
   [7956]); (7965, [7957]); (7976, [7968]); (7977, [7969]); (7978, [7970]);
   (7979, [7971]); (7980, [7972]); (7981, [7973]); (7982, [7974]); (7983,
   [7975]); (7992, [7984]); (7993, [7985]); (7994, [7986]); (7995, [7987]);
   (7996, [7988]); (7997, [7989]); (7998, [7990]); (7999, [7991]); (8008,
   [8000]); (8009, [8001]); (8010, [8002]); (8011, [8003]); (8012, [8004]);
   (8013, [8005]); (8025, [8017]); (8027, [8019]); (8029, [8021]); (8031,
   [8023]); (8040, [8032]); (8041, [8033]); (8042, [8034]); (8043, [8035]);
   (8044, [8036]); (8045, [8037]); (8046, [8038]); (8047, [8039]); (8072,
   [8064]); (8073, [8065]); (8074, [8066]); (8075, [8067]); (8076, [8068]);
   (8077, [8069]); (8078, [8070]); (8079, [8071]); (8088, [8080]); (8089,
   [8081]); (8090, [8082]); (8091, [8083]); (8092, [8084]); (8093, [8085]);
   (8094, [8086]); (8095, [8087]); (8104, [8096]); (8105, [8097]); (8106,
   [8098]); (8107, [8099]); (8108, [8100]); (8109, [8101]); (8110, [8102]);
   (8111, [8103]); (8120, [8112]); (8121, [8113]); (8122, [8048]); (8123,
   [8049]); (8124, [8115]); (8136, [8050]); (8137, [8051]); (8138, [8052]);
   (8139, [8053]); (8140, [8131]); (8152, [8144]); (8153, [8145]); (8154,
   [8054]); (8155, [8055]); (8168, [8160]); (8169, [8161]); (8170, [8058]);
   (8171, [8059]); (8172, [8165]); (8184, [8056]); (8185, [8057]); (8186,
   [8060]); (8187, [8061]); (8188, [8179]); (8486, [969]); (8490, [107]);
   (8491, [229]); (8498, [8526]); (8544, [8560]); (8545, [8561]); (8546,
   [8562]); (8547, [8563]); (8548, [8564]); (8549, [8565]); (8550, [8566]);
   (8551, [8567]); (8552, [8568]); (8553, [8569]); (8554, [8570]); (8555,
   [8571]); (8556, [8572]); (8557, [8573]); (8558, [8574]); (8559, [8575]);
   (8579, [8580]); (9398, [9424]); (9399, [9425]); (9400, [9426]); (9401,
   [9427]); (9402, [9428]); (9403, [9429]); (9404, [9430]); (9405, [9431]);
   (9406, [9432]); (9407, [9433]); (9408, [9434]); (9409, [9435]); (9410,
   [9436]); (9411, [9437]); (9412, [9438]); (9413, [9439]); (9414, [9440]);
   (9415, [9441]); (9416, [9442]); (9417, [9443]); (9418, [9444]); (9419,
   [9445]); (9420, [9446]); (9421, [9447]); (9422, [9448]); (9423, [9449]);
   (11264, [11312]); (11265, [11313]); (11266, [11314]); (11267, [11315]);
   (11268, [11316]); (11269, [11317]); (11270, [11318]); (11271, [11319]);
   (11272, [11320]); (11273, [11321]); (11274, [11322]); (11275, [11323]);
   (11276, [11324]); (11277, [11325]); (11278, [11326]); (11279, [11327]);
   (11280, [11328]); (11281, [11329]); (11282, [11330]); (11283, [11331]);
   (11284, [11332]); (11285, [11333]); (11286, [11334]); (11287, [11335]);
   (11288, [11336]); (11289, [11337]); (11290, [11338]); (11291, [11339]);
   (11292, [11340]); (11293, [11341]); (11294, [11342]); (11295, [11343]);
   (11296, [11344]); (11297, [11345]); (11298, [11346]); (11299, [11347]);
   (11300, [11348]); (11301, [11349]); (11302, [11350]); (11303, [11351]);
   (11304, [11352]); (11305, [11353]); (11306, [11354]); (11307, [11355]);
   (11308, [11356]); (11309, [11357]); (11310, [11358]); (11311, [11359]);
   (11360, [11361]); (11362, [619]); (11363, [7549]); (11364, [637]);
   (11367, [11368]); (11369, [11370]); (11371, [11372]); (11373, [593]);
   (11374, [625]); (11375, [592]); (11376, [594]); (11378, [11379]); (11381,
   [11382]); (11390, [575]); (11391, [576]); (11392, [11393]); (11394,
   [11395]); (11396, [11397]); (11398, [11399]); (11400, [11401]); (11402,
   [11403]); (11404, [11405]); (11406, [11407]); (11408, [11409]); (11410,
   [11411]); (11412, [11413]); (11414, [11415]); (11416, [11417]); (11418,
   [11419]); (11420, [11421]); (11422, [11423]); (11424, [11425]); (11426,
   [11427]); (11428, [11429]); (11430, [11431]); (11432, [11433]); (11434,
   [11435]); (11436, [11437]); (11438, [11439]); (11440, [11441]); (11442,
   [11443]); (11444, [11445]); (11446, [11447]); (11448, [11449]); (11450,
   [11451]); (11452, [11453]); (11454, [11455]); (11456, [11457]); (11458,
   [11459]); (11460, [11461]); (11462, [11463]); (11464, [11465]); (11466,
   [11467]); (11468, [11469]); (11470, [11471]); (11472, [11473]); (11474,
   [11475]); (11476, [11477]); (11478, [11479]); (11480, [11481]); (11482,
   [11483]); (11484, [11485]); (11486, [11487]); (11488, [11489]); (11490,
   [11491]); (11499, [11500]); (11501, [11502]); (11506, [11507]); (42560,
   [42561]); (42562, [42563]); (42564, [42565]); (42566, [42567]); (42568,
   [42569]); (42570, [42571]); (42572, [42573]); (42574, [42575]); (42576,
   [42577]); (42578, [42579]); (42580, [42581]); (42582, [42583]); (42584,
   [42585]); (42586, [42587]); (42588, [42589]); (42590, [42591]); (42592,
   [42593]); (42594, [42595]); (42596, [42597]); (42598, [42599]); (42600,
   [42601]); (42602, [42603]); (42604, [42605]); (42624, [42625]); (42626,
   [42627]); (42628, [42629]); (42630, [42631]); (42632, [42633]); (42634,
   [42635]); (42636, [42637]); (42638, [42639]); (42640, [42641]); (42642,
   [42643]); (42644, [42645]); (42646, [42647]); (42648, [42649]); (42650,
   [42651]); (42786, [42787]); (42788, [42789]); (42790, [42791]); (42792,
   [42793]); (42794, [42795]); (42796, [42797]); (42798, [42799]); (42802,
   [42803]); (42804, [42805]); (42806, [42807]); (42808, [42809]); (42810,
   [42811]); (42812, [42813]); (42814, [42815]); (42816, [42817]); (42818,
   [42819]); (42820, [42821]); (42822, [42823]); (42824, [42825]); (42826,
   [42827]); (42828, [42829]); (42830, [42831]); (42832, [42833]); (42834,
   [42835]); (42836, [42837]); (42838, [42839]); (42840, [42841]); (42842,
   [42843]); (42844, [42845]); (42846, [42847]); (42848, [42849]); (42850,
   [42851]); (42852, [42853]); (42854, [42855]); (42856, [42857]); (42858,
   [42859]); (42860, [42861]); (42862, [42863]); (42873, [42874]); (42875,
   [42876]); (42877, [7545]); (42878, [42879]); (42880, [42881]); (42882,
   [42883]); (42884, [42885]); (42886, [42887]); (42891, [42892]); (42893,
   [613]); (42896, [42897]); (42898, [42899]); (42902, [42903]); (42904,
   [42905]); (42906, [42907]); (42908, [42909]); (42910, [42911]); (42912,
   [42913]); (42914, [42915]); (42916, [42917]); (42918, [42919]); (42920,
   [42921]); (42922, [614]); (42923, [604]); (42924, [609]); (42925, [620]);
   (42926, [618]); (42928, [670]); (42929, [647]); (42930, [669]); (42931,
   [43859]); (42932, [42933]); (42934, [42935]); (42936, [42937]); (42938,
   [42939]); (42940, [42941]); (42942, [42943]); (42944, [42945]); (42946,
   [42947]); (42948, [42900]); (42949, [642]); (42950, [7566]); (42951,
   [42952]); (42953, [42954]); (42960, [42961]); (42966, [42967]); (42968,
   [42969]); (42997, [42998]); (65313, [65345]); (65314, [65346]); (65315,
   [65347]); (65316, [65348]); (65317, [65349]); (65318, [65350]); (65319,
   [65351]); (65320, [65352]); (65321, [65353]); (65322, [65354]); (65323,
   [65355]); (65324, [65356]); (65325, [65357]); (65326, [65358]); (65327,
   [65359]); (65328, [65360]); (65329, [65361]); (65330, [65362]); (65331,
   [65363]); (65332, [65364]); (65333, [65365]); (65334, [65366]); (65335,
   [65367]); (65336, [65368]); (65337, [65369]); (65338, [65370]); (66560,
   [66600]); (66561, [66601]); (66562, [66602]); (66563, [66603]); (66564,
   [66604]); (66565, [66605]); (66566, [66606]); (66567, [66607]); (66568,
   [66608]); (66569, [66609]); (66570, [66610]); (66571, [66611]); (66572,
   [66612]); (66573, [66613]); (66574, [66614]); (66575, [66615]); (66576,
   [66616]); (66577, [66617]); (66578, [66618]); (66579, [66619]); (66580,
   [66620]); (66581, [66621]); (66582, [66622]); (66583, [66623]); (66584,
   [66624]); (66585, [66625]); (66586, [66626]); (66587, [66627]); (66588,
   [66628]); (66589, [66629]); (66590, [66630]); (66591, [66631]); (66592,
   [66632]); (66593, [66633]); (66594, [66634]); (66595, [66635]); (66596,
   [66636]); (66597, [66637]); (66598, [66638]); (66599, [66639]); (66736,
   [66776]); (66737, [66777]); (66738, [66778]); (66739, [66779]); (66740,
   [66780]); (66741, [66781]); (66742, [66782]); (66743, [66783]); (66744,
   [66784]); (66745, [66785]); (66746, [66786]); (66747, [66787]); (66748,
   [66788]); (66749, [66789]); (66750, [66790]); (66751, [66791]); (66752,
   [66792]); (66753, [66793]); (66754, [66794]); (66755, [66795]); (66756,
   [66796]); (66757, [66797]); (66758, [66798]); (66759, [66799]); (66760,
   [66800]); (66761, [66801]); (66762, [66802]); (66763, [66803]); (66764,
   [66804]); (66765, [66805]); (66766, [66806]); (66767, [66807]); (66768,
   [66808]); (66769, [66809]); (66770, [66810]); (66771, [66811]); (66928,
   [66967]); (66929, [66968]); (66930, [66969]); (66931, [66970]); (66932,
   [66971]); (66933, [66972]); (66934, [66973]); (66935, [66974]); (66936,
   [66975]); (66937, [66976]); (66938, [66977]); (66940, [66979]); (66941,
   [66980]); (66942, [66981]); (66943, [66982]); (66944, [66983]); (66945,
   [66984]); (66946, [66985]); (66947, [66986]); (66948, [66987]); (66949,
   [66988]); (66950, [66989]); (66951, [66990]); (66952, [66991]); (66953,
   [66992]); (66954, [66993]); (66956, [66995]); (66957, [66996]); (66958,
   [66997]); (66959, [66998]); (66960, [66999]); (66961, [67000]); (66962,
   [67001]); (66964, [67003]); (66965, [67004]); (68736, [68800]); (68737,
   [68801]); (68738, [68802]); (68739, [68803]); (68740, [68804]); (68741,
   [68805]); (68742, [68806]); (68743, [68807]); (68744, [68808]); (68745,
   [68809]); (68746, [68810]); (68747, [68811]); (68748, [68812]); (68749,
   [68813]); (68750, [68814]); (68751, [68815]); (68752, [68816]); (68753,
   [68817]); (68754, [68818]); (68755, [68819]); (68756, [68820]); (68757,
   [68821]); (68758, [68822]); (68759, [68823]); (68760, [68824]); (68761,
   [68825]); (68762, [68826]); (68763, [68827]); (68764, [68828]); (68765,
   [68829]); (68766, [68830]); (68767, [68831]); (68768, [68832]); (68769,
   [68833]); (68770, [68834]); (68771, [68835]); (68772, [68836]); (68773,
   [68837]); (68774, [68838]); (68775, [68839]); (68776, [68840]); (68777,
   [68841]); (68778, [68842]); (68779, [68843]); (68780, [68844]); (68781,
   [68845]); (68782, [68846]); (68783, [68847]); (68784, [68848]); (68785,
   [68849]); (68786, [68850]); (71840, [71872]); (71841, [71873]); (71842,
   [71874]); (71843, [71875]); (71844, [71876]); (71845, [71877]); (71846,
   [71878]); (71847, [71879]); (71848, [71880]); (71849, [71881]); (71850,
   [71882]); (71851, [71883]); (71852, [71884]); (71853, [71885]); (71854,
   [71886]); (71855, [71887]); (71856, [71888]); (71857, [71889]); (71858,
   [71890]); (71859, [71891]); (71860, [71892]); (71861, [71893]); (71862,
   [71894]); (71863, [71895]); (71864, [71896]); (71865, [71897]); (71866,
   [71898]); (71867, [71899]); (71868, [71900]); (71869, [71901]); (71870,
   [71902]); (71871, [71903]); (93760, [93792]); (93761, [93793]); (93762,
   [93794]); (93763, [93795]); (93764, [93796]); (93765, [93797]); (93766,
   [93798]); (93767, [93799]); (93768, [93800]); (93769, [93801]); (93770,
   [93802]); (93771, [93803]); (93772, [93804]); (93773, [93805]); (93774,
   [93806]); (93775, [93807]); (93776, [93808]); (93777, [93809]); (93778,
   [93810]); (93779, [93811]); (93780, [93812]); (93781, [93813]); (93782,
   [93814]); (93783, [93815]); (93784, [93816]); (93785, [93817]); (93786,
   [93818]); (93787, [93819]); (93788, [93820]); (93789, [93821]); (93790,
   [93822]); (93791, [93823]); (125184, [125218]); (125185, [125219]);
   (125186, [125220]); (125187, [125221]); (125188, [125222]); (125189,
   [125223]); (125190, [125224]); (125191, [125225]); (125192, [125226]);
   (125193, [125227]); (125194, [125228]); (125195, [125229]); (125196,
   [125230]); (125197, [125231]); (125198, [125232]); (125199, [125233]);
   (125200, [125234]); (125201, [125235]); (125202, [125236]); (125203,
   [125237]); (125204, [125238]); (125205, [125239]); (125206, [125240]);
   (125207, [125241]); (125208, [125242]); (125209, [125243]); (125210,
   [125244]); (125211, [125245]); (125212, [125246]); (125213, [125247]);
   (125214, [125248]); (125215, [125249]); (125216, [125250]); (125217,
   [125251])
  ]%N.

(** The cased code points (lower case, upper case or title case), as
    closed intervals. *)
Definition cased : list (N * N) :=
  [
   (65, 90); (97, 122); (170, 170); (181, 181); (186, 186); (192, 214);
   (216, 246); (248, 442); (444, 447); (452, 659); (661, 696); (704, 705);
   (736, 740); (837, 837); (880, 883); (886, 887); (890, 893); (895, 895);
   (902, 902); (904, 906); (908, 908); (910, 929); (931, 1013); (1015,
   1153); (1162, 1327); (1329, 1366); (1376, 1416); (4256, 4293); (4295,
   4295); (4301, 4301); (4304, 4346); (4349, 4351); (5024, 5109); (5112,
   5117); (7296, 7304); (7312, 7354); (7357, 7359); (7424, 7615); (7680,
   7957); (7960, 7965); (7968, 8005); (8008, 8013); (8016, 8023); (8025,
   8025); (8027, 8027); (8029, 8029); (8031, 8061); (8064, 8116); (8118,
   8124); (8126, 8126); (8130, 8132); (8134, 8140); (8144, 8147); (8150,
   8155); (8160, 8172); (8178, 8180); (8182, 8188); (8305, 8305); (8319,
   8319); (8336, 8348); (8450, 8450); (8455, 8455); (8458, 8467); (8469,
   8469); (8473, 8477); (8484, 8484); (8486, 8486); (8488, 8488); (8490,
   8493); (8495, 8500); (8505, 8505); (8508, 8511); (8517, 8521); (8526,
   8526); (8544, 8575); (8579, 8580); (9398, 9449); (11264, 11492); (11499,
   11502); (11506, 11507); (11520, 11557); (11559, 11559); (11565, 11565);
   (42560, 42605); (42624, 42653); (42786, 42887); (42891, 42894); (42896,
   42954); (42960, 42961); (42963, 42963); (42965, 42969); (42997, 42998);
   (43000, 43002); (43824, 43866); (43868, 43880); (43888, 43967); (64256,
   64262); (64275, 64279); (65313, 65338); (65345, 65370); (66560, 66639);
   (66736, 66771); (66776, 66811); (66928, 66938); (66940, 66954); (66956,
   66962); (66964, 66965); (66967, 66977); (66979, 66993); (66995, 67001);
   (67003, 67004); (67456, 67456); (67459, 67461); (67463, 67504); (67506,
   67514); (68736, 68786); (68800, 68850); (71840, 71903); (93760, 93823);
   (119808, 119892); (119894, 119964); (119966, 119967); (119970, 119970);
   (119973, 119974); (119977, 119980); (119982, 119993); (119995, 119995);
   (119997, 120003); (120005, 120069); (120071, 120074); (120077, 120084);
   (120086, 120092); (120094, 120121); (120123, 120126); (120128, 120132);
   (120134, 120134); (120138, 120144); (120146, 120485); (120488, 120512);
   (120514, 120538); (120540, 120570); (120572, 120596); (120598, 120628);
   (120630, 120654); (120656, 120686); (120688, 120712); (120714, 120744);
   (120746, 120770); (120772, 120779); (122624, 122633); (122635, 122654);
   (125184, 125251); (127280, 127305); (127312, 127337); (127344, 127369)
  ]%N.

(** The case-ignorable code points, as closed intervals. *)
Definition case_ignorable : list (N * N) :=
  [
   (39, 39); (46, 46); (58, 58); (94, 94); (96, 96); (168, 168); (173, 173);
   (175, 175); (180, 180); (183, 184); (688, 879); (884, 885); (890, 890);
   (900, 901); (903, 903); (1155, 1161); (1369, 1369); (1375, 1375); (1425,
   1469); (1471, 1471); (1473, 1474); (1476, 1477); (1479, 1479); (1524,
   1524); (1536, 1541); (1552, 1562); (1564, 1564); (1600, 1600); (1611,
   1631); (1648, 1648); (1750, 1757); (1759, 1768); (1770, 1773); (1807,
   1807); (1809, 1809); (1840, 1866); (1958, 1968); (2027, 2037); (2042,
   2042); (2045, 2045); (2070, 2093); (2137, 2139); (2184, 2184); (2192,
   2193); (2200, 2207); (2249, 2306); (2362, 2362); (2364, 2364); (2369,
   2376); (2381, 2381); (2385, 2391); (2402, 2403); (2417, 2417); (2433,
   2433); (2492, 2492); (2497, 2500); (2509, 2509); (2530, 2531); (2558,
   2558); (2561, 2562); (2620, 2620); (2625, 2626); (2631, 2632); (2635,
   2637); (2641, 2641); (2672, 2673); (2677, 2677); (2689, 2690); (2748,
   2748); (2753, 2757); (2759, 2760); (2765, 2765); (2786, 2787); (2810,
   2815); (2817, 2817); (2876, 2876); (2879, 2879); (2881, 2884); (2893,
   2893); (2901, 2902); (2914, 2915); (2946, 2946); (3008, 3008); (3021,
   3021); (3072, 3072); (3076, 3076); (3132, 3132); (3134, 3136); (3142,
   3144); (3146, 3149); (3157, 3158); (3170, 3171); (3201, 3201); (3260,
   3260); (3263, 3263); (3270, 3270); (3276, 3277); (3298, 3299); (3328,
   3329); (3387, 3388); (3393, 3396); (3405, 3405); (3426, 3427); (3457,
   3457); (3530, 3530); (3538, 3540); (3542, 3542); (3633, 3633); (3636,
   3642); (3654, 3662); (3761, 3761); (3764, 3772); (3782, 3782); (3784,
   3789); (3864, 3865); (3893, 3893); (3895, 3895); (3897, 3897); (3953,
   3966); (3968, 3972); (3974, 3975); (3981, 3991); (3993, 4028); (4038,
   4038); (4141, 4144); (4146, 4151); (4153, 4154); (4157, 4158); (4184,
   4185); (4190, 4192); (4209, 4212); (4226, 4226); (4229, 4230); (4237,
   4237); (4253, 4253); (4348, 4348); (4957, 4959); (5906, 5908); (5938,
   5939); (5970, 5971); (6002, 6003); (6068, 6069); (6071, 6077); (6086,
   6086); (6089, 6099); (6103, 6103); (6109, 6109); (6155, 6159); (6211,
   6211); (6277, 6278); (6313, 6313); (6432, 6434); (6439, 6440); (6450,
   6450); (6457, 6459); (6679, 6680); (6683, 6683); (6742, 6742); (6744,
   6750); (6752, 6752); (6754, 6754); (6757, 6764); (6771, 6780); (6783,
   6783); (6823, 6823); (6832, 6862); (6912, 6915); (6964, 6964); (6966,
   6970); (6972, 6972); (6978, 6978); (7019, 7027); (7040, 7041); (7074,
   7077); (7080, 7081); (7083, 7085); (7142, 7142); (7144, 7145); (7149,
   7149); (7151, 7153); (7212, 7219); (7222, 7223); (7288, 7293); (7376,
   7378); (7380, 7392); (7394, 7400); (7405, 7405); (7412, 7412); (7416,
   7417); (7468, 7530); (7544, 7544); (7579, 7679); (8125, 8125); (8127,
   8129); (8141, 8143); (8157, 8159); (8173, 8175); (8189, 8190); (8203,
   8207); (8216, 8217); (8228, 8228); (8231, 8231); (8234, 8238); (8288,
   8292); (8294, 8303); (8305, 8305); (8319, 8319); (8336, 8348); (8400,
   8432); (11388, 11389); (11503, 11505); (11631, 11631); (11647, 11647);
   (11744, 11775); (11823, 11823); (12293, 12293); (12330, 12333); (12337,
   12341); (12347, 12347); (12441, 12446); (12540, 12542); (40981, 40981);
   (42232, 42237); (42508, 42508); (42607, 42610); (42612, 42621); (42623,
   42623); (42652, 42655); (42736, 42737); (42752, 42785); (42864, 42864);
   (42888, 42890); (42994, 42996); (43000, 43001); (43010, 43010); (43014,
   43014); (43019, 43019); (43045, 43046); (43052, 43052); (43204, 43205);
   (43232, 43249); (43263, 43263); (43302, 43309); (43335, 43345); (43392,
   43394); (43443, 43443); (43446, 43449); (43452, 43453); (43471, 43471);
   (43493, 43494); (43561, 43566); (43569, 43570); (43573, 43574); (43587,
   43587); (43596, 43596); (43632, 43632); (43644, 43644); (43696, 43696);
   (43698, 43700); (43703, 43704); (43710, 43711); (43713, 43713); (43741,
   43741); (43756, 43757); (43763, 43764); (43766, 43766); (43867, 43871);
   (43881, 43883); (44005, 44005); (44008, 44008); (44013, 44013); (64286,
   64286); (64434, 64450); (65024, 65039); (65043, 65043); (65056, 65071);
   (65106, 65106); (65109, 65109); (65279, 65279); (65287, 65287); (65294,
   65294); (65306, 65306); (65342, 65342); (65344, 65344); (65392, 65392);
   (65438, 65439); (65507, 65507); (65529, 65531); (66045, 66045); (66272,
   66272); (66422, 66426); (67456, 67461); (67463, 67504); (67506, 67514);
   (68097, 68099); (68101, 68102); (68108, 68111); (68152, 68154); (68159,
   68159); (68325, 68326); (68900, 68903); (69291, 69292); (69446, 69456);
   (69506, 69509); (69633, 69633); (69688, 69702); (69744, 69744); (69747,
   69748); (69759, 69761); (69811, 69814); (69817, 69818); (69821, 69821);
   (69826, 69826); (69837, 69837); (69888, 69890); (69927, 69931); (69933,
   69940); (70003, 70003); (70016, 70017); (70070, 70078); (70089, 70092);
   (70095, 70095); (70191, 70193); (70196, 70196); (70198, 70199); (70206,
   70206); (70367, 70367); (70371, 70378); (70400, 70401); (70459, 70460);
   (70464, 70464); (70502, 70508); (70512, 70516); (70712, 70719); (70722,
   70724); (70726, 70726); (70750, 70750); (70835, 70840); (70842, 70842);
   (70847, 70848); (70850, 70851); (71090, 71093); (71100, 71101); (71103,
   71104); (71132, 71133); (71219, 71226); (71229, 71229); (71231, 71232);
   (71339, 71339); (71341, 71341); (71344, 71349); (71351, 71351); (71453,
   71455); (71458, 71461); (71463, 71467); (71727, 71735); (71737, 71738);
   (71995, 71996); (71998, 71998); (72003, 72003); (72148, 72151); (72154,
   72155); (72160, 72160); (72193, 72202); (72243, 72248); (72251, 72254);
   (72263, 72263); (72273, 72278); (72281, 72283); (72330, 72342); (72344,
   72345); (72752, 72758); (72760, 72765); (72767, 72767); (72850, 72871);
   (72874, 72880); (72882, 72883); (72885, 72886); (73009, 73014); (73018,
   73018); (73020, 73021); (73023, 73029); (73031, 73031); (73104, 73105);
   (73109, 73109); (73111, 73111); (73459, 73460); (78896, 78904); (92912,
   92916); (92976, 92982); (92992, 92995); (94031, 94031); (94095, 94111);
   (94176, 94177); (94179, 94180); (110576, 110579); (110581, 110587);
   (110589, 110590); (113821, 113822); (113824, 113827); (118528, 118573);
   (118576, 118598); (119143, 119145); (119155, 119170); (119173, 119179);
   (119210, 119213); (119362, 119364); (121344, 121398); (121403, 121452);
   (121461, 121461); (121476, 121476); (121499, 121503); (121505, 121519);
   (122880, 122886); (122888, 122904); (122907, 122913); (122915, 122916);
   (122918, 122922); (123184, 123197); (123566, 123566); (123628, 123631);
   (125136, 125142); (125252, 125259); (127995, 127999); (917505, 917505);
   (917536, 917631); (917760, 917999)
  ]%N.
(** The images of [c] in a table of case mappings, if it has an entry. *)
Fixpoint assoc (c : char) (table : list (N * list N)) : option (list char) :=
  match table with
  | [] => None
  | (k, image) :: rest => if (k =? c)%N then Some image else assoc c rest
  end.

(** [c] lies in one of the closed intervals. *)
Definition within (c : char) (intervals : list (N * N)) : bool :=
  List.existsb (fun i => (fst i <=? c)%N && (c <=? snd i)%N) intervals.

(** The full upper-case mapping of one code point; it can give up to three
    code points. *)
Definition upper_char (c : char) : list char :=
  if (c <? 128)%N then
    [if (97 <=? c)%N && (c <=? 122)%N then (c - 32)%N else c]
  else
    match assoc c to_upper with Some image => image | None => [c] end.

(** The full lower-case mapping of one code point. *)
Definition lower_char (c : char) : list char :=
  if (c <? 128)%N then
    [if (65 <=? c)%N && (c <=? 90)%N then (c + 32)%N else c]
  else
    match assoc c to_lower with Some image => image | None => [c] end.

Definition is_cased (c : char) : bool := within c cased.
Definition is_case_ignorable (c : char) : bool := within c case_ignorable.

(** [s.upper()] *)
Definition upper (s : str) : str := List.flat_map upper_char s.

(** The first code point of [s] that is not case-ignorable. *)
Fixpoint first_not_ignorable (s : str) : option char :=
  match s with
  | [] => None
  | c :: s' => if is_case_ignorable c then first_not_ignorable s' else Some c
  end.

Definition capital_sigma : char := 931%N.   (* U+03A3 *)
Definition final_sigma : char := 962%N.     (* U+03C2 *)
Definition small_sigma : char := 963%N.     (* U+03C3 *)

(** A capital sigma becomes the final sigma when a cased letter comes before
    it and none comes after it, case-ignorable code points apart; [before]
    is the text before it, nearest code point first. *)
Definition in_final_sigma_context (before after : str) : bool :=
  match first_not_ignorable before with
  | Some c =>
    is_cased c &&
    match first_not_ignorable after with
    | Some c' => negb (is_cased c')
    | None => true
    end
  | None => false
  end.

Fixpoint lower_from (before s : str) : str :=
  match s with
  | [] => []
  | c :: s' =>
    (if (c =? capital_sigma)%N then
       [if in_final_sigma_context before s' then final_sigma else small_sigma]
     else lower_char c)
    ++ lower_from (c :: before) s'
  end.

(** [s.lower()] *)
Definition lower (s : str) : str := lower_from [] s.

(** [s[:n]] *)
Definition slice_to (n : nat) (s : str) : str := firstn n s.

(** [s.startswith(p)] *)
Fixpoint startswith (p s : str) : bool :=
  match p, s with
  | [], _ => true
  | _ :: _, [] => false
  | a :: p', b :: s' => (a =? b)%N && startswith p' s'
  end.

(** [p in s]: [p] occurs in [s] as a substring. *)
Fixpoint contains (p s : str) : bool :=
  startswith p s ||
  match s with
  | [] => false
  | _ :: s' => contains p s'
  end.

(** Truth value of a string: [if s:] *)
Definition truthy (s : str) : bool :=
  match s with [] => false | _ :: _ => true end.

(** [sep.join(parts)] *)
Fixpoint join (sep : str) (parts : list str) : str :=
  match parts with
  | [] => []
  | [p] => p
  | p :: rest => p ++ sep ++ join sep rest
  end.

(** [sum(1 for w in words if w in s)] *)
Definition count_present (words : list str) (s : str) : Z :=
  Z.of_nat (List.length (List.filter (fun w => contains w s) words)).

(** [any(w in s for w in words)] *)
Definition any_present (words : list str) (s : str) : bool :=
  List.existsb (fun w => contains w s) words.

End PyStr.

Import PyStr.

(** ** Exceptions *)

Inductive PyExc : Type :=
| ZeroDivisionError
| UnboundLocalError (name : string)
| ValueError (msg : string)
| OtherError (msg : string).

Definition Result (A : Type) : Type := (PyExc + A)%type.

Definition ret {A} (a : A) : Result A := inr a.
Definition raise {A} (e : PyExc) : Result A := inl e.

Definition bind {A B} (m : Result A) (k : A -> Result B) : Result B :=
  match m with
  | inl e => inl e
  | inr a => k a
  end.

Notation "x <- m ;; k" := (bind m (fun x => k))
  (at level 61, m at next level, right associativity).

(** [try: body  except Exception: handler] *)
Definition try_except {A} (body : Result A) (handler : PyExc -> A) : A :=
  match body with
  | inl e => handler e
  | inr a => a
  end.

(** ** Python floats *)

Module PyFloat.

Local Open Scope float_scope.

Definition lt (a b : float) : bool := PrimFloat.ltb a b.
Definition gt (a b : float) : bool := PrimFloat.ltb b a.
Definition eq (a b : float) : bool := PrimFloat.eqb a b.

(** [a / b] *)
Definition py_div (a b : float) : Result float :=
  if PrimFloat.eqb b 0 then raise ZeroDivisionError else ret (a / b).

(** [float(n)] for a non-negative [int] below [2^63] (a length, a count). *)
Definition of_int (n : Z) : float := PrimFloat.of_uint63 (Uint63.of_Z n).

(** [min(a, b)]: the first of the smallest. *)
Definition py_min (a b : float) : float := if PrimFloat.ltb b a then b else a.

End PyFloat.

Import PyFloat.

(** ** Data model *)

(** The dictionary [token_data] built by [_fetch_token_data]: every key is
    always present, so the defaults of [token_data.get(key, default)] are
    never used. *)
Record TokenSnapshot : Type := mkSnapshot {
  price : float;
  market_cap : float;
  volume_24h : float;
  holders : Z;
  description : str;
  symbol : str;
  name : str
}.

Record RiskMetrics : Type := mkRiskMetrics {
  market_cap_risk : bool;
  volume_risk : bool;
  holder_risk : bool;
  liquidity_risk : bool
}.

(** [risk_metrics] is [None] for the empty dictionary of the handler. *)
Record RiskAssessment : Type := mkRisk {
  overall_risk : string;
  risk_factors : list string;
  recommendations : list string;
  risk_metrics : option RiskMetrics
}.

(** ** [TokenAnalyzer._assess_risk] *)

Module Risk.

Local Open Scope float_scope.
Local Open Scope string_scope.

(** The two lists the rules append to. *)
Definition Lists : Type := (list string * list string)%type.

Definition append2 (factor rec : string) (st : Lists) : Lists :=
  (fst st ++ [factor], snd st ++ [rec])%list.

(** Market cap risk *)
Definition market_cap_tier (mc : float) (st : Lists) : Lists :=
  if lt mc 100000 then
    append2 "Very low market cap" "Extreme caution required" st
  else if lt mc 1000000 then
    append2 "Low market cap" "High risk investment" st
  else st.

(** Volume risk *)
Definition volume_tier (mc vol : float) (st : Lists) : Lists :=
  if eq vol 0 then
    append2 "No trading volume" "Avoid trading" st
  else if lt vol (mc * 0.01) then
    append2 "Low trading volume" "Limited liquidity" st
  else st.

(** Holder risk *)
Definition holder_tier (h : Z) (st : Lists) : Lists :=
  if (h <? 100)%Z then
    append2 "Very few holders" "High concentration risk" st
  else if (h <? 1000)%Z then
    append2 "Limited holder base" "Monitor holder distribution" st
  else st.

(** Liquidity risk *)
Definition liquidity_tier (mc vol : float) (st : Lists) : Result Lists :=
  if gt vol 0 && gt mc 0 then
    liquidity_ratio <- py_div vol mc ;;
    if lt liquidity_ratio 0.01 then
      ret (append2 "Low liquidity" "Check liquidity before trading" st)
    else if lt liquidity_ratio 0.1 then
      ret (append2 "Moderate liquidity" "Monitor liquidity changes" st)
    else ret st
  else ret st.

(** The four tiers in the order of the source. *)
Definition tiers (t : TokenSnapshot) : Result Lists :=
  let st := ([], [])%list in
  let st := market_cap_tier (market_cap t) st in
  let st := volume_tier (market_cap t) (volume_24h t) st in
  let st := holder_tier (holders t) st in
  liquidity_tier (market_cap t) (volume_24h t) st.

(** Overall risk assessment *)
Definition overall_of_score (risk_score : Z) : string :=
  if (risk_score >=? 4)%Z then "extreme"
  else if (risk_score >=? 3)%Z then "high"
  else if (risk_score >=? 2)%Z then "medium"
  else if (risk_score >=? 1)%Z then "low"
  else "minimal".

(** ["liquidity_risk": volume_24h > 0 and (volume_24h / market_cap) < 0.1] *)
Definition liquidity_metric (mc vol : float) : Result bool :=
  if gt vol 0 then
    r <- py_div vol mc ;; ret (lt r 0.1)
  else ret false.

Definition metrics (t : TokenSnapshot) : Result RiskMetrics :=
  let mc := market_cap t in
  let vol := volume_24h t in
  let m1 := lt mc 1000000 in
  let m2 := lt vol (mc * 0.01) in
  let m3 := (holders t <? 1000)%Z in
  m4 <- liquidity_metric mc vol ;;
  ret (mkRiskMetrics m1 m2 m3 m4).

(** The body of the [try]. *)
Definition _assess_risk_body (t : TokenSnapshot) : Result RiskAssessment :=
  st <- tiers t ;;
  let risk_score := Z.of_nat (List.length (fst st)) in
  let overall := overall_of_score risk_score in
  m <- metrics t ;;
  ret (mkRisk overall (fst st) (snd st) (Some m)).

(** The result of the [except] branch. *)
Definition error_assessment : RiskAssessment :=
  mkRisk "unknown"
         ["Error in risk assessment"]
         ["Unable to generate recommendations"]
         None.

Definition _assess_risk (t : TokenSnapshot) : RiskAssessment :=
  try_except (_assess_risk_body t) (fun _ => error_assessment).

End Risk.

(** ** [TokenAnalyzer._analyze_metrics] *)

Record MetricsClassification : Type := mkMetrics {
  price_trend : string;
  volume_analysis : string;
  holder_distribution : string;
  liquidity_analysis : string;
  raw_metrics : option (float * float * float * Z)
}.

Module Metrics.

Local Open Scope float_scope.
Local Open Scope string_scope.

(** Price trend analysis *)
Definition price_trend_of (p mc vol : float) : string :=
  if gt p 0 then
    if gt vol (mc * 0.1) then "bullish"
    else if lt vol (mc * 0.01) then "bearish"
    else "neutral"
  else "neutral".

(** Volume analysis *)
Definition volume_analysis_of (mc vol : float) : string :=
  if gt vol 0 then
    if gt vol (mc * 0.5) then "high"
    else if gt vol (mc * 0.1) then "medium"
    else "low"
  else "low".

(** Holder distribution analysis *)
Definition holder_distribution_of (h : Z) : string :=
  if (h >? 0)%Z then
    if (h >? 10000)%Z then "distributed"
    else if (h >? 1000)%Z then "moderate"
    else "concentrated"
  else "concentrated".

(** Liquidity analysis *)
Definition liquidity_analysis_of (mc vol : float) : Result string :=
  if gt mc 0 && gt vol 0 then
    liquidity_ratio <- py_div vol mc ;;
    if gt liquidity_ratio 0.5 then ret "high"
    else if gt liquidity_ratio 0.1 then ret "medium"
    else ret "insufficient"
  else ret "insufficient".

Definition _analyze_metrics_body (t : TokenSnapshot)
  : Result MetricsClassification :=
  let p := price t in
  let mc := market_cap t in
  let vol := volume_24h t in
  let h := holders t in
  let pt := price_trend_of p mc vol in
  let va := volume_analysis_of mc vol in
  let hd := holder_distribution_of h in
  la <- liquidity_analysis_of mc vol ;;
  ret (mkMetrics pt va hd la (Some (p, mc, vol, h))).

Definition error_metrics : MetricsClassification :=
  mkMetrics "unknown" "unknown" "unknown" "unknown" None.

Definition _analyze_metrics (t : TokenSnapshot) : MetricsClassification :=
  try_except (_analyze_metrics_body t) (fun _ => error_metrics).

End Metrics.

(** ** [TokenAnalyzer._analyze_text_data] *)

Record DescriptionAnalysis : Type := mkDescriptionAnalysis {
  length : Z;
  has_technical_terms : bool;
  has_warning_signs : bool
}.

(** [description_analysis] is [None] for the empty dictionary of the
    handler. *)
Record TextAnalysis : Type := mkText {
  sentiment : string;
  credibility_score : float;
  social_media_presence : string;
  community_engagement : string;
  description_analysis : option DescriptionAnalysis
}.

Module Text.

Local Open Scope float_scope.
Local Open Scope string_scope.

Definition positive_words : list str :=
  List.map lit ["secure"; "safe"; "trusted"; "verified"; "audited"; "reliable"].
Definition negative_words : list str :=
  List.map lit ["scam"; "fake"; "suspicious"; "unverified"; "risky"; "warning"].
Definition technical_terms : list str :=
  List.map lit ["smart contract"; "blockchain"; "tokenomics"; "liquidity"; "audit"].
Definition warning_terms : list str :=
  List.map lit ["guaranteed"; "100x"; "moon"; "get rich"; "quick profit"].

Definition len {A} (l : list A) : Z := Z.of_nat (List.length l).

(** [a / b] on two [int]s, for the non-zero constant divisors of this
    function (500 and the lengths of the term lists). *)
Definition int_true_div (a b : Z) : float := of_int a / of_int b.

Definition positive_count (description_lower : str) : Z :=
  count_present positive_words description_lower.
Definition negative_count (description_lower : str) : Z :=
  count_present negative_words description_lower.

(** Basic sentiment analysis *)
Definition sentiment_of (description : str) : string :=
  if truthy description then
    let description_lower := lower description in
    let pc := positive_count description_lower in
    let nc := negative_count description_lower in
    if (pc >? nc)%Z then "positive"
    else if (nc >? pc)%Z then "negative"
    else "neutral"
  else "neutral".

Definition length_score (description : str) : float :=
  py_min (int_true_div (len description) 500) 1.0.

Definition technical_score (description_lower : str) : float :=
  int_true_div (count_present technical_terms description_lower)
               (len technical_terms).

Definition warning_score (description_lower : str) : float :=
  1 - int_true_div (count_present warning_terms description_lower)
                   (len warning_terms).

(** Credibility score calculation *)
Definition credibility_of (description : str) : float :=
  if truthy description then
    let description_lower := lower description in
    (length_score description + technical_score description_lower
     + warning_score description_lower) / 3
  else 0.5.

(** Social media presence analysis *)
Definition social_media_presence_of (h : Z) : string :=
  if (h >? 1000)%Z then "high"
  else if (h >? 100)%Z then "medium"
  else "low".

(** Community engagement analysis *)
Definition community_engagement_of (mc vol : float) : string :=
  if gt vol (mc * 0.1) then "active"
  else if gt vol (mc * 0.01) then "moderate"
  else "minimal".

(** Reading a local variable that is assigned only on some paths. *)
Definition read_local {A} (name : string) (v : option A) : Result A :=
  match v with
  | Some a => ret a
  | None => raise (UnboundLocalError name)
  end.

(** The body of the [try].  The locals [description_lower],
    [technical_terms] and [warning_terms] are assigned inside
    [if description:] only, and read again by the returned dictionary. *)
Definition _analyze_text_data_body (t : TokenSnapshot) : Result TextAnalysis :=
  let description := description t in
  let bound {A} (a : A) : option A :=
    if truthy description then Some a else None in
  let description_lower := bound (lower description) in
  let technical_terms := bound technical_terms in
  let warning_terms := bound warning_terms in
  let sentiment := sentiment_of description in
  let credibility_score := credibility_of description in
  let social_media_presence := social_media_presence_of (holders t) in
  let community_engagement :=
    community_engagement_of (market_cap t) (volume_24h t) in
  tt <- read_local "technical_terms" technical_terms ;;
  dl <- read_local "description_lower" description_lower ;;
  let has_tt := any_present tt dl in
  wt <- read_local "warning_terms" warning_terms ;;
  let has_ws := any_present wt dl in
  ret (mkText sentiment credibility_score social_media_presence
              community_engagement
              (Some (mkDescriptionAnalysis (len description) has_tt has_ws))).

Definition error_text : TextAnalysis :=
  mkText "neutral" 0.5 "low" "minimal" None.

Definition _analyze_text_data (t : TokenSnapshot) : TextAnalysis :=
  try_except (_analyze_text_data_body t) (fun _ => error_text).

End Text.

(** ** [SocialAnalyzer._determine_activity_level] *)

Module Social.

Local Open Scope string_scope.

Definition _determine_activity_level (total_mentions : Z) : string :=
  if total_mentions >? 1000 then "very_high"
  else if total_mentions >? 500 then "high"
  else if total_mentions >? 100 then "medium"
  else if total_mentions >? 10 then "low"
  else "very_low".

End Social.

(** ** [TokenAnalyzer._fetch_token_data] *)

Module Fetch.

(** What one upstream source answers to the request of the function. *)
Inductive Reply (A : Type) : Type :=
| Fails (msg : str)   (* the request raises; [msg] is [str(e)] *)
| NoData              (* status other than 200, or no entry for the token *)
| Data (a : A).
Arguments Fails {A} msg.
Arguments NoData {A}.
Arguments Data {A} a.

(** CoinGecko: the price entry of the token and its [token_info]. *)
Record CoinGeckoData : Type := mkCoinGecko {
  cg_usd : float;
  cg_usd_market_cap : float;
  cg_usd_24h_vol : float;
  cg_description : str;
  cg_symbol : str;
  cg_name : str
}.

(** Etherscan: [data["result"][0]]. *)
Record EtherscanData : Type := mkEtherscan {
  es_description : str;
  es_symbol : str;
  es_name : str
}.

(** The answers of the outside world during one call. *)
Record Upstream : Type := mkUpstream {
  is_address : bool;              (* [self.w3.is_address(token_address)] *)
  contract_error : option str;    (* [self.w3.eth.contract(...)] raises *)
  coingecko : Reply CoinGeckoData;
  etherscan : Reply EtherscanData;
  holder_count : Z                (* [self._get_holder_count(...)] *)
}.

(** Fallback to basic data if all APIs fail *)
Definition fallback (token_address : str) : TokenSnapshot :=
  mkSnapshot 0 0 0 0
    (lit "No description available")
    (upper (slice_to 6 token_address))
    (lit "Token " ++ slice_to 6 token_address).

(** The result of the [except] branch. *)
Definition error_snapshot (token_address msg : str) : TokenSnapshot :=
  mkSnapshot 0 0 0 0
    (lit "Error fetching data: " ++ msg)
    (upper (slice_to 6 token_address))
    (lit "Token " ++ slice_to 6 token_address).

(** The body of the [try]: [inl msg] when an exception is raised. *)
Definition _fetch_token_data_body (w : Upstream) (token_address : str)
  : str + TokenSnapshot :=
  if negb (is_address w) then inl (lit "Invalid token address")
  else
    match contract_error w with
    | Some msg => inl msg
    | None =>
      match coingecko w with
      | Fails msg => inl msg
      | Data d =>
        inr (mkSnapshot (cg_usd d) (cg_usd_market_cap d) (cg_usd_24h_vol d)
                        (holder_count w) (cg_description d)
                        (upper (cg_symbol d)) (cg_name d))
      | NoData =>
        (* If CoinGecko fails, try Etherscan *)
        match etherscan w with
        | Fails msg => inl msg
        | Data d =>
          inr (mkSnapshot 0 0 0 (holder_count w) (es_description d)
                          (upper (es_symbol d)) (es_name d))
        | NoData => inr (fallback token_address)
        end
      end
    end.

Definition _fetch_token_data (w : Upstream) (token_address : str)
  : TokenSnapshot :=
  match _fetch_token_data_body w token_address with
  | inl msg => error_snapshot token_address msg
  | inr t => t
  end.

(** Neither source delivers the data of the token. *)
Definition both_fail (w : Upstream) : bool :=
  match coingecko w, etherscan w with
  | Data _, _ => false
  | _, Data _ => false
  | _, _ => true
  end.

End Fetch.

(** ** [ScamDatabase._format_scam_tweet] *)

Module Tweet.

Definition newline : str := [10%N].
Definition police_light : str := [128680%N].        (* U+1F6A8 *)
Definition warning_sign : str := [9888%N; 65039%N]. (* U+26A0 U+FE0F *)
Definition magnifier : str := [128269%N].           (* U+1F50D *)

(** [[f"<warning> {sign}" for sign in warning_signs[:3]]] *)
Definition warning_lines (warning_signs : list str) : list str :=
  List.map (fun sign => warning_sign ++ lit " " ++ sign)
           (firstn 3 warning_signs).

(** [evidence if evidence else "Available upon request"] *)
Definition evidence_text (evidence : option str) : str :=
  match evidence with
  | Some e => if truthy e then e else lit "Available upon request"
  | None => lit "Available upon request"
  end.

(** The text before the cut. *)
Definition tweet_text (token_address scam_type description : str)
           (warning_signs : list str) (evidence : option str) : str :=
  let warning_text := join newline (warning_lines warning_signs) in
  newline
  ++ police_light ++ lit " SCAM ALERT " ++ police_light ++ newline
  ++ newline
  ++ lit "Token: " ++ token_address ++ newline
  ++ lit "Type: " ++ scam_type ++ newline
  ++ newline
  ++ description ++ newline
  ++ newline
  ++ warning_text ++ newline
  ++ newline
  ++ magnifier ++ lit " Evidence: " ++ evidence_text evidence ++ newline
  ++ newline
  ++ lit "#CryptoScam #ScamAlert #Crypto #Blockchain" ++ newline.

(** Ensure tweet is within Twitter's character limit (280) *)
Definition _format_scam_tweet (token_address scam_type description : str)
           (warning_signs : list str) (evidence : option str) : str :=
  slice_to 280
    (tweet_text token_address scam_type description warning_signs evidence).

End Tweet.

(** * Vocabulary of the properties *)

Module Examples.

Import Risk.
Local Open Scope string_scope.

(** The factor/recommendation pairs of the eight rules. *)
Definition rule_pairs : list (string * string) :=
  [ ("Very low market cap", "Extreme caution required");
    ("Low market cap", "High risk investment");
    ("No trading volume", "Avoid trading");
    ("Low trading volume", "Limited liquidity");
    ("Very few holders", "High concentration risk");
    ("Limited holder base", "Monitor holder distribution");
    ("Low liquidity", "Check liquidity before trading");
    ("Moderate liquidity", "Monitor liquidity changes") ].

(** The pair of the [except] branch. *)
Definition error_pair : string * string :=
  ("Error in risk assessment", "Unable to generate recommendations").

(** Two lists are paired along a table when they have the same length and
    every position holds a pair of the table. *)
Definition paired (table : list (string * string)) (st : Risk.Lists) : Prop :=
  List.length (fst st) = List.length (snd st) /\
  Forall (fun p => In p table) (combine (fst st) (snd st)).

(** The example of the specification: market cap 50_000, no volume,
    50 holders. *)
Definition small_token (p : float) (d : str) : TokenSnapshot :=
  mkSnapshot p 50000 0 50 d [] [].

(** A token whose market cap is reported as zero while it is traded. *)
Definition zero_cap_token : TokenSnapshot :=
  mkSnapshot 1 0 5 5000 (lit "A traded token") (lit "TKN") (lit "Token").

(** The example of the specification: market cap 2_000_000, volume
    1_200_000, 15_000 holders. *)
Definition large_token (p : float) (d : str) : TokenSnapshot :=
  mkSnapshot p 2000000 1200000 15000 d [] [].

End Examples.

Import Examples.

(** ** Bounds of the scores *)

Module Bounds.

Import Text.
Local Open Scope float_scope.

(** [0 <= x <= 1] *)
Definition in_unit (x : float) : bool :=
  PrimFloat.leb 0 x && PrimFloat.leb x 1.

(** The credibility score as a function of the length score and of the two
    counts of terms found. *)
Definition credibility_from (ls : float) (k j : Z) : float :=
  (ls + int_true_div k 5 + (1 - int_true_div j 5)) / 3.

(** The integers [0 .. n-1]. *)
Definition zrange (n : nat) : list Z := List.map Z.of_nat (seq 0 n).

(** The length scores of the descriptions shorter than 512 characters, and
    the one of the longer ones. *)
Definition length_scores : list float :=
  1 :: List.map (fun z => py_min (int_true_div z 500) 1) (zrange 512).

(** All scores are in the unit interval, for every length score of
    [length_scores] and every pair of counts from 0 to 5. *)
Definition scores_in_unit : bool :=
  forallb (fun ls =>
    in_unit ls &&
    forallb (fun k =>
      in_unit (int_true_div k 5) && in_unit (1 - int_true_div k 5) &&
      forallb (fun j => in_unit (credibility_from ls k j)) (zrange 6))
      (zrange 6))
    length_scores.

End Bounds.

Import Bounds.

(** * Further parts of the code

    The functions around those above: the top-level [analyze], the holder
    count, the Twitter data of the social analyzer, the scam database and
    what the handlers of the bot do with the analyses. *)

From Stdlib Require Import ListSet Permutation.

(** ** Dictionaries *)

Module PyDict.

Definition str_eq_dec : forall a b : str, {a = b} + {a <> b} :=
  list_eq_dec N.eq_dec.

Definition str_eqb (a b : str) : bool :=
  if str_eq_dec a b then true else false.

(** A dictionary with string keys, in the order of insertion. *)
Definition dict (V : Type) : Type := list (str * V).

(** [d.get(k)] *)
Fixpoint get {V} (d : dict V) (k : str) : option V :=
  match d with
  | [] => None
  | (k', v) :: d' => if str_eqb k' k then Some v else get d' k
  end.

(** [k in d] *)
Definition mem {V} (d : dict V) (k : str) : bool :=
  match get d k with Some _ => true | None => false end.

(** [d[k] = v]: the value of an existing key is replaced where it is, a new
    key is added at the end. *)
Fixpoint assign {V} (d : dict V) (k : str) (v : V) : dict V :=
  match d with
  | [] => [(k, v)]
  | (k', v') :: d' =>
    if str_eqb k' k then (k', v) :: d' else (k', v') :: assign d' k v
  end.

(** [d.get(k, default)] on an optional entry of a record. *)
Definition get_or {A} (entry : option A) (default : A) : A :=
  match entry with Some a => a | None => default end.

End PyDict.

Import PyDict.

(** ** [TokenAnalyzer._get_holder_count] and its alternative *)

Module Holders.

(** One transfer of [data["result"]]. *)
Record Transfer : Type := mkTransfer {
  tx_from : str;
  tx_to : str
}.

Definition zero_address : str :=
  lit "0x0000000000000000000000000000000000000000".

(** The two [add] of one transfer. *)
Definition add_participants (s : set str) (tx : Transfer) : set str :=
  set_add str_eq_dec (lower (tx_to tx))
          (set_add str_eq_dec (lower (tx_from tx)) s).

(** [unique_addresses], a [set()]: the two participants of every transfer,
    in lower case. *)
Definition unique_addresses (txs : list Transfer) : set str :=
  fold_left add_participants txs (empty_set str).

(** [unique_addresses] after the two [discard]: the zero address and the
    contract address are removed. *)
Definition counted (token_address : str) (txs : list Transfer) : set str :=
  set_remove str_eq_dec (lower token_address)
    (set_remove str_eq_dec zero_address (unique_addresses txs)).

(** [len(unique_addresses)] *)
Definition count_holders (token_address : str) (txs : list Transfer) : Z :=
  Z.of_nat (List.length (counted token_address txs)).

(** Alternative method to estimate holder count using transfer events;
    the reply is the one of the [tokentx] request. *)
Definition _get_holder_count_alternative
           (reply : Fetch.Reply (list Transfer)) (token_address : str) : Z :=
  match reply with
  | Fetch.Data txs => count_holders token_address txs
  | Fetch.NoData => 0
  | Fetch.Fails _ => 0
  end.

(** Get number of token holders; [direct] is the reply of the
    [tokenholderlist] request, read with [int(...)]. *)
Definition _get_holder_count
           (direct : Fetch.Reply Z) (reply : Fetch.Reply (list Transfer))
           (token_address : str) : Z :=
  match direct with
  | Fetch.Data n => n
  | Fetch.NoData => _get_holder_count_alternative reply token_address
  | Fetch.Fails _ => _get_holder_count_alternative reply token_address
  end.

End Holders.

(** ** [TokenAnalyzer.analyze] *)

Module Analyze.

Local Open Scope string_scope.

Inductive Value : Type :=
| VFloat (f : float)
| VInt (z : Z)
| VStr (s : str)
| VMetrics (m : MetricsClassification)
| VText (x : TextAnalysis)
| VRisk (r : RiskAssessment).

(** A dictionary whose keys are the fixed names of the code. *)
Definition Dict : Type := list (string * Value).

Fixpoint get (d : Dict) (k : string) : option Value :=
  match d with
  | [] => None
  | (k', v) :: d' => if String.eqb k' k then Some v else get d' k
  end.

(** The combined data.  The three analyses and [_fetch_token_data] catch
    their own exceptions, so the [except] branch of [analyze] is not
    reached. *)
Definition analyze (w : Fetch.Upstream) (token_address : str) : Dict :=
  let token_data := Fetch._fetch_token_data w token_address in
  let metrics_analysis := Metrics._analyze_metrics token_data in
  let text_analysis := Text._analyze_text_data token_data in
  let risk_assessment := Risk._assess_risk token_data in
  [ ("price", VFloat (price token_data));
    ("market_cap", VFloat (market_cap token_data));
    ("volume_24h", VFloat (volume_24h token_data));
    ("holders", VInt (holders token_data));
    ("description", VStr (description token_data));
    ("metrics", VMetrics metrics_analysis);
    ("text_analysis", VText text_analysis);
    ("risk_assessment", VRisk risk_assessment) ].

End Analyze.

(** ** [SocialAnalyzer]: Twitter data *)

Module Twitter.

(** A tweet of [data["data"]]. *)
Record Tweet : Type := mkTweet {
  tw_text : str;
  tw_created_at : str;
  retweet_count : Z;
  reply_count : Z;
  like_count : Z;
  author_id : str
}.

(** A user of [data["includes"]["users"]]; an absent key is [None]. *)
Record User : Type := mkUser {
  user_id : str;
  username : option str;
  followers_count : option Z
}.

Record FormattedTweet : Type := mkFormatted {
  ft_text : str;
  ft_created_at : str;
  ft_metrics : Z * Z * Z;   (* retweet, reply and like counts *)
  ft_username : str;
  ft_followers : Z
}.

Record PlatformData : Type := mkPlatform {
  mentions : Z;
  engagement : Z;
  sentiment : float;
  recent_tweets : list FormattedTweet
}.

Record SocialData : Type := mkSocial {
  twitter_mentions : Z;
  sentiment_score : float;
  activity_level : string;
  platform_twitter : PlatformData
}.

(** [sum(retweet_count + reply_count + like_count for tweet in tweets)] *)
Definition total_engagement (tweets : list Tweet) : Z :=
  fold_left (fun acc tw => acc + (retweet_count tw + reply_count tw + like_count tw))
            tweets 0.

(** Analyze sentiment of Twitter posts. *)
Definition _analyze_twitter_sentiment (tweets : list Tweet) : float :=
  match tweets with
  | [] => 0.5%float
  | _ :: _ =>
    py_min (Text.int_true_div (total_engagement tweets)
                              (Text.len tweets * 100)) 1.0%float
  end.

(** [{user['id']: user for user in users}]: the last user of an id wins. *)
Definition users_dict (users : list User) : dict User :=
  fold_left (fun d u => assign d (user_id u) u) users [].

Definition format_tweet (users : dict User) (tw : Tweet) : FormattedTweet :=
  let user := get users (author_id tw) in
  mkFormatted (tw_text tw) (tw_created_at tw)
    (retweet_count tw, reply_count tw, like_count tw)
    (match user with Some u => get_or (username u) [] | None => [] end)
    (match user with Some u => get_or (followers_count u) 0 | None => 0 end).

Definition _get_default_platform_data : PlatformData :=
  mkPlatform 0 0 0.5%float [].

(** Get Twitter data for the token; the reply is the one of the search
    request, with its tweets and its users. *)
Definition _get_twitter_data (reply : Fetch.Reply (list Tweet * list User))
  : PlatformData :=
  match reply with
  | Fetch.Data (tweets, users) =>
    let users := users_dict users in
    mkPlatform (Text.len tweets)
               (total_engagement tweets)
               (_analyze_twitter_sentiment tweets)
               (List.map (format_tweet users) (firstn 5 tweets))
  | Fetch.NoData => _get_default_platform_data
  | Fetch.Fails _ => _get_default_platform_data
  end.

(** Analyze social media presence and sentiment for a token.
    [_get_twitter_data] catches its own exceptions and its result has every
    key, so the [except] branch with [_get_default_data] is not reached. *)
Definition analyze (reply : Fetch.Reply (list Tweet * list User)) : SocialData :=
  let twitter_data := _get_twitter_data reply in
  let total_mentions := mentions twitter_data in
  let activity_level := Social._determine_activity_level total_mentions in
  mkSocial (mentions twitter_data) (sentiment twitter_data) activity_level
           twitter_data.

End Twitter.

(** ** [ScamDatabase] *)

Module ScamDb.

(** A report of [scam_tokens]; a key that is absent is [None]. *)
Record ScamReport : Type := mkScamReport {
  r_type : option str;
  r_severity : option str;
  r_description : option str;
  r_warning_signs : option (list str);
  r_recommendations : option (list str);
  r_source : option str;
  r_reported_date : option str;
  r_added_date : option str;
  r_twitter_reports : option (list str)
}.

(** An entry of [suspicious_addresses]. *)
Record SuspiciousReport : Type := mkSuspicious {
  s_indicators : option (list str);
  s_details : option str;
  s_recommendations : option (list str);
  s_added_date : option str
}.

(** [self.scam_data]: the two dictionaries the code reads and writes.
    [save_database] writes it to the file after every change. *)
Record ScamData : Type := mkScamData {
  scam_tokens : dict ScamReport;
  suspicious_addresses : dict SuspiciousReport
}.

Definition bullet : str := [8226%N].            (* U+2022 *)
Definition clipboard : str := [128203%N].       (* U+1F4CB *)
Definition light_bulb : str := [128161%N].      (* U+1F4A1 *)
Definition check_mark : str := [9989%N].        (* U+2705 *)
Definition arrows : str := [128260%N].          (* U+1F504 *)

(** [chr(10).join(f'<bullet> {x}' for x in items)] *)
Definition bullet_lines (items : list str) : str :=
  join Tweet.newline (List.map (fun x => bullet ++ lit " " ++ x) items).

(** Format a scam report for display. *)
Definition _format_scam_report (report : ScamReport) : str :=
  Tweet.newline
  ++ Tweet.warning_sign ++ lit " SCAM ALERT " ++ Tweet.warning_sign
  ++ Tweet.newline ++ Tweet.newline
  ++ lit "Token has been reported as a scam!" ++ Tweet.newline
  ++ Tweet.newline
  ++ clipboard ++ lit " Report Details:" ++ Tweet.newline
  ++ bullet ++ lit " Type: " ++ get_or (r_type report) (lit "Unknown")
  ++ Tweet.newline
  ++ bullet ++ lit " Severity: " ++ get_or (r_severity report) (lit "Unknown")
  ++ Tweet.newline
  ++ bullet ++ lit " Reported Date: "
  ++ get_or (r_reported_date report) (lit "Unknown") ++ Tweet.newline
  ++ bullet ++ lit " Source: " ++ get_or (r_source report) (lit "Unknown")
  ++ Tweet.newline ++ Tweet.newline
  ++ Tweet.magnifier ++ lit " Description:" ++ Tweet.newline
  ++ get_or (r_description report) (lit "No description available")
  ++ Tweet.newline ++ Tweet.newline
  ++ Tweet.warning_sign ++ lit " Warning Signs:" ++ Tweet.newline
  ++ bullet_lines (get_or (r_warning_signs report)
                          [lit "No warning signs listed"])
  ++ Tweet.newline ++ Tweet.newline
  ++ light_bulb ++ lit " Recommendations:" ++ Tweet.newline
  ++ bullet_lines (get_or (r_recommendations report)
                          [lit "No recommendations available"])
  ++ Tweet.newline.

(** Format a suspicious activity report for display. *)
Definition _format_suspicious_report (report : SuspiciousReport) : str :=
  Tweet.newline
  ++ Tweet.warning_sign ++ lit " SUSPICIOUS ACTIVITY DETECTED"
  ++ Tweet.newline ++ Tweet.newline
  ++ lit "Token shows suspicious patterns!" ++ Tweet.newline
  ++ Tweet.newline
  ++ clipboard ++ lit " Suspicious Indicators:" ++ Tweet.newline
  ++ bullet_lines (get_or (s_indicators report) [lit "No indicators listed"])
  ++ Tweet.newline ++ Tweet.newline
  ++ Tweet.magnifier ++ lit " Details:" ++ Tweet.newline
  ++ get_or (s_details report) (lit "No details available")
  ++ Tweet.newline ++ Tweet.newline
  ++ light_bulb ++ lit " Recommendations:" ++ Tweet.newline
  ++ bullet_lines (get_or (s_recommendations report)
                          [lit "No recommendations available"])
  ++ Tweet.newline.

Definition not_found_message : str :=
  check_mark ++ lit " Token not found in scam database. However, always DYOR!".

(** Check if a token is in the scam database.  [_check_external_sources]
    always returns [None]. *)
Definition check_token (data : ScamData) (token_address : str) : str :=
  match get (scam_tokens data) token_address with
  | Some report => _format_scam_report report
  | None =>
    match get (suspicious_addresses data) token_address with
    | Some report => _format_suspicious_report report
    | None => not_found_message
    end
  end.

(** [{**report, "added_date": now}] stored under the address. *)
Definition _add_to_database (data : ScamData) (token_address : str)
           (report : ScamReport) (now : str) : ScamData :=
  let stored :=
    mkScamReport (r_type report) (r_severity report) (r_description report)
                 (r_warning_signs report) (r_recommendations report)
                 (r_source report) (r_reported_date report)
                 (Some now) (r_twitter_reports report) in
  mkScamData (assign (scam_tokens data) token_address stored)
             (suspicious_addresses data).

(** Add a new scam report to the database; [now1] and [now2] are the two
    readings of the clock. *)
Definition add_scam_report (data : ScamData)
           (token_address report_type severity description : str)
           (warning_signs recommendations : list str) (source : str)
           (now1 now2 : str) : bool * ScamData :=
  let report :=
    mkScamReport (Some report_type) (Some severity) (Some description)
                 (Some warning_signs) (Some recommendations) (Some source)
                 (Some now1) None None in
  (true, _add_to_database data token_address report now2).

(** Add a new suspicious address to the database. *)
Definition add_suspicious_address (data : ScamData) (address : str)
           (indicators : list str) (details : str)
           (recommendations : list str) (now : str) : bool * ScamData :=
  (true,
   mkScamData (scam_tokens data)
              (assign (suspicious_addresses data) address
                      (mkSuspicious (Some indicators) (Some details)
                                    (Some recommendations) (Some now)))).

(** Add Twitter reference to the scam report. *)
Definition _add_tweet_reference (data : ScamData) (token_address tweet_id : str)
  : ScamData :=
  match get (scam_tokens data) token_address with
  | Some report =>
    let updated :=
      mkScamReport (r_type report) (r_severity report) (r_description report)
                   (r_warning_signs report) (r_recommendations report)
                   (r_source report) (r_reported_date report)
                   (r_added_date report)
                   (Some (get_or (r_twitter_reports report) [] ++ [tweet_id])) in
    mkScamData (assign (scam_tokens data) token_address updated)
               (suspicious_addresses data)
  | None => data
  end.

(** What [self.twitter_client.create_tweet] does. *)
Inductive TweetReply : Type :=
| TweetRaises               (* the call raises *)
| TweetNoData               (* no response, or a response without data *)
| TweetPosted (id : str).   (* [response.data['id']] *)

(** The result of a reporting method: the value returned, the database
    after the call and the texts handed to [create_tweet]. *)
Record Outcome : Type := mkOutcome {
  returned : bool;
  data_after : ScamData;
  sent : list str
}.

Definition post (data : ScamData) (reply : TweetReply)
           (token_address tweet_text : str) : Outcome :=
  match reply with
  | TweetPosted tweet_id =>
    mkOutcome true (_add_tweet_reference data token_address tweet_id)
              [tweet_text]
  | TweetNoData => mkOutcome false data [tweet_text]
  | TweetRaises => mkOutcome false data [tweet_text]
  end.

(** Report a scam token to Twitter. *)
Definition report_to_twitter (data : ScamData) (reply : TweetReply)
           (token_address scam_type description : str)
           (warning_signs : list str) (evidence : option str) : Outcome :=
  post data reply token_address
       (Tweet._format_scam_tweet token_address scam_type description
                                 warning_signs evidence).

(** Report suspicious activity to Twitter. *)
Definition report_suspicious_activity (data : ScamData) (reply : TweetReply)
           (token_address activity_type description : str)
           (evidence : option str) : Outcome :=
  let tweet_text :=
    Tweet.newline
    ++ Tweet.warning_sign ++ lit " SUSPICIOUS ACTIVITY DETECTED "
    ++ Tweet.warning_sign ++ Tweet.newline ++ Tweet.newline
    ++ lit "Token: " ++ token_address ++ Tweet.newline
    ++ lit "Type: " ++ activity_type ++ Tweet.newline ++ Tweet.newline
    ++ description ++ Tweet.newline ++ Tweet.newline
    ++ Tweet.magnifier ++ lit " Evidence: " ++ Tweet.evidence_text evidence
    ++ Tweet.newline ++ Tweet.newline
    ++ lit "#CryptoAlert #Crypto #Blockchain" ++ Tweet.newline in
  post data reply token_address (slice_to 280 tweet_text).

(** Update an existing scam report on Twitter. *)
Definition update_scam_report (data : ScamData) (reply : TweetReply)
           (token_address update_type new_information : str) : Outcome :=
  if negb (mem (scam_tokens data) token_address) then
    mkOutcome false data []
  else
    let tweet_text :=
      Tweet.newline
      ++ arrows ++ lit " SCAM UPDATE " ++ arrows
      ++ Tweet.newline ++ Tweet.newline
      ++ lit "Token: " ++ token_address ++ Tweet.newline
      ++ lit "Update: " ++ update_type ++ Tweet.newline ++ Tweet.newline
      ++ new_information ++ Tweet.newline ++ Tweet.newline
      ++ lit "#CryptoScam #ScamAlert #Crypto #Blockchain" ++ Tweet.newline in
    post data reply token_address (slice_to 280 tweet_text).

End ScamDb.

(** ** [MemecoinAnalyzerBot]: what the handlers do with the analyses *)

Module Bot.

Local Open Scope string_scope.

Definition backslash : char := 92%N.

Definition special_chars : list char :=
  List.map N_of_ascii
    ["_"; "*"; "["; "]"; "("; ")"; "~"; "`"; ">"; "#"; "+"; "-"; "="; "|";
     "{"; "}"; "."; "!"]%char.

(** [text.replace(char, '\\' + char)] for a [char] of one character. *)
Definition replace_char (c : char) (text : str) : str :=
  flat_map (fun x => if (x =? c)%N then [backslash; c] else [x]) text.

(** Escape special characters for Markdown formatting. *)
Definition _escape_markdown (text : str) : str :=
  fold_left (fun text char => replace_char char text) special_chars text.

Definition red_circle : str := [128308%N].      (* U+1F534 *)
Definition orange_circle : str := [128992%N].   (* U+1F7E0 *)
Definition yellow_circle : str := [128993%N].   (* U+1F7E1 *)
Definition green_circle : str := [128994%N].    (* U+1F7E2 *)
Definition white_circle : str := [9898%N].      (* U+26AA *)
Definition cross_mark : str := [10060%N].       (* U+274C *)

(** [risk_emoji] of [analyze_risk]: the dictionary and its default. *)
Definition risk_emoji (overall_risk : string) : str :=
  if String.eqb overall_risk "extreme" then red_circle
  else if String.eqb overall_risk "high" then orange_circle
  else if String.eqb overall_risk "medium" then yellow_circle
  else if String.eqb overall_risk "low" then green_circle
  else if String.eqb overall_risk "minimal" then green_circle
  else white_circle.

(** [risk['risk_metrics'].get(key)] for the four keys; [None] when the
    dictionary is empty. *)
Definition metric_get (r : RiskAssessment) (key : RiskMetrics -> bool)
  : option bool :=
  option_map key (risk_metrics r).

(** [check if not risk['risk_metrics'].get(key) else cross] *)
Definition metric_mark (r : RiskAssessment) (key : RiskMetrics -> bool) : str :=
  match metric_get r key with
  | Some true => cross_mark
  | Some false => ScamDb.check_mark
  | None => ScamDb.check_mark
  end.

(** The four marks of the section "Risk Metrics" of [analyze_risk]. *)
Definition risk_metric_marks (r : RiskAssessment) : list str :=
  [ metric_mark r market_cap_risk; metric_mark r volume_risk;
    metric_mark r holder_risk; metric_mark r liquidity_risk ].

(** Truth value of a value of the dictionary of [analyze]. *)
Definition value_truthy (v : Analyze.Value) : bool :=
  match v with
  | Analyze.VStr s => truthy s
  | Analyze.VInt z => negb (z =? 0)%Z
  | Analyze.VFloat f => negb (PrimFloat.eqb f 0)
  | Analyze.VMetrics _ => true
  | Analyze.VText _ => true
  | Analyze.VRisk _ => true
  end.

(** What [analyze_social] does once it has the token data. *)
Inductive SocialStep : Type :=
| ReplyNoTokenData      (* "Could not fetch token data" *)
| ReplyNoSymbol         (* "Could not determine token symbol" *)
| AskSocialAnalyzer (token_symbol : Analyze.Value).

Definition analyze_social_step (token_data : Analyze.Dict) : SocialStep :=
  match token_data with
  | [] => ReplyNoTokenData
  | _ :: _ =>
    let token_symbol :=
      match Analyze.get token_data "symbol" with
      | Some v => v
      | None => Analyze.VStr []
      end in
    if negb (value_truthy token_symbol) then ReplyNoSymbol
    else AskSocialAnalyzer token_symbol
  end.

End Bot.

(** ** Vocabulary of the further properties *)

Module Vocabulary.

(** The character is one of those [_escape_markdown] escapes. *)
Definition is_special (c : char) : bool :=
  existsb (N.eqb c) Bot.special_chars.

(** A special character behind a backslash, any other character as it is. *)
Definition escape_char (c : char) : str :=
  if is_special c then [Bot.backslash; c] else [c].

(** The part of the scam tweet that precedes the warning signs. *)
Definition tweet_head (token_address scam_type description : str) : str :=
  Tweet.newline
  ++ Tweet.police_light ++ lit " SCAM ALERT " ++ Tweet.police_light
  ++ Tweet.newline ++ Tweet.newline
  ++ lit "Token: " ++ token_address ++ Tweet.newline
  ++ lit "Type: " ++ scam_type ++ Tweet.newline
  ++ Tweet.newline
  ++ description.

End Vocabulary.

(** ** Order of the floats *)

Module FloatOrder.

(** The place of a number that is not NaN in the order of the format: the
    sign class first, then the exponent, then the mantissa. *)
Definition key (x : spec_float) : Z * Z * Z :=
  match x with
  | S754_zero _ => (0, 0, 0)
  | S754_infinity false => (2, 0, 0)
  | S754_infinity true => (-2, 0, 0)
  | S754_nan => (0, 0, 0)
  | S754_finite false m e => (1, e, Zpos m)
  | S754_finite true m e => (-1, - e, - Zpos m)
  end.

Definition is_nan (x : spec_float) : bool :=
  match x with S754_nan => true | _ => false end.

Definition key_lt (a b : Z * Z * Z) : Prop :=
  let '(a1, a2, a3) := a in
  let '(b1, b2, b3) := b in
  a1 < b1 \/ (a1 = b1 /\ (a2 < b2 \/ (a2 = b2 /\ a3 < b3))).

End FloatOrder.

(** ** Vocabulary of the risk assessor and of the fallback chain *)

Module RiskVocabulary.

(** The place of an overall risk on the scale of the assessor. *)
Definition risk_rank (overall : string) : Z :=
  if String.eqb overall "minimal" then 0
  else if String.eqb overall "low" then 1
  else if String.eqb overall "medium" then 2
  else if String.eqb overall "high" then 3
  else if String.eqb overall "extreme" then 4
  else -1.

(** The snapshot is one on which the [liquidity_risk] metric divides by a
    zero market cap. *)
Definition divides_by_zero (t : TokenSnapshot) : bool :=
  gt (volume_24h t) 0 && PrimFloat.eqb (market_cap t) 0.

End RiskVocabulary.

Module FetchVocabulary.
Import Fetch.

(** The snapshot is built from the data of CoinGecko. *)
Definition served_by_coingecko (w : Upstream) : bool :=
  is_address w &&
  match contract_error w, coingecko w with
  | None, Data _ => true
  | _, _ => false
  end.

End FetchVocabulary.

(** ** Descriptions that differ in the case of their letters *)

Module CaseVocabulary.

Import PyStr.

(** The same ASCII letter in the other case; any other code point is left
    as it is. *)
Definition swap_case (c : char) : char :=
  if (65 <=? c)%N && (c <=? 90)%N then (c + 32)%N
  else if (97 <=? c)%N && (c <=? 122)%N then (c - 32)%N
  else c.

Definition same_letter (a b : char) : Prop := b = a \/ b = swap_case a.

(** [d'] is [d] with some of its ASCII letters in the other case. *)
Definition case_variant (d d' : str) : Prop := Forall2 same_letter d d'.

End CaseVocabulary.

(** * Properties *)

(** ** Risk assessor *)

Section RiskFacts.

Import Risk.
Local Open Scope string_scope.

Lemma combine_snoc {A B} (l1 : list A) (l2 : list B) a b :
  List.length l1 = List.length l2 ->
  combine (l1 ++ [a]) (l2 ++ [b]) = (combine l1 l2 ++ [(a, b)])%list.
Proof.
  revert l2; induction l1 as [|x l1 IH]; intros [|y l2] Hlen;
    simpl in *; try discriminate; [reflexivity|].
  f_equal. apply IH. now injection Hlen.
Qed.

Lemma paired_nil table : paired table ([], [])%list.
Proof. split; [reflexivity | constructor]. Qed.

Lemma paired_append2 table f r st :
  In (f, r) table -> paired table st -> paired table (append2 f r st).
Proof.
  intros Hin [Hlen Hall]. unfold append2, paired; simpl. split.
  - rewrite !length_app; simpl. lia.
  - rewrite combine_snoc by assumption.
    apply Forall_app; split; [assumption|]. now repeat constructor.
Qed.

Lemma paired_incl table table' st :
  incl table table' -> paired table st -> paired table' st.
Proof.
  intros Hincl [Hlen Hall]. split; [assumption|].
  eapply Forall_impl; [|exact Hall]. intros p Hp. now apply Hincl.
Qed.

Ltac rule := apply paired_append2; [simpl; tauto | assumption].

Lemma market_cap_tier_paired mc st :
  paired rule_pairs st -> paired rule_pairs (market_cap_tier mc st).
Proof.
  intros H. unfold market_cap_tier.
  destruct (lt mc 100000); [rule|]. destruct (lt mc 1000000); [rule|assumption].
Qed.

Lemma volume_tier_paired mc vol st :
  paired rule_pairs st -> paired rule_pairs (volume_tier mc vol st).
Proof.
  intros H. unfold volume_tier.
  destruct (eq vol 0); [rule|]. destruct (lt vol _); [rule|assumption].
Qed.

Lemma holder_tier_paired h st :
  paired rule_pairs st -> paired rule_pairs (holder_tier h st).
Proof.
  intros H. unfold holder_tier.
  destruct (h <? 100)%Z; [rule|]. destruct (h <? 1000)%Z; [rule|assumption].
Qed.

(** The guard [market_cap > 0] keeps the division of the liquidity tier
    from raising. *)
Lemma gt_zero_not_eq_zero (x : float) :
  gt x 0 = true -> PrimFloat.eqb x 0 = false.
Proof.
  unfold gt. rewrite ltb_spec, eqb_spec.
  unfold SFltb, SFeqb. change (Prim2SF 0) with (S754_zero false).
  destruct (Prim2SF x) as [s|s| |s m e]; simpl; try discriminate.
  - now destruct s.
  - now destruct s.
Qed.

Lemma liquidity_tier_returns mc vol st :
  exists st', liquidity_tier mc vol st = inr st' /\
              (paired rule_pairs st -> paired rule_pairs st').
Proof.
  unfold liquidity_tier.
  destruct (gt vol 0 && gt mc 0) eqn:Hg; [|now exists st].
  apply andb_prop in Hg as [_ Hmc].
  unfold py_div. rewrite (gt_zero_not_eq_zero _ Hmc). cbn [bind ret].
  destruct (lt _ 0.01); [eexists; split; [reflexivity|intros; rule]|].
  destruct (lt _ 0.1); [eexists; split; [reflexivity|intros; rule]|].
  now exists st.
Qed.

(** The four tiers never raise, and leave the two lists paired. *)
Lemma tiers_returns (t : TokenSnapshot) :
  exists st, tiers t = inr st /\ paired rule_pairs st.
Proof.
  unfold tiers.
  destruct (liquidity_tier_returns (market_cap t) (volume_24h t)
    (holder_tier (holders t)
      (volume_tier (market_cap t) (volume_24h t)
        (market_cap_tier (market_cap t) ([], [])%list)))) as (st & Heq & Hp).
  exists st. split; [exact Heq|]. apply Hp.
  apply holder_tier_paired, volume_tier_paired, market_cap_tier_paired,
    paired_nil.
Qed.

(** The only fault of the body: the division of the [liquidity_risk]
    metric, which is guarded by [volume_24h > 0] alone. *)
Lemma metrics_cases (t : TokenSnapshot) :
  let mc := market_cap t in
  let vol := volume_24h t in
  (gt vol 0 && PrimFloat.eqb mc 0 = true /\
   metrics t = inl ZeroDivisionError)
  \/
  (gt vol 0 && PrimFloat.eqb mc 0 = false /\
   metrics t = inr (mkRiskMetrics
                      (lt mc 1000000)
                      (lt vol (mc * 0.01)%float)
                      (holders t <? 1000)%Z
                      (gt vol 0 && lt (vol / mc)%float 0.1))).
Proof.
  cbv zeta. unfold metrics, liquidity_metric, py_div.
  destruct (gt (volume_24h t) 0); cbn [andb].
  - destruct (PrimFloat.eqb (market_cap t) 0); [left|right]; split;
      reflexivity.
  - right; split; reflexivity.
Qed.

Lemma assess_risk_body_cases (t : TokenSnapshot) :
  (_assess_risk_body t = inl ZeroDivisionError /\
   gt (volume_24h t) 0 && PrimFloat.eqb (market_cap t) 0 = true)
  \/
  (exists st m,
      tiers t = inr st /\ metrics t = inr m /\
      gt (volume_24h t) 0 && PrimFloat.eqb (market_cap t) 0 = false /\
      _assess_risk_body t =
        inr (mkRisk (overall_of_score (Z.of_nat (List.length (fst st))))
                    (fst st) (snd st) (Some m))).
Proof.
  unfold _assess_risk_body.
  destruct (tiers_returns t) as (st & Hst & _). rewrite Hst. cbn [bind].
  destruct (metrics_cases t) as [[Hc Hm]|[Hc Hm]]; rewrite Hm; cbn [bind ret].
  - left. now split.
  - right. eexists _, _. repeat split; try reflexivity. exact Hc.
Qed.

End RiskFacts.

Import Risk.
Local Open Scope string_scope.

(** C1 (code defect).  The claim: for every snapshot the four tiers are
    evaluated in the order market cap, volume, holders, liquidity, and the
    overall risk is derived from the number of triggered factors.  On the
    example of the specification (market cap 50_000, volume 0, 50 holders,
    any price and description) the code does so: the factors are
    "Very low market cap", "No trading volume", "Very few holders" and the
    overall risk is "high".  On a snapshot with a zero market cap and a
    positive volume it does not: the tiers trigger the single factor
    "Very low market cap", whose score 1 means "low", but the division of the
    [liquidity_risk] metric raises and the function returns the sentinel
    "unknown" with the factor "Error in risk assessment". *)
Theorem assess_risk_zero_market_cap :
  (forall p d,
      risk_factors (_assess_risk (small_token p d)) =
        ["Very low market cap"; "No trading volume"; "Very few holders"] /\
      overall_risk (_assess_risk (small_token p d)) = "high") /\
  tiers zero_cap_token =
    inr (["Very low market cap"], ["Extreme caution required"]) /\
  overall_of_score 1 = "low" /\
  _assess_risk_body zero_cap_token = inl ZeroDivisionError /\
  overall_risk (_assess_risk zero_cap_token) = "unknown" /\
  risk_factors (_assess_risk zero_cap_token) = ["Error in risk assessment"].
Proof.
  split; [intros p d; split; reflexivity|].
  repeat split; reflexivity.
Qed.

(** C2.  [_assess_risk] is total: when its body faults it returns the
    sentinel with overall risk "unknown" and the single factor
    "Error in risk assessment"; when the body returns normally, the four
    risk metrics are [market_cap < 1_000_000],
    [volume_24h < market_cap * 0.01], [holders < 1000] and
    [volume_24h > 0 and volume_24h / market_cap < 0.1]. *)
Theorem assess_risk_total_and_metrics (t : TokenSnapshot) :
  (exists e,
      _assess_risk_body t = inl e /\
      _assess_risk t = error_assessment /\
      overall_risk (_assess_risk t) = "unknown" /\
      risk_factors (_assess_risk t) = ["Error in risk assessment"])
  \/
  (exists r,
      _assess_risk_body t = inr r /\
      _assess_risk t = r /\
      risk_metrics r =
        Some (mkRiskMetrics
                (lt (market_cap t) 1000000)
                (lt (volume_24h t) (market_cap t * 0.01)%float)
                (holders t <? 1000)%Z
                (gt (volume_24h t) 0
                 && lt (volume_24h t / market_cap t)%float 0.1))).
Proof.
  unfold _assess_risk.
  destruct (assess_risk_body_cases t)
    as [[Hb _]|(st & m & Hst & Hm & Hc & Hb)]; rewrite Hb.
  - left. exists ZeroDivisionError. repeat split; reflexivity.
  - right. eexists. split; [reflexivity|]. split; [reflexivity|].
    cbn [risk_metrics try_except]. f_equal.
    destruct (metrics_cases t) as [[Hc' _]|[_ Hm']].
    + rewrite Hc in Hc'. discriminate.
    + rewrite Hm in Hm'. now injection Hm'.
Qed.

(** C8.  For every snapshot the risk factors and the recommendations of
    [_assess_risk] have the same length and correspond position by position:
    every position holds the factor and the recommendation of one rule, or,
    on the error path, the single error factor with its recommendation. *)
Theorem factors_recommendations_paired (t : TokenSnapshot) :
  let r := _assess_risk t in
  List.length (risk_factors r) = List.length (recommendations r) /\
  Forall (fun p => In p (error_pair :: rule_pairs))
         (combine (risk_factors r) (recommendations r)) /\
  (forall e, _assess_risk_body t = inl e ->
             combine (risk_factors r) (recommendations r) = [error_pair]).
Proof.
  cbv zeta. unfold _assess_risk.
  destruct (assess_risk_body_cases t)
    as [[Hb _]|(st & m & Hst & Hm & Hc & Hb)]; rewrite Hb; cbn.
  - split; [reflexivity|]. split; [|reflexivity].
    repeat constructor.
  - destruct (tiers_returns t) as (st' & Hst' & Hlen & Hall).
    rewrite Hst in Hst'. injection Hst' as <-.
    split; [exact Hlen|]. split; [|discriminate].
    eapply Forall_impl; [|exact Hall]. intros p Hp. now right.
Qed.

(** ** Metrics classifier *)

(** C3 (as stated, refuted).  With a price of zero the snapshot of the
    example is not classified "bullish": the trend stays "neutral" unless
    [price > 0]. *)
Lemma large_token_zero_price_not_bullish :
  price_trend (Metrics._analyze_metrics (large_token 0 [])) <> "bullish".
Proof. vm_compute. discriminate. Qed.

(** C3 (amended).  For every snapshot with market cap 2_000_000, volume
    1_200_000 and 15_000 holders, the volume level is "high", the holder
    distribution "distributed", the liquidity level "high", the list of risk
    factors empty and the overall risk "minimal", whatever the price and the
    description; the price trend is "bullish" when [price > 0], and "neutral"
    otherwise. *)
Theorem large_token_classification (t : TokenSnapshot) :
  market_cap t = 2000000%float ->
  volume_24h t = 1200000%float ->
  holders t = 15000 ->
  let m := Metrics._analyze_metrics t in
  let r := _assess_risk t in
  (gt (price t) 0 = true -> price_trend m = "bullish") /\
  (gt (price t) 0 = false -> price_trend m = "neutral") /\
  volume_analysis m = "high" /\
  holder_distribution m = "distributed" /\
  liquidity_analysis m = "high" /\
  risk_factors r = [] /\
  overall_risk r = "minimal".
Proof.
  destruct t as [p mc vol h d s n]; cbn [market_cap volume_24h holders price].
  intros -> -> ->. cbv zeta.
  unfold Metrics._analyze_metrics, Metrics._analyze_metrics_body.
  cbn [price market_cap volume_24h holders].
  change (Metrics.liquidity_analysis_of 2000000 1200000) with (@inr PyExc _ "high").
  cbn [bind ret try_except price_trend volume_analysis holder_distribution
       liquidity_analysis].
  unfold Metrics.price_trend_of.
  change (gt 1200000 (2000000 * 0.1)) with true.
  repeat split; try reflexivity.
  - now intros ->.
  - now intros ->.
Qed.

Lemma large_token_classification_witness :
  price_trend (Metrics._analyze_metrics (large_token 1 (lit "A token"))) = "bullish"
  /\ overall_risk (_assess_risk (large_token 1 (lit "A token"))) = "minimal".
Proof.
  pose proof (large_token_classification (large_token 1 (lit "A token"))
                eq_refl eq_refl eq_refl) as H.
  cbv zeta in H.
  destruct H as (Hb & _ & _ & _ & _ & _ & Hr).
  split; [apply Hb; reflexivity | exact Hr].
Defined.

(** ** Social activity classifier *)

Import Social.

(** C5.  The activity level is a total function of the mention count with
    strict boundaries: "very_high" iff above 1000, "high" iff in (500, 1000],
    "medium" iff in (100, 500], "low" iff in (10, 100], "very_low" iff at
    most 10; 1000 mentions are "high", 1001 "very_high" and 0 "very_low". *)
Theorem activity_level_boundaries :
  (forall m : Z,
      (_determine_activity_level m = "very_high" <-> 1000 < m) /\
      (_determine_activity_level m = "high" <-> 500 < m <= 1000) /\
      (_determine_activity_level m = "medium" <-> 100 < m <= 500) /\
      (_determine_activity_level m = "low" <-> 10 < m <= 100) /\
      (_determine_activity_level m = "very_low" <-> m <= 10)) /\
  _determine_activity_level 1000 = "high" /\
  _determine_activity_level 1001 = "very_high" /\
  _determine_activity_level 0 = "very_low".
Proof.
  split; [|repeat split; reflexivity].
  intros m. unfold _determine_activity_level.
  destruct (Z.gtb_spec m 1000); [repeat split; intros; (reflexivity || lia || discriminate)|].
  destruct (Z.gtb_spec m 500); [repeat split; intros; (reflexivity || lia || discriminate)|].
  destruct (Z.gtb_spec m 100); [repeat split; intros; (reflexivity || lia || discriminate)|].
  destruct (Z.gtb_spec m 10); repeat split; intros; (reflexivity || lia || discriminate).
Qed.

(** ** Text scorer *)

Import Text.

(** C4 (code defect).  For the empty description the function reports no
    description length: [technical_terms], [description_lower] and
    [warning_terms] are assigned inside [if description:] only, so building
    the returned dictionary raises and the handler answers with an empty
    [description_analysis].  The sentiment "neutral" and the credibility
    score 0.5 are those of the handler. *)
Theorem analyze_text_empty_description (p mc vol : float) (h : Z) (s n : str) :
  let t := mkSnapshot p mc vol h [] s n in
  _analyze_text_data_body t = inl (UnboundLocalError "technical_terms") /\
  _analyze_text_data t = error_text /\
  sentiment (_analyze_text_data t) = "neutral" /\
  credibility_score (_analyze_text_data t) = 0.5%float /\
  description_analysis (_analyze_text_data t) = None.
Proof. repeat split; reflexivity. Qed.

(** For a description that is not empty the body returns, with the
    sentiment, the credibility score and the length of the description. *)
Lemma analyze_text_nonempty (t : TokenSnapshot) :
  truthy (description t) = true ->
  exists da,
    _analyze_text_data t =
      mkText (sentiment_of (description t)) (credibility_of (description t))
             (social_media_presence_of (holders t))
             (community_engagement_of (market_cap t) (volume_24h t))
             (Some da) /\
    length da = len (description t).
Proof.
  intros Hd. unfold _analyze_text_data, _analyze_text_data_body.
  rewrite Hd. cbn [read_local bind ret try_except].
  eexists. split; reflexivity.
Qed.

(** ** Keywords of the sentiment *)

Section SentimentFacts.

Import CaseVocabulary.
Local Close Scope string_scope.
Local Open Scope Z_scope.

(** ASCII letters in either case lower to the same text. *)
Lemma ascii_codes (a : char) :
  (a < 128)%N -> In a (List.map N.of_nat (seq 0 128)).
Proof.
  intros H. apply in_map_iff. exists (N.to_nat a).
  split; [apply N2Nat.id|]. apply in_seq. lia.
Qed.

Lemma swap_case_checked :
  forallb (fun a =>
    let b := swap_case a in
    (if list_eq_dec N.eq_dec (lower_char b) (lower_char a) then true else false)
    && Bool.eqb (is_cased b) (is_cased a)
    && Bool.eqb (is_case_ignorable b) (is_case_ignorable a)
    && Bool.eqb (b =? capital_sigma)%N (a =? capital_sigma)%N)
    (List.map N.of_nat (seq 0 128)) = true.
Proof. vm_compute. reflexivity. Qed.

Lemma same_letter_facts (a b : char) :
  same_letter a b ->
  lower_char b = lower_char a /\ is_cased b = is_cased a /\
  is_case_ignorable b = is_case_ignorable a /\
  (b =? capital_sigma)%N = (a =? capital_sigma)%N.
Proof.
  intros [->| ->]; [repeat split|].
  destruct (N.ltb_spec a 128) as [Ha|Ha].
  - pose proof (proj1 (forallb_forall _ _) swap_case_checked _
                      (ascii_codes a Ha)) as H.
    cbv zeta in H.
    apply andb_prop in H. destruct H as [H H4].
    apply andb_prop in H. destruct H as [H H3].
    apply andb_prop in H. destruct H as [H1 H2].
    apply Bool.eqb_prop in H2, H3, H4.
    destruct (list_eq_dec N.eq_dec (lower_char (swap_case a)) (lower_char a));
      [|discriminate].
    repeat split; assumption.
  - assert (E : swap_case a = a).
    { unfold swap_case.
      replace ((a <=? 90)%N) with false by (symmetry; apply N.leb_gt; lia).
      replace ((a <=? 122)%N) with false by (symmetry; apply N.leb_gt; lia).
      now rewrite !andb_false_r. }
    rewrite E. repeat split.
Qed.

Lemma first_not_ignorable_variant (s s' : str) :
  case_variant s s' ->
  match first_not_ignorable s, first_not_ignorable s' with
  | Some c, Some c' => same_letter c c'
  | None, None => True
  | _, _ => False
  end.
Proof.
  induction 1 as [|a b s s' Hab _ IH]; cbn [first_not_ignorable]; [exact I|].
  destruct (same_letter_facts a b Hab) as (_ & _ & Hi & _). rewrite Hi.
  destruct (is_case_ignorable a); [exact IH|exact Hab].
Qed.

Lemma final_sigma_context_variant (before before' after after' : str) :
  case_variant before before' -> case_variant after after' ->
  in_final_sigma_context before' after' = in_final_sigma_context before after.
Proof.
  intros Hb Ha. unfold in_final_sigma_context.
  pose proof (first_not_ignorable_variant _ _ Hb) as H1.
  pose proof (first_not_ignorable_variant _ _ Ha) as H2.
  destruct (first_not_ignorable before) as [c|],
           (first_not_ignorable before') as [c'|]; try contradiction;
    [|reflexivity].
  destruct (same_letter_facts c c' H1) as (_ & -> & _ & _).
  destruct (first_not_ignorable after) as [e|],
           (first_not_ignorable after') as [e'|]; try contradiction;
    [|reflexivity].
  destruct (same_letter_facts e e' H2) as (_ & -> & _ & _). reflexivity.
Qed.

Lemma lower_from_variant (s s' : str) :
  case_variant s s' ->
  forall before before', case_variant before before' ->
  lower_from before' s' = lower_from before s.
Proof.
  induction 1 as [|a b s s' Hab Hs IH]; intros before before' Hb;
    cbn [lower_from]; [reflexivity|].
  destruct (same_letter_facts a b Hab) as (Hl & _ & _ & Hsig).
  rewrite Hsig, Hl, (final_sigma_context_variant _ _ _ _ Hb Hs).
  rewrite (IH (a :: before) (b :: before')); [reflexivity|].
  constructor; assumption.
Qed.

Lemma lower_variant (d d' : str) : case_variant d d' -> lower d' = lower d.
Proof. intros H. apply (lower_from_variant _ _ H). constructor. Qed.

(** Substrings *)
Lemma startswith_spec (p s : str) :
  startswith p s = true <-> exists r, s = (p ++ r)%list.
Proof.
  revert s. induction p as [|a p IH]; intros s; cbn [startswith].
  - split; [intros _; now exists s|reflexivity].
  - destruct s as [|b s]; cbn [startswith].
    + split; [discriminate|intros [r Hr]; discriminate].
    + rewrite andb_true_iff, N.eqb_eq, IH. split.
      * intros [-> [r ->]]. now exists r.
      * intros [r [= -> ->]]. split; [reflexivity|now exists r].
Qed.

Lemma contains_spec (p s : str) :
  contains p s = true <-> exists a b, s = (a ++ p ++ b)%list.
Proof.
  induction s as [|c s IH].
  - cbn [contains]. rewrite orb_false_r, startswith_spec. split.
    + intros [r Hr]. now exists [], r.
    + intros (a & b & H). destruct a; [now exists b|discriminate].
  - change (contains p (c :: s)) with (startswith p (c :: s) || contains p s).
    rewrite orb_true_iff, startswith_spec, IH. split.
    + intros [[r Hr]|(a & b & ->)]; [now exists [], r|now exists (c :: a), b].
    + intros (a & b & H). destruct a as [|x a].
      * left. now exists b.
      * right. injection H as _ ->. now exists a, b.
Qed.

Lemma contains_trans (p n s : str) :
  contains p n = true -> contains n s = true -> contains p s = true.
Proof.
  rewrite !contains_spec. intros (a & b & ->) (a' & b' & ->).
  exists (a' ++ a)%list, (b ++ b')%list. now rewrite <- !app_assoc.
Qed.


Lemma count_present_positive (words : list str) (w s : str) :
  In w words -> contains w s = true -> 1 <= count_present words s.
Proof.
  intros Hin Hc. unfold count_present.
  assert (H : In w (filter (fun w => contains w s) words))
    by (apply filter_In; now split).
  destruct (filter (fun w => contains w s) words); [contradiction|].
  cbn [List.length]. lia.
Qed.

Lemma contained_is_truthy (w d : str) :
  truthy w = true -> contains w (lower d) = true -> truthy d = true.
Proof.
  intros Hw. destruct d; [|reflexivity].
  destruct w; [discriminate|]. cbn. discriminate.
Qed.

Lemma sentiment_by_counts (t : TokenSnapshot) :
  truthy (description t) = true ->
  sentiment (_analyze_text_data t) =
    (if positive_count (lower (description t))
        >? negative_count (lower (description t)) then "positive"
     else if negative_count (lower (description t))
             >? positive_count (lower (description t)) then "negative"
     else "neutral")%string.
Proof.
  intros Hd. destruct (analyze_text_nonempty t Hd) as (da & -> & _).
  cbn [sentiment]. unfold sentiment_of. now rewrite Hd.
Qed.

Lemma analysis_case_variant (p mc vol : float) (h : Z) (s n d d' : str) :
  case_variant d d' ->
  _analyze_text_data (mkSnapshot p mc vol h d' s n)
  = _analyze_text_data (mkSnapshot p mc vol h d s n).
Proof.
  intros H. pose proof (lower_variant _ _ H) as Hl.
  pose proof (Forall2_length H) as Hn.
  unfold _analyze_text_data, _analyze_text_data_body, sentiment_of,
    credibility_of, length_score, len.
  cbn [description holders market_cap volume_24h].
  rewrite Hl, <- Hn.
  destruct H; reflexivity.
Qed.

Lemma overlapping_keywords (pw nw : str) :
  In pw positive_words -> In nw negative_words ->
  (contains pw nw = true <-> pw = lit "verified" /\ nw = lit "unverified").
Proof.
  intros Hp Hn. split.
  - intros Hc. unfold positive_words, negative_words in *.
    cbn [List.map In] in Hp, Hn.
    repeat match goal with
           | H : _ \/ _ |- _ => destruct H
           | H : False |- _ => contradiction
           end; subst; try (split; reflexivity);
      vm_compute in Hc; discriminate.
  - intros [-> ->]. reflexivity.
Qed.

(** C9.  The keywords are looked up as substrings of the description in
    lower case.  The analysis therefore does not depend on the case of the
    ASCII letters of the description; the sentiment compares the number of
    positive and of negative keywords found; and a negative keyword that
    contains a positive one, which is the case of "unverified" and
    "verified" only, counts on both sides wherever it occurs, so that such a
    description is "negative" only with a second negative keyword.  For
    "unverified" in any case both counts are 1 and the sentiment is
    "neutral". *)
Theorem sentiment_overlapping_keywords :
  (forall (p mc vol : float) (h : Z) (s n d d' : str),
      case_variant d d' ->
      _analyze_text_data (mkSnapshot p mc vol h d' s n)
      = _analyze_text_data (mkSnapshot p mc vol h d s n) /\
      positive_count (lower d') = positive_count (lower d) /\
      negative_count (lower d') = negative_count (lower d)) /\
  (forall t : TokenSnapshot,
      truthy (description t) = true ->
      sentiment (_analyze_text_data t) =
        (if positive_count (lower (description t))
            >? negative_count (lower (description t)) then "positive"
         else if negative_count (lower (description t))
                 >? positive_count (lower (description t)) then "negative"
         else "neutral")%string) /\
  (forall pw nw : str,
      In pw positive_words -> In nw negative_words ->
      (contains pw nw = true <->
       pw = lit "verified" /\ nw = lit "unverified")) /\
  (forall d pw nw : str,
      In pw positive_words -> In nw negative_words ->
      contains pw nw = true -> contains nw (lower d) = true ->
      contains pw (lower d) = true /\
      1 <= positive_count (lower d) /\ 1 <= negative_count (lower d)) /\
  (forall t : TokenSnapshot,
      contains (lit "unverified") (lower (description t)) = true ->
      sentiment (_analyze_text_data t) = "negative"%string ->
      2 <= negative_count (lower (description t))) /\
  (forall (p mc vol : float) (h : Z) (s n d : str),
      case_variant (lit "unverified") d ->
      positive_count (lower d) = 1 /\ negative_count (lower d) = 1 /\
      sentiment (_analyze_text_data (mkSnapshot p mc vol h d s n))
      = "neutral"%string).
Proof.
  assert (Hover : forall d pw nw : str,
      In pw positive_words -> In nw negative_words ->
      contains pw nw = true -> contains nw (lower d) = true ->
      contains pw (lower d) = true /\
      1 <= positive_count (lower d) /\ 1 <= negative_count (lower d)).
  { intros d pw nw Hp Hn Hpn Hnd.
    pose proof (contains_trans _ _ _ Hpn Hnd) as Hpd.
    split; [exact Hpd|]. split.
    - exact (count_present_positive _ _ _ Hp Hpd).
    - exact (count_present_positive _ _ _ Hn Hnd). }
  split; [|split; [|split; [|split; [|split]]]].
  - intros p mc vol h s n d d' H.
    split; [exact (analysis_case_variant p mc vol h s n d d' H)|].
    now rewrite (lower_variant _ _ H).
  - exact sentiment_by_counts.
  - exact overlapping_keywords.
  - exact Hover.
  - intros t Hc Hs.
    assert (Hd : truthy (description t) = true)
      by (apply (contained_is_truthy (lit "unverified")); [reflexivity|exact Hc]).
    rewrite (sentiment_by_counts t Hd) in Hs.
    assert (Hp : In (lit "verified") positive_words)
      by (cbn; tauto).
    assert (Hn : In (lit "unverified") negative_words)
      by (cbn; tauto).
    destruct (Hover (description t) _ _ Hp Hn eq_refl Hc) as (_ & H1 & _).
    destruct (positive_count (lower (description t))
              >? negative_count (lower (description t))) eqn:E1;
      [discriminate|].
    destruct (negative_count (lower (description t))
              >? positive_count (lower (description t))) eqn:E2;
      [|discriminate].
    apply Z.gtb_lt in E2. lia.
  - intros p mc vol h s n d H.
    rewrite (analysis_case_variant p mc vol h s n _ _ H).
    rewrite (lower_variant _ _ H). repeat split.
Qed.

Lemma sentiment_overlapping_keywords_witness :
  sentiment (_analyze_text_data
               (mkSnapshot 1 1000 10 5 (lit "UnVERIFIED") (lit "TKN")
                           (lit "Token")))
  = "neutral"%string.
Proof.
  apply (proj2 (proj2 (proj2 (proj2 (proj2 sentiment_overlapping_keywords))))).
  unfold case_variant.
  repeat (constructor; [first [left; reflexivity | right; reflexivity]|]).
  constructor.
Defined.

End SentimentFacts.

(** ** Data provider fallback *)

Import Fetch.

(** C7.  When neither source delivers the token, the snapshot has as symbol
    the first 6 characters of the address in upper case and as name
    "Token " followed by the first 6 characters as they are; for the address
    0xABCDEF123456 these are "0XABCD" and "Token 0xABCD". *)
Theorem fetch_fallback_symbol_name (w : Upstream) (token_address : str) :
  both_fail w = true ->
  let t := _fetch_token_data w token_address in
  symbol t = upper (slice_to 6 token_address) /\
  name t = (lit "Token " ++ slice_to 6 token_address)%list /\
  (token_address = lit "0xABCDEF123456" ->
   symbol t = lit "0XABCD" /\ name t = lit "Token 0xABCD").
Proof.
  intros Hw. cbv zeta.
  assert (Hsn : symbol (_fetch_token_data w token_address)
                = upper (slice_to 6 token_address) /\
                name (_fetch_token_data w token_address)
                = (lit "Token " ++ slice_to 6 token_address)%list).
  { unfold _fetch_token_data, _fetch_token_data_body, both_fail in *.
    destruct (is_address w); cbn [negb]; [|split; reflexivity].
    destruct (contract_error w); [split; reflexivity|].
    destruct (coingecko w); [split; reflexivity| |discriminate].
    destruct (etherscan w); [split; reflexivity|split; reflexivity|discriminate]. }
  destruct Hsn as [Hs Hn]. split; [exact Hs|]. split; [exact Hn|].
  intros ->. rewrite Hs, Hn. split; reflexivity.
Qed.

Lemma fetch_fallback_symbol_name_witness :
  let w := mkUpstream true None NoData (Fails (lit "timeout")) 0 in
  let t := _fetch_token_data w (lit "0xABCDEF123456") in
  symbol t = lit "0XABCD" /\ name t = lit "Token 0xABCD".
Proof.
  cbv zeta.
  apply (fetch_fallback_symbol_name
           (mkUpstream true None NoData (Fails (lit "timeout")) 0)
           (lit "0xABCDEF123456") eq_refl).
  reflexivity.
Defined.

(** ** Scam tweet *)

Import Tweet.

(** C10.  Whatever the address, the scam type, the description, the warning
    signs and the evidence, the formatted tweet has at most 280 characters,
    and only the first 3 warning signs enter it: the tweet is the one of the
    first 3 signs alone, and its warning text has at most 3 lines. *)
Theorem format_scam_tweet_bounded
        (token_address scam_type description : str)
        (warning_signs : list str) (evidence : option str) :
  (List.length (_format_scam_tweet token_address scam_type description
                                   warning_signs evidence) <= 280)%nat /\
  _format_scam_tweet token_address scam_type description warning_signs evidence
  = _format_scam_tweet token_address scam_type description
                       (firstn 3 warning_signs) evidence /\
  (List.length (warning_lines warning_signs) <= 3)%nat.
Proof.
  split; [|split].
  - unfold _format_scam_tweet, slice_to. apply firstn_le_length.
  - unfold _format_scam_tweet, tweet_text, warning_lines.
    now rewrite firstn_firstn.
  - unfold warning_lines. rewrite length_map. apply firstn_le_length.
Qed.

(** ** Binary64 arithmetic of the length score

    [min(len(description) / 500, 1.0)] is [1.0] for every length from 512
    on: the quotient of a number of at least 512 by 500 has an exponent of at
    least -52, the one of [1.0].  The lengths below 512 are evaluated. *)

Section Binary64.

Local Open Scope Z_scope.

(** The least exponent of the format. *)
Lemma fexp_eq k : fexp prec emax k = Z.max (k - 53) (-1074).
Proof. reflexivity. Qed.

Lemma digits2_pos_lower (p : positive) :
  2 ^ (Zpos (digits2_pos p) - 1) <= Zpos p.
Proof.
  induction p as [p IH|p IH|]; cbn [digits2_pos].
  - rewrite Pos2Z.inj_succ.
    replace (Z.succ (Zpos (digits2_pos p)) - 1)
      with (Z.succ (Zpos (digits2_pos p) - 1)) by lia.
    rewrite Z.pow_succ_r by lia. lia.
  - rewrite Pos2Z.inj_succ.
    replace (Z.succ (Zpos (digits2_pos p)) - 1)
      with (Z.succ (Zpos (digits2_pos p) - 1)) by lia.
    rewrite Z.pow_succ_r by lia. lia.
  - reflexivity.
Qed.

Lemma digits2_pos_upper (p : positive) :
  Zpos p < 2 ^ Zpos (digits2_pos p).
Proof.
  induction p as [p IH|p IH|]; cbn [digits2_pos].
  - rewrite Pos2Z.inj_succ, Z.pow_succ_r by lia. lia.
  - rewrite Pos2Z.inj_succ, Z.pow_succ_r by lia. lia.
  - reflexivity.
Qed.

Lemma shr_1_m mrs : 0 <= shr_m mrs -> shr_m (shr_1 mrs) = shr_m mrs / 2.
Proof.
  destruct mrs as [m r s]; cbn [shr_m]. intros Hm.
  destruct m as [|p|p]; [reflexivity| |lia].
  destruct p as [p|p|]; cbn [shr_1 shr_m].
  - rewrite Pos2Z.inj_xI. apply Z.div_unique with (r := 1); lia.
  - rewrite Pos2Z.inj_xO. apply Z.div_unique with (r := 0); lia.
  - reflexivity.
Qed.

Lemma shr_iter_m (n : positive) : forall mrs,
  0 <= shr_m mrs ->
  shr_m (iter_pos shr_1 n mrs) = shr_m mrs / 2 ^ Zpos n.
Proof.
  induction n as [n IH|n IH|]; intros mrs Hm; cbn [iter_pos].
  - assert (H1 : 0 <= shr_m (shr_1 mrs)).
    { rewrite shr_1_m by assumption. apply Z.div_pos; lia. }
    assert (H2 : 0 <= shr_m (iter_pos shr_1 n (shr_1 mrs))).
    { rewrite IH by assumption. apply Z.div_pos; lia. }
    rewrite IH, IH, shr_1_m by assumption.
    rewrite !Z.div_div by lia.
    replace (2 ^ Zpos n~1) with (2 * (2 ^ Zpos n * 2 ^ Zpos n)); [reflexivity|].
    rewrite (Pos2Z.inj_xI n).
    replace (2 * Zpos n + 1) with (1 + Zpos n + Zpos n) by lia.
    rewrite !Z.pow_add_r by lia. lia.
  - assert (H2 : 0 <= shr_m (iter_pos shr_1 n mrs)).
    { rewrite IH by assumption. apply Z.div_pos; lia. }
    rewrite IH, IH by assumption.
    rewrite !Z.div_div by lia.
    replace (2 ^ Zpos n~0) with (2 ^ Zpos n * 2 ^ Zpos n); [reflexivity|].
    rewrite (Pos2Z.inj_xO n).
    replace (2 * Zpos n) with (Zpos n + Zpos n) by lia.
    rewrite !Z.pow_add_r by lia. lia.
  - rewrite shr_1_m by assumption. reflexivity.
Qed.


Lemma shr_record_of_loc_m m l : shr_m (shr_record_of_loc m l) = m.
Proof. destruct l as [|[]]; reflexivity. Qed.

Lemma round_nearest_even_pos mx lx : 0 < mx -> 0 < round_nearest_even mx lx.
Proof.
  intros H. destruct lx as [|[]]; cbn [round_nearest_even]; try lia.
  destruct (Z.even mx); lia.
Qed.

(** Away from the subnormal range, the shift that brings a mantissa back to
    53 digits keeps it positive and does not lower the exponent. *)
Lemma shr_fexp_pos (m : positive) (e : Z) (l : location) :
  -1000 <= e ->
  0 < shr_m (fst (shr_fexp prec emax (Zpos m) e l)) /\
  e <= snd (shr_fexp prec emax (Zpos m) e l).
Proof.
  intros He. unfold shr_fexp, shr. cbn [Zdigits2]. rewrite fexp_eq.
  pose proof (digits2_pos_lower m) as Hlo.
  set (d := Zpos (digits2_pos m)) in *.
  assert (Hd : 0 < d) by (unfold d; lia).
  replace (Z.max (d + e - 53) (-1074) - e) with (d - 53) by lia.
  destruct (d - 53) as [|n|n] eqn:Hn; cbn [fst snd].
  - rewrite shr_record_of_loc_m. lia.
  - rewrite shr_iter_m by (rewrite shr_record_of_loc_m; lia).
    rewrite shr_record_of_loc_m. split; [|lia].
    apply Z.div_str_pos. split; [lia|].
    apply Z.le_trans with (2 ^ (d - 1)); [|assumption].
    apply Z.pow_le_mono_r; lia.
  - rewrite shr_record_of_loc_m. lia.
Qed.

(** Rounding a positive mantissa away from the subnormal range gives a
    positive number whose exponent is not lower. *)
Lemma binary_round_aux_pos (m : positive) (e : Z) (l : location) :
  -1000 <= e ->
  binary_round_aux prec emax false (Zpos m) e l = S754_infinity false \/
  exists m' e',
    binary_round_aux prec emax false (Zpos m) e l = S754_finite false m' e' /\
    e <= e'.
Proof.
  intros He. unfold binary_round_aux.
  destruct (shr_fexp_pos m e l He) as [Hm1 He1].
  destruct (shr_fexp prec emax (Zpos m) e l) as [mrs1 e1]. cbn [fst snd] in *.
  pose proof (round_nearest_even_pos _ (loc_of_shr_record mrs1) Hm1) as Hr.
  destruct (round_nearest_even (shr_m mrs1) (loc_of_shr_record mrs1))
    as [|m1|m1]; try lia.
  destruct (shr_fexp_pos m1 e1 loc_Exact ltac:(lia)) as [Hm2 He2].
  destruct (shr_fexp prec emax (Zpos m1) e1 loc_Exact) as [mrs2 e2].
  cbn [fst snd] in *.
  destruct (shr_m mrs2) as [|m2|m2]; try lia.
  destruct (e2 <=? emax - prec); [right|left; reflexivity].
  exists m2, e2. split; [reflexivity|lia].
Qed.

(** A valid number with an exponent of the normal range has a mantissa of 53
    digits. *)
Lemma valid_normal_digits (x : float) (s : bool) (m : positive) (e : Z) :
  Prim2SF x = S754_finite s m e -> -1000 <= e ->
  Zpos (digits2_pos m) = 53.
Proof.
  intros Hx He. pose proof (Prim2SF_valid x) as Hv. rewrite Hx in Hv.
  cbn [valid_binary] in Hv. unfold bounded, canonical_mantissa in Hv.
  apply andb_prop in Hv as [Hc _]. rewrite fexp_eq in Hc.
  apply Z.eqb_eq in Hc. lia.
Qed.

(** [float(n)] for [n >= 512]. *)
Lemma of_uint63_big (i : PrimInt63.int) :
  512 <= Uint63.to_Z i ->
  Prim2SF (of_uint63 i) = S754_infinity false \/
  exists m e, Prim2SF (of_uint63 i) = S754_finite false m e /\ -43 <= e.
Proof.
  intros Hi. rewrite of_uint63_spec.
  destruct (Uint63.to_Z i) as [|p|p]; try lia.
  cbn [binary_normalize]. unfold binary_round, shl_align. rewrite fexp_eq.
  pose proof (digits2_pos_upper p) as Hup.
  set (d := Zpos (digits2_pos p)) in *.
  assert (Hd : 10 <= d).
  { destruct (Z_lt_le_dec d 10) as [Hlt|]; [|assumption].
    assert (2 ^ d <= 2 ^ 9) by (apply Z.pow_le_mono_r; lia).
    change (2 ^ 9) with 512 in *. lia. }
  replace (Z.max (d + 0 - 53) (-1074) - 0) with (d - 53) by lia.
  replace (Z.max (d + 0 - 53) (-1074)) with (d - 53) by lia.
  destruct (d - 53) as [|n|n] eqn:Hn.
  - destruct (binary_round_aux_pos p 0 loc_Exact ltac:(lia))
      as [H|(m' & e' & H & He)]; [left; exact H|right].
    exists m', e'. split; [exact H|lia].
  - destruct (binary_round_aux_pos p 0 loc_Exact ltac:(lia))
      as [H|(m' & e' & H & He)]; [left; exact H|right].
    exists m', e'. split; [exact H|lia].
  - destruct (binary_round_aux_pos (Pos.iter xO p n) (Zneg n) loc_Exact
                ltac:(lia))
      as [H|(m' & e' & H & He)]; [left; exact H|right].
    exists m', e'. split; [exact H|lia].
Qed.


(** [x / 500.0] for [x >= 512]: the quotient has an exponent of at least
    [-52], as [1.0] has. *)
Lemma div_500_big (x : float) (m : positive) (e : Z) :
  Prim2SF x = S754_finite false m e -> -43 <= e ->
  Prim2SF (x / 500) = S754_infinity false \/
  exists m' e', Prim2SF (x / 500) = S754_finite false m' e' /\ -52 <= e'.
Proof.
  intros Hx He.
  pose proof (valid_normal_digits x false m e Hx ltac:(lia)) as Hd.
  pose proof (digits2_pos_lower m) as Hlo. rewrite Hd in Hlo.
  change (2 ^ (53 - 1)) with 4503599627370496 in Hlo.
  rewrite div_spec, Hx.
  change (Prim2SF 500) with (S754_finite false 8796093022208000 (-44)).
  unfold SF64div, SFdiv, SFdiv_core_binary. cbn [xorb Zdigits2].
  rewrite Hd. change (Zpos (digits2_pos 8796093022208000)) with 53.
  rewrite fexp_eq.
  replace (Z.min (Z.max (53 + e - (53 + -44) - 53) (-1074)) (e - -44))
    with (e - 9) by lia.
  replace (e - -44 - (e - 9)) with 53 by lia.
  rewrite Z.shiftl_mul_pow2 by lia.
  change (2 ^ 53) with 9007199254740992.
  pose proof (Z.div_str_pos (Zpos m * 9007199254740992) 8796093022208000
                ltac:(lia)) as Hq.
  unfold Z.div in Hq.
  destruct (Z.div_eucl (Zpos m * 9007199254740992) 8796093022208000)
    as [q r].
  destruct q as [|q|q]; try lia.
  destruct (binary_round_aux_pos q (e - 9)
              (new_location 8796093022208000 r) ltac:(lia))
    as [H|(m' & e' & H & He')]; [left; exact H|right].
  exists m', e'. split; [exact H|lia].
Qed.

(** A positive number with an exponent of at least [-52] is at least [1.0],
    so that [min(q, 1.0)] is [1.0]. *)
Lemma min_one_of_big (q : float) :
  (Prim2SF q = S754_infinity false \/
   exists m e, Prim2SF q = S754_finite false m e /\ -52 <= e) ->
  (if PrimFloat.ltb 1 q then 1 else q)%float = 1%float.
Proof.
  intros Hq. rewrite ltb_spec. unfold SFltb.
  change (Prim2SF 1) with (S754_finite false 4503599627370496 (-52)).
  destruct Hq as [Hq|(m & e & Hq & He)].
  - rewrite Hq. reflexivity.
  - pose proof (valid_normal_digits q false m e Hq ltac:(lia)) as Hd.
    pose proof (digits2_pos_lower m) as Hlo. rewrite Hd in Hlo.
    change (2 ^ (53 - 1)) with 4503599627370496 in Hlo.
    rewrite Hq. cbn [SFcompare].
    destruct (Z.compare_spec (-52) e) as [Heq|Hlt|Hgt]; [|reflexivity|lia].
    subst e.
    rewrite Pos.compare_cont_spec.
    change (Pos.compare 4503599627370496 m)
      with (Z.compare 4503599627370496 (Zpos m)).
    destruct (Z.compare_spec 4503599627370496 (Zpos m)) as [Heq|Hlt|Hgt];
      cbv [Pos.switch_Eq].
    + apply Prim2SF_inj. rewrite Hq. injection Heq as <-. reflexivity.
    + reflexivity.
    + clear -Hlo Hgt. lia.
Qed.

(** [min(n / 500, 1.0)] is [1.0] from 512 on. *)
Lemma length_ratio_big (i : PrimInt63.int) :
  512 <= Uint63.to_Z i ->
  (if PrimFloat.ltb 1 (of_uint63 i / 500) then 1 else of_uint63 i / 500)%float
  = 1%float.
Proof.
  intros Hi. apply min_one_of_big.
  destruct (of_uint63_big i Hi) as [Hx|(m & e & Hx & He)].
  - left. rewrite div_spec, Hx. reflexivity.
  - exact (div_500_big _ m e Hx He).
Qed.

End Binary64.

(** ** Credibility score *)

Local Open Scope Z_scope.

Lemma scores_in_unit_true : scores_in_unit = true.
Proof. vm_compute. reflexivity. Qed.

Lemma In_zrange (n : nat) (z : Z) : 0 <= z < Z.of_nat n -> In z (zrange n).
Proof.
  intros Hz. unfold zrange. apply in_map_iff. exists (Z.to_nat z).
  split; [lia|]. apply in_seq. lia.
Qed.

Lemma count_present_bound (words : list str) (s : str) :
  0 <= count_present words s <= len words.
Proof.
  unfold count_present, len. pose proof (filter_length_le (fun w => contains w s) words).
  lia.
Qed.

(** The length score of a description is one of [length_scores]. *)
Lemma length_score_cases (d : str) : In (length_score d) length_scores.
Proof.
  unfold length_score, length_scores, py_min, int_true_div, of_int.
  set (i := Uint63.of_Z (len d)).
  change (of_uint63 (Uint63.of_Z 500)) with 500%float.
  destruct (Z_lt_le_dec (Uint63.to_Z i) 512) as [Hlt|Hge].
  - right. apply in_map_iff. exists (Uint63.to_Z i). split.
    + rewrite Uint63.of_to_Z. reflexivity.
    + apply In_zrange. pose proof (Uint63.to_Z_bounded i). lia.
  - left. symmetry. apply length_ratio_big. exact Hge.
Qed.

Lemma count_in_range (words : list str) (s : str) :
  len words = 5 -> In (count_present words s) (zrange 6).
Proof.
  intros H5. apply In_zrange. pose proof (count_present_bound words s). lia.
Qed.

(** The scores of a description that is not empty. *)
Lemma scores_of_description (d : str) :
  in_unit (length_score d) = true /\
  in_unit (technical_score (lower d)) = true /\
  in_unit (warning_score (lower d)) = true /\
  in_unit ((length_score d + technical_score (lower d)
            + warning_score (lower d)) / 3)%float = true.
Proof.
  pose proof scores_in_unit_true as Hall. unfold scores_in_unit in Hall.
  rewrite forallb_forall in Hall.
  specialize (Hall _ (length_score_cases d)).
  apply andb_prop in Hall as [Hls Hall]. rewrite forallb_forall in Hall.
  pose proof (Hall _ (count_in_range technical_terms (lower d) eq_refl)) as Hk.
  pose proof (Hall _ (count_in_range warning_terms (lower d) eq_refl)) as Hj.
  apply andb_prop in Hk as [Hk Hkj]. apply andb_prop in Hk as [Hk _].
  apply andb_prop in Hj as [Hj _]. apply andb_prop in Hj as [_ Hj].
  rewrite forallb_forall in Hkj.
  specialize (Hkj _ (count_in_range warning_terms (lower d) eq_refl)).
  repeat split; assumption.
Qed.

(** X1.  The credibility score of every description lies in [0, 1]: it is 0.5
    for the empty description, and otherwise the third of the sum of the
    length score, the technical score and the warning score, each of which
    lies in [0, 1].  The arithmetic is the binary64 one of the code. *)
Theorem credibility_score_in_unit (t : TokenSnapshot) :
  let d := description t in
  let c := credibility_score (_analyze_text_data t) in
  in_unit c = true /\
  ((d = [] /\ c = 0.5%float) \/
   (d <> [] /\
    c = ((length_score d + technical_score (lower d)
          + warning_score (lower d)) / 3)%float /\
    in_unit (length_score d) = true /\
    in_unit (technical_score (lower d)) = true /\
    in_unit (warning_score (lower d)) = true)).
Proof.
  cbv zeta. destruct (description t) as [|c d'] eqn:Hd.
  - destruct t as [p mc vol h d s n]. cbn [description] in Hd. subst d.
    split; [reflexivity|]. left. split; reflexivity.
  - assert (Ht : truthy (description t) = true) by now rewrite Hd.
    destruct (analyze_text_nonempty t Ht) as (da & Heq & _).
    rewrite Heq. cbn [credibility_score]. unfold credibility_of.
    rewrite Ht, Hd.
    destruct (scores_of_description (c :: d')) as (H1 & H2 & H3 & H4).
    split; [exact H4|]. right. split; [discriminate|].
    repeat split; assumption.
Qed.

(** * Further properties *)

(** ** Order of the floats *)

Section FloatOrderFacts.

Import FloatOrder.
Local Close Scope string_scope.
Local Open Scope Z_scope.

Ltac cmp_case :=
  split;
  [ intros H; try discriminate H; repeat split; try reflexivity; try lia
  | intros (H1 & H2 & H3); cbn in H1, H2, H3;
    try discriminate H1; try discriminate H2; try reflexivity; try lia ].

Lemma SFltb_key (x y : spec_float) :
  SFltb x y = true <->
  is_nan x = false /\ is_nan y = false /\ key_lt (key x) (key y).
Proof.
  unfold SFltb.
  destruct x as [sx|sx| |sx mx ex], y as [sy|sy| |sy my ey].
  1-15: cbn [SFcompare is_nan key key_lt];
    repeat match goal with s : bool |- _ => destruct s end;
    cbn [key key_lt]; cmp_case.
  destruct sx, sy; cbn [SFcompare is_nan key key_lt].
  2-3: cmp_case.
  - rewrite Pos.compare_cont_spec; cbv [Pos.switch_Eq].
    change (Pos.compare mx my) with (Z.compare (Zpos mx) (Zpos my)).
    destruct (Z.compare_spec ex ey) as [He|He|He];
      destruct (Z.compare_spec (Zpos mx) (Zpos my)) as [Hm|Hm|Hm];
      cbn [CompOpp]; cmp_case.
  - rewrite Pos.compare_cont_spec; cbv [Pos.switch_Eq].
    change (Pos.compare mx my) with (Z.compare (Zpos mx) (Zpos my)).
    destruct (Z.compare_spec ex ey) as [He|He|He];
      destruct (Z.compare_spec (Zpos mx) (Zpos my)) as [Hm|Hm|Hm];
      cbn [CompOpp]; cmp_case.
Qed.

Lemma ltb_key (a b : float) :
  PrimFloat.ltb a b = true <->
  is_nan (Prim2SF a) = false /\ is_nan (Prim2SF b) = false /\
  key_lt (key (Prim2SF a)) (key (Prim2SF b)).
Proof. rewrite ltb_spec. apply SFltb_key. Qed.

Lemma key_lt_trans a b c : key_lt a b -> key_lt b c -> key_lt a c.
Proof.
  destruct a as [[a1 a2] a3], b as [[b1 b2] b3], c as [[c1 c2] c3].
  unfold key_lt. lia.
Qed.

Lemma key_lt_asym a b : key_lt a b -> key_lt b a -> False.
Proof.
  destruct a as [[a1 a2] a3], b as [[b1 b2] b3]. unfold key_lt. lia.
Qed.

(** [<] on floats is transitive. *)
Lemma float_lt_trans (a b c : float) :
  PrimFloat.ltb a b = true -> PrimFloat.ltb b c = true ->
  PrimFloat.ltb a c = true.
Proof.
  rewrite !ltb_key. intros (Ha & Hb & Hab) (_ & Hc & Hbc).
  repeat split; try assumption. eapply key_lt_trans; eassumption.
Qed.

(** [a < b] excludes [b < a]. *)
Lemma float_lt_asym (a b : float) :
  PrimFloat.ltb a b = true -> PrimFloat.ltb b a = false.
Proof.
  intros Hab. destruct (PrimFloat.ltb b a) eqn:Hba; [|reflexivity].
  rewrite ltb_key in Hab, Hba.
  destruct Hab as (_ & _ & Hab), Hba as (_ & _ & Hba).
  destruct (key_lt_asym _ _ Hab Hba).
Qed.

Lemma SFleb_key (x y : spec_float) :
  SFleb x y = true <->
  is_nan x = false /\ is_nan y = false /\ ~ key_lt (key y) (key x).
Proof.
  unfold SFleb.
  destruct x as [sx|sx| |sx mx ex], y as [sy|sy| |sy my ey].
  1-15: cbn [SFcompare is_nan key key_lt];
    repeat match goal with s : bool |- _ => destruct s end;
    cbn [key key_lt]; cmp_case.
  destruct sx, sy; cbn [SFcompare is_nan key key_lt].
  2-3: cmp_case.
  - rewrite Pos.compare_cont_spec; cbv [Pos.switch_Eq].
    change (Pos.compare mx my) with (Z.compare (Zpos mx) (Zpos my)).
    destruct (Z.compare_spec ex ey) as [He|He|He];
      destruct (Z.compare_spec (Zpos mx) (Zpos my)) as [Hm|Hm|Hm];
      cbn [CompOpp]; cmp_case.
  - rewrite Pos.compare_cont_spec; cbv [Pos.switch_Eq].
    change (Pos.compare mx my) with (Z.compare (Zpos mx) (Zpos my)).
    destruct (Z.compare_spec ex ey) as [He|He|He];
      destruct (Z.compare_spec (Zpos mx) (Zpos my)) as [Hm|Hm|Hm];
      cbn [CompOpp]; cmp_case.
Qed.

(** [min(x, 1.0)] is in the unit interval for a number that is not NaN and
    not negative. *)
Lemma min_one_in_unit (x : float) :
  is_nan (Prim2SF x) = false ->
  ~ key_lt (key (Prim2SF x)) (0, 0, 0) ->
  in_unit (py_min x 1) = true.
Proof.
  intros Hnan Hpos. unfold py_min.
  destruct (PrimFloat.ltb 1 x) eqn:Hlt; [reflexivity|].
  unfold in_unit. apply andb_true_intro. split.
  - rewrite leb_spec. apply SFleb_key. repeat split; assumption.
  - rewrite leb_spec. apply SFleb_key. repeat split; try assumption.
    intros Hk. rewrite <- not_true_iff_false in Hlt. apply Hlt.
    apply ltb_key. repeat split; assumption.
Qed.

End FloatOrderFacts.

(** ** Risk assessor: faults, order of the tiers, metrics *)

Section RiskOrder.

Import Examples Risk FloatOrder RiskVocabulary.
Local Open Scope Z_scope.
Local Open Scope string_scope.

(** The factors after the four tiers: at most one of each tier, in the order
    market cap, volume, holders, liquidity. *)
Lemma tiers_factors (t : TokenSnapshot) :
  exists st,
    tiers t = inr st /\
    fst st =
      ((if lt (market_cap t) 100000 then ["Very low market cap"]
        else if lt (market_cap t) 1000000 then ["Low market cap"] else [])
       ++ (if eq (volume_24h t) 0 then ["No trading volume"]
           else if lt (volume_24h t) (market_cap t * 0.01)%float
                then ["Low trading volume"] else [])
       ++ (if (holders t <? 100)%Z then ["Very few holders"]
           else if (holders t <? 1000)%Z then ["Limited holder base"] else [])
       ++ (if gt (volume_24h t) 0 && gt (market_cap t) 0 then
             if lt (volume_24h t / market_cap t)%float 0.01
             then ["Low liquidity"]
             else if lt (volume_24h t / market_cap t)%float 0.1
                  then ["Moderate liquidity"] else []
           else []))%list.
Proof.
  unfold tiers, liquidity_tier, holder_tier, volume_tier, market_cap_tier.
  destruct (gt (volume_24h t) 0 && gt (market_cap t) 0) eqn:Hg.
  - apply andb_prop in Hg as [_ Hmc].
    unfold py_div. rewrite (gt_zero_not_eq_zero _ Hmc). cbn [bind ret].
    repeat match goal with
           | |- context [if ?b then _ else _] => destruct b
           end; eexists; split; reflexivity.
  - repeat match goal with
           | |- context [if ?b then _ else _] => destruct b
           end; eexists; split; reflexivity.
Qed.

(** X2.  [_assess_risk] answers with the error sentinel exactly on the snapshots
    with a positive volume and a zero market cap. *)
Theorem assess_risk_fault_iff (t : TokenSnapshot) :
  _assess_risk t = error_assessment <-> divides_by_zero t = true.
Proof.
  unfold _assess_risk, divides_by_zero.
  destruct (assess_risk_body_cases t)
    as [[Hb Hc]|(st & m & Hst & Hm & Hc & Hb)]; rewrite Hb; cbn [try_except].
  - split; [intros _; exact Hc | reflexivity].
  - rewrite Hc. split; discriminate.
Qed.

(** X3.  When the metric does not divide by zero, the factors are those of the
    four tiers in the order market cap, volume, holders, liquidity, at most
    one per tier and so at most four, and the overall risk is the one of
    their number. *)
Theorem assess_risk_tier_order (t : TokenSnapshot) :
  divides_by_zero t = false ->
  exists c v h l : list string,
    risk_factors (_assess_risk t) = (c ++ v ++ h ++ l)%list /\
    (c = [] \/ c = ["Very low market cap"] \/ c = ["Low market cap"]) /\
    (v = [] \/ v = ["No trading volume"] \/ v = ["Low trading volume"]) /\
    (h = [] \/ h = ["Very few holders"] \/ h = ["Limited holder base"]) /\
    (l = [] \/ l = ["Low liquidity"] \/ l = ["Moderate liquidity"]) /\
    (List.length (risk_factors (_assess_risk t)) <= 4)%nat /\
    overall_risk (_assess_risk t) =
      overall_of_score (Z.of_nat (List.length (risk_factors (_assess_risk t)))).
Proof.
  intros Hz. unfold _assess_risk, divides_by_zero in *.
  destruct (assess_risk_body_cases t)
    as [[Hb Hc]|(st & m & Hst & Hm & Hc & Hb)];
    [rewrite Hc in Hz; discriminate|].
  rewrite Hb. cbn [try_except risk_factors overall_risk].
  destruct (tiers_factors t) as (st' & Hst' & Hf).
  rewrite Hst in Hst'. injection Hst' as <-. rewrite Hf.
  eexists _, _, _, _. split; [reflexivity|].
  repeat match goal with
         | |- context [if ?b then _ else _] => destruct b
         end; cbn [List.length app]; intuition lia.
Qed.

Lemma assess_risk_tier_order_witness :
  (List.length (risk_factors (_assess_risk (small_token 1 []))) <= 4)%nat.
Proof.
  destruct (assess_risk_tier_order (small_token 1 []) eq_refl)
    as (c & v & h & l & _ & _ & _ & _ & _ & H & _).
  exact H.
Defined.

(** X4.  The overall risk grows with the number of factors: its rank on the
    scale minimal, low, medium, high, extreme is the number of factors,
    capped at 4. *)
Theorem overall_risk_rank (n : Z) :
  risk_rank (overall_of_score n) = Z.max 0 (Z.min n 4).
Proof.
  unfold overall_of_score.
  destruct (Z.geb_spec n 4); [cbn; lia|].
  destruct (Z.geb_spec n 3); [cbn; lia|].
  destruct (Z.geb_spec n 2); [cbn; lia|].
  destruct (Z.geb_spec n 1); cbn; lia.
Qed.

(** A market cap below 100_000 is below 1_000_000. *)
Lemma lt_100000_lt_1000000 (x : float) :
  lt x 100000 = true -> lt x 1000000 = true.
Proof.
  intros H. unfold lt in *. eapply float_lt_trans; [exact H|reflexivity].
Qed.

(** X5.  The [market_cap_risk] and [holder_risk] metrics say whether a factor of
    the market cap tier, respectively of the holder tier, is listed. *)
Theorem cap_and_holder_metrics_match_factors
        (t : TokenSnapshot) (m : RiskMetrics) :
  risk_metrics (_assess_risk t) = Some m ->
  let fs := risk_factors (_assess_risk t) in
  (market_cap_risk m = true <->
   In "Very low market cap" fs \/ In "Low market cap" fs) /\
  (holder_risk m = true <->
   In "Very few holders" fs \/ In "Limited holder base" fs).
Proof.
  unfold _assess_risk.
  destruct (assess_risk_body_cases t)
    as [[Hb Hc]|(st & m' & Hst & Hm & Hc & Hb)]; rewrite Hb;
    cbn [try_except risk_metrics risk_factors]; [discriminate|].
  intros [= <-]. cbv zeta.
  destruct (metrics_cases t) as [[Hc' _]|[_ Hm']];
    [rewrite Hc in Hc'; discriminate|].
  rewrite Hm in Hm'. injection Hm' as ->.
  cbn [market_cap_risk holder_risk].
  destruct (tiers_factors t) as (st' & Hst' & Hf).
  rewrite Hst in Hst'. injection Hst' as <-. rewrite Hf.
  rewrite !in_app_iff.
  pose proof (lt_100000_lt_1000000 (market_cap t)) as Htr.
  assert (Hh : (holders t <? 100)%Z = true -> (holders t <? 1000)%Z = true).
  { rewrite !Z.ltb_lt. lia. }
  split.
  - destruct (lt (market_cap t) 100000), (lt (market_cap t) 1000000);
      try (specialize (Htr eq_refl); discriminate);
      repeat match goal with
             | |- context [if ?b then _ else _] => destruct b
             end; cbn [In]; intuition discriminate.
  - destruct (holders t <? 100)%Z, (holders t <? 1000)%Z;
      try (specialize (Hh eq_refl); discriminate);
      repeat match goal with
             | |- context [if ?b then _ else _] => destruct b
             end; cbn [In]; intuition discriminate.
Qed.

Lemma cap_and_holder_metrics_match_factors_witness :
  In "Very low market cap" (risk_factors (_assess_risk (small_token 1 []))) \/
  In "Low market cap" (risk_factors (_assess_risk (small_token 1 []))).
Proof.
  apply (cap_and_holder_metrics_match_factors (small_token 1 [])
           (mkRiskMetrics true true true false) eq_refl).
  reflexivity.
Defined.

End RiskOrder.

(** ** Metrics classifier *)

Section MetricsFacts.

Import Examples Risk FloatOrder RiskVocabulary Metrics.
Local Open Scope Z_scope.
Local Open Scope string_scope.

(** The division of the liquidity analysis is guarded: the body of
    [_analyze_metrics] never raises. *)
Lemma analyze_metrics_body_returns (t : TokenSnapshot) :
  exists la,
    liquidity_analysis_of (market_cap t) (volume_24h t) = inr la /\
    _analyze_metrics t =
      mkMetrics (price_trend_of (price t) (market_cap t) (volume_24h t))
                (volume_analysis_of (market_cap t) (volume_24h t))
                (holder_distribution_of (holders t))
                la
                (Some (price t, market_cap t, volume_24h t, holders t)) /\
    la = (if gt (market_cap t) 0 && gt (volume_24h t) 0 then
            if gt (volume_24h t / market_cap t)%float 0.5 then "high"
            else if gt (volume_24h t / market_cap t)%float 0.1 then "medium"
            else "insufficient"
          else "insufficient").
Proof.
  unfold _analyze_metrics, _analyze_metrics_body, liquidity_analysis_of.
  destruct (gt (market_cap t) 0 && gt (volume_24h t) 0) eqn:Hg.
  - apply andb_prop in Hg as [Hmc _].
    unfold py_div. rewrite (gt_zero_not_eq_zero _ Hmc). cbn [bind ret].
    destruct (gt _ 0.5); [eexists; repeat split; reflexivity|].
    destruct (gt _ 0.1); eexists; repeat split; reflexivity.
  - eexists; repeat split; reflexivity.
Qed.

(** X6.  [_analyze_metrics] never answers "unknown": every label is one of the
    three of its band, and the raw metrics are those of the snapshot. *)
Theorem analyze_metrics_never_unknown (t : TokenSnapshot) :
  let m := _analyze_metrics t in
  In (price_trend m) ["bullish"; "bearish"; "neutral"] /\
  In (volume_analysis m) ["high"; "medium"; "low"] /\
  In (holder_distribution m) ["distributed"; "moderate"; "concentrated"] /\
  In (liquidity_analysis m) ["high"; "medium"; "insufficient"] /\
  raw_metrics m = Some (price t, market_cap t, volume_24h t, holders t).
Proof.
  cbv zeta. destruct (analyze_metrics_body_returns t) as (la & _ & -> & ->).
  cbn [price_trend volume_analysis holder_distribution liquidity_analysis
       raw_metrics].
  unfold price_trend_of, volume_analysis_of, holder_distribution_of.
  repeat split;
    repeat match goal with
           | |- context [if ?b then _ else _] => destruct b
           end; cbn [In]; tauto.
Qed.

(** X7.  A token whose liquidity the metrics classifier finds "high" or "medium"
    is assessed without fault, gets no liquidity factor and a false
    [liquidity_risk] metric. *)
Theorem liquid_token_no_liquidity_risk (t : TokenSnapshot) :
  liquidity_analysis (_analyze_metrics t) = "high" \/
  liquidity_analysis (_analyze_metrics t) = "medium" ->
  let r := _assess_risk t in
  ~ In "Low liquidity" (risk_factors r) /\
  ~ In "Moderate liquidity" (risk_factors r) /\
  exists m, risk_metrics r = Some m /\ liquidity_risk m = false.
Proof.
  destruct (analyze_metrics_body_returns t) as (la & _ & -> & ->).
  cbn [liquidity_analysis]. intros Hl.
  destruct (gt (market_cap t) 0 && gt (volume_24h t) 0) eqn:Hg;
    [|destruct Hl; discriminate].
  apply andb_prop in Hg as [Hmc Hvol].
  assert (Hr : gt (volume_24h t / market_cap t)%float 0.1 = true).
  { destruct (gt _ 0.5) eqn:H5.
    - unfold gt in *. eapply float_lt_trans; [|exact H5]. reflexivity.
    - destruct (gt _ 0.1); [reflexivity|destruct Hl; discriminate]. }
  assert (Hn1 : lt (volume_24h t / market_cap t)%float 0.1 = false).
  { unfold gt, lt in *. now apply float_lt_asym. }
  assert (Hn2 : lt (volume_24h t / market_cap t)%float 0.01 = false).
  { destruct (lt _ 0.01) eqn:H1; [|reflexivity].
    unfold lt in *. rewrite <- Hn1. symmetry.
    eapply float_lt_trans; [exact H1|reflexivity]. }
  pose proof (gt_zero_not_eq_zero _ Hmc) as Hz.
  cbv zeta. unfold _assess_risk.
  destruct (assess_risk_body_cases t)
    as [[Hb Hc]|(st & m & Hst & Hm & Hc & Hb)].
  { rewrite Hz, andb_false_r in Hc. discriminate. }
  rewrite Hb. cbn [try_except risk_factors risk_metrics].
  destruct (tiers_factors t) as (st' & Hst' & Hf).
  rewrite Hst in Hst'. injection Hst' as <-. rewrite Hf.
  rewrite Hvol, Hmc, Hn1, Hn2. cbn [andb].
  destruct (metrics_cases t) as [[Hc' _]|[_ Hm']];
    [rewrite Hc in Hc'; discriminate|].
  rewrite Hm in Hm'. injection Hm' as ->.
  rewrite !in_app_iff. cbn [liquidity_risk].
  rewrite Hvol, Hn1. cbn [andb].
  repeat split; [| |eexists; split; reflexivity];
    repeat match goal with
           | |- context [if ?b then _ else _] => destruct b
           end; cbn [In]; intuition discriminate.
Qed.

Lemma liquid_token_no_liquidity_risk_witness :
  ~ In "Low liquidity" (risk_factors (_assess_risk (large_token 1 []))).
Proof.
  apply (liquid_token_no_liquidity_risk (large_token 1 [])).
  left. reflexivity.
Defined.

End MetricsFacts.

(** ** Fallback chain, top-level analysis and display *)

Section FetchFacts.

Import Examples Risk FloatOrder RiskVocabulary FetchVocabulary Fetch.
Local Open Scope Z_scope.
Local Open Scope string_scope.

(** Without the data of CoinGecko the price, the market cap and the volume
    of the snapshot are zero. *)
Lemma fetch_zero_prices (w : Upstream) (token_address : str) :
  served_by_coingecko w = false ->
  let t := _fetch_token_data w token_address in
  price t = 0%float /\ market_cap t = 0%float /\ volume_24h t = 0%float.
Proof.
  unfold served_by_coingecko, _fetch_token_data, _fetch_token_data_body.
  destruct (is_address w); cbn [negb andb]; [|intros _; repeat split].
  destruct (contract_error w); [intros _; repeat split|].
  destruct (coingecko w); [intros _; repeat split| |discriminate].
  destruct (etherscan w); intros _; repeat split.
Qed.

(** X10.  Every token that CoinGecko does not serve is assessed without fault as
    a token of very low market cap without trading volume: these two
    factors come first, a holder factor may follow, and the overall risk is
    "medium" or "high".  The [volume_risk] metric is nevertheless false. *)
Theorem unpriced_token_risk (w : Upstream) (token_address : str) :
  served_by_coingecko w = false ->
  let r := _assess_risk (_fetch_token_data w token_address) in
  exists h,
    risk_factors r = ("Very low market cap" :: "No trading volume" :: h) /\
    (h = [] \/ h = ["Very few holders"] \/ h = ["Limited holder base"]) /\
    (overall_risk r = "medium" \/ overall_risk r = "high") /\
    option_map volume_risk (risk_metrics r) = Some false /\
    option_map market_cap_risk (risk_metrics r) = Some true.
Proof.
  intros Hs. cbv zeta.
  destruct (fetch_zero_prices w token_address Hs) as (Hp & Hmc & Hvol).
  set (t := _fetch_token_data w token_address) in *.
  unfold _assess_risk.
  destruct (assess_risk_body_cases t)
    as [[Hb Hc]|(st & m & Hst & Hm & Hc & Hb)].
  { rewrite Hvol in Hc. discriminate. }
  rewrite Hb. cbn [try_except risk_factors overall_risk risk_metrics option_map].
  destruct (tiers_factors t) as (st' & Hst' & Hf).
  rewrite Hst in Hst'. injection Hst' as <-. rewrite Hf.
  destruct (metrics_cases t) as [[Hc' _]|[_ Hm']];
    [rewrite Hc in Hc'; discriminate|].
  rewrite Hm in Hm'. injection Hm' as ->.
  rewrite Hmc, Hvol. cbn [market_cap_risk volume_risk].
  change (lt 0 100000) with true. change (eq 0 0) with true.
  change (gt 0 0) with false. change (lt 0 (0 * 0.01)) with false.
  change (lt 0 1000000) with true.
  cbn [andb app].
  destruct (holders t <? 100)%Z; [|destruct (holders t <? 1000)%Z];
    eexists; (split; [reflexivity|]); cbn; intuition reflexivity.
Qed.

Lemma unpriced_token_risk_witness :
  exists h,
    risk_factors (_assess_risk
      (_fetch_token_data (mkUpstream false None NoData NoData 0)
                         (lit "not an address")))
    = ("Very low market cap" :: "No trading volume" :: h).
Proof.
  destruct (unpriced_token_risk (mkUpstream false None NoData NoData 0)
              (lit "not an address") eq_refl) as (h & H & _).
  exists h. exact H.
Defined.

(** X9.  An address that is not valid is not an error for the caller: without
    asking any source, the snapshot is the zeroed one with the description
    "Error fetching data: Invalid token address", and it is assessed "high"
    with three factors. *)
Theorem invalid_address_is_high_risk (w : Upstream) (token_address : str) :
  is_address w = false ->
  let t := _fetch_token_data w token_address in
  t = error_snapshot token_address (lit "Invalid token address") /\
  description t = lit "Error fetching data: Invalid token address" /\
  holders t = 0 /\
  risk_factors (_assess_risk t) =
    ["Very low market cap"; "No trading volume"; "Very few holders"] /\
  overall_risk (_assess_risk t) = "high".
Proof.
  intros Ha. cbv zeta. unfold _fetch_token_data, _fetch_token_data_body.
  rewrite Ha. cbn [negb]. repeat split; reflexivity.
Qed.

Lemma invalid_address_is_high_risk_witness :
  overall_risk (_assess_risk
    (_fetch_token_data (mkUpstream false None NoData NoData 0)
                       (lit "not an address"))) = "high".
Proof.
  apply (invalid_address_is_high_risk (mkUpstream false None NoData NoData 0)
           (lit "not an address") eq_refl).
Defined.

(** The upper-case mapping is stable: mapping its result again changes
    nothing.  For the code points of the table this is checked entry by
    entry. *)
Lemma assoc_In (c : char) (table : list (N * list N)) (image : list char) :
  assoc c table = Some image -> In (c, image) table.
Proof.
  induction table as [|[k i] rest IH]; cbn [assoc]; [discriminate|].
  destruct (N.eqb_spec k c) as [->|_].
  - intros [= ->]. now left.
  - intros H. right. now apply IH.
Qed.

Lemma upper_app (a b : str) :
  upper (a ++ b)%list = (upper a ++ upper b)%list.
Proof. apply flat_map_app. Qed.

Lemma to_upper_stable :
  forallb (fun e => if list_eq_dec N.eq_dec (upper (snd e)) (snd e)
                    then true else false) to_upper = true.
Proof. vm_compute. reflexivity. Qed.

Lemma upper_char_idempotent (c : char) : upper (upper_char c) = upper_char c.
Proof.
  unfold upper_char at 1 2.
  destruct (N.ltb_spec c 128) as [Hc|Hc].
  - unfold upper. cbn [flat_map]. rewrite app_nil_r. unfold upper_char.
    destruct ((97 <=? c)%N && (c <=? 122)%N) eqn:E.
    + apply andb_prop in E. destruct E as [E1 E2].
      apply N.leb_le in E1, E2.
      replace (c - 32 <? 128)%N with true by (symmetry; apply N.ltb_lt; lia).
      replace ((97 <=? c - 32)%N) with false
        by (symmetry; apply N.leb_gt; lia).
      reflexivity.
    + replace (c <? 128)%N with true by (symmetry; now apply N.ltb_lt).
      now rewrite E.
  - destruct (assoc c to_upper) as [image|] eqn:E.
    + apply assoc_In in E.
      pose proof (proj1 (forallb_forall _ _) to_upper_stable _ E) as H.
      cbn [snd] in H.
      destruct (list_eq_dec N.eq_dec (upper image) image);
        [assumption|discriminate].
    + unfold upper. cbn [flat_map]. rewrite app_nil_r. unfold upper_char.
      replace (c <? 128)%N with false by (symmetry; now apply N.ltb_ge).
      now rewrite E.
Qed.

Lemma upper_idempotent (s : str) : upper (upper s) = upper s.
Proof.
  induction s as [|c s IH]; [reflexivity|].
  change (upper (c :: s)) with (upper_char c ++ upper s)%list.
  rewrite upper_app, upper_char_idempotent, IH. reflexivity.
Qed.

Lemma to_upper_no_small_letter :
  forallb (fun e => forallb (fun c => negb ((97 <=? c)%N && (c <=? 122)%N))
                            (snd e)) to_upper = true.
Proof. vm_compute. reflexivity. Qed.

Lemma upper_char_no_small_letter (c : char) :
  Forall (fun u => ((97 <=? u)%N && (u <=? 122)%N) = false) (upper_char c).
Proof.
  unfold upper_char. destruct (N.ltb_spec c 128) as [Hc|Hc].
  - constructor; [|constructor].
    destruct ((97 <=? c)%N && (c <=? 122)%N) eqn:E; [|exact E].
    apply andb_prop in E. destruct E as [E1 E2]. apply N.leb_le in E1, E2.
    apply andb_false_intro1. apply N.leb_gt. lia.
  - destruct (assoc c to_upper) as [image|] eqn:E.
    + apply assoc_In in E.
      pose proof (proj1 (forallb_forall _ _) to_upper_no_small_letter _ E)
        as H.
      cbn [snd] in H. apply Forall_forall. intros u Hu.
      apply (proj1 (forallb_forall _ _) H) in Hu.
      now apply negb_true_iff in Hu.
    + constructor; [|constructor].
      apply andb_false_intro2. apply N.leb_gt. lia.
Qed.

Lemma upper_no_small_letter (s : str) :
  Forall (fun u => ((97 <=? u)%N && (u <=? 122)%N) = false) (upper s).
Proof.
  induction s as [|c s IH]; [constructor|].
  change (upper (c :: s)) with (upper_char c ++ upper s)%list.
  apply Forall_app. split; [apply upper_char_no_small_letter|exact IH].
Qed.

(** X11.  On every path the symbol of the snapshot is in upper case:
    [upper()] leaves it as it is, and it has none of the letters a to z. *)
Theorem fetch_symbol_upper (w : Upstream) (token_address : str) :
  upper (symbol (_fetch_token_data w token_address))
  = symbol (_fetch_token_data w token_address) /\
  Forall (fun u => ((97 <=? u)%N && (u <=? 122)%N) = false)
         (symbol (_fetch_token_data w token_address)).
Proof.
  assert (H : forall s : str,
             upper (upper s) = upper s /\
             Forall (fun u => ((97 <=? u)%N && (u <=? 122)%N) = false)
                    (upper s))
    by (intros s; split; [apply upper_idempotent|apply upper_no_small_letter]).
  unfold _fetch_token_data, _fetch_token_data_body.
  destruct (is_address w); cbn [negb]; [|apply H].
  destruct (contract_error w); [apply H|].
  destruct (coingecko w); [apply H| |apply H].
  destruct (etherscan w); apply H.
Qed.

(** X12.  The dictionary [analyze] returns has no key "symbol", so the handler of
    the social analysis always answers that it could not determine the
    symbol and never asks the social analyzer. *)
Theorem social_handler_never_asks (w : Upstream) (token_address : str) :
  Analyze.get (Analyze.analyze w token_address) "symbol" = None /\
  Bot.analyze_social_step (Analyze.analyze w token_address) = Bot.ReplyNoSymbol.
Proof. split; reflexivity. Qed.

(** X13.  When the assessment faults, the risk handler shows the white circle
    and marks each of the four risk metrics as passed; in all other cases
    the circle is coloured and a mark is a cross exactly when its metric is
    true. *)
Theorem risk_display (t : TokenSnapshot) :
  let r := _assess_risk t in
  (divides_by_zero t = true /\
   Bot.risk_emoji (overall_risk r) = Bot.white_circle /\
   Bot.risk_metric_marks r =
     [ScamDb.check_mark; ScamDb.check_mark; ScamDb.check_mark;
      ScamDb.check_mark]) \/
  (divides_by_zero t = false /\
   Bot.risk_emoji (overall_risk r) <> Bot.white_circle /\
   exists m, risk_metrics r = Some m /\
     Bot.risk_metric_marks r =
       List.map (fun b : bool => if b then Bot.cross_mark else ScamDb.check_mark)
                [market_cap_risk m; volume_risk m; holder_risk m;
                 liquidity_risk m]).
Proof.
  cbv zeta. unfold _assess_risk, divides_by_zero.
  destruct (assess_risk_body_cases t)
    as [[Hb Hc]|(st & m & Hst & Hm & Hc & Hb)]; rewrite Hb;
    cbn [try_except].
  - left. split; [exact Hc|]. split; reflexivity.
  - right. split; [exact Hc|]. cbn [overall_risk risk_metrics]. split.
    + unfold overall_of_score.
      repeat match goal with
             | |- context [if ?b then _ else _] => destruct b
             end; discriminate.
    + exists m. split; [reflexivity|].
      unfold Bot.risk_metric_marks, Bot.metric_mark, Bot.metric_get.
      cbn [risk_metrics option_map List.map].
      destruct (market_cap_risk m), (volume_risk m), (holder_risk m),
        (liquidity_risk m); reflexivity.
Qed.

End FetchFacts.

(** ** Holder count *)

Section HolderFacts.

Import Holders.
Local Close Scope string_scope.
Local Open Scope Z_scope.

Lemma fold_step_nodup (txs : list Transfer) : forall s,
  NoDup s -> NoDup (fold_left add_participants txs s).
Proof.
  induction txs as [|tx txs IH]; intros s Hs; cbn [fold_left];
    [assumption|].
  apply IH. unfold add_participants. now repeat apply set_add_nodup.
Qed.

Lemma fold_step_in (txs : list Transfer) : forall s a,
  In a (fold_left add_participants txs s) <->
  In a s \/
  exists tx, In tx txs /\ (a = lower (tx_from tx) \/ a = lower (tx_to tx)).
Proof.
  induction txs as [|tx txs IH]; intros s a; cbn [fold_left].
  - split; [now left|]. intros [H|(tx & [] & _)]; assumption.
  - rewrite IH. unfold add_participants. rewrite !set_add_iff. split.
    + intros [[H|[H|H]]|(tx' & Hin & H)].
      * right. exists tx. split; [now left|now right].
      * right. exists tx. split; [now left|now left].
      * now left.
      * right. exists tx'. split; [now right|assumption].
    + intros [H|(tx' & [<-|Hin] & H)].
      * left. right. now right.
      * left. destruct H as [H|H]; [right; now left|now left].
      * right. exists tx'. now split.
Qed.

Lemma fold_step_length (txs : list Transfer) : forall s,
  (List.length (fold_left add_participants txs s) <= List.length s + 2 * List.length txs)%nat.
Proof.
  induction txs as [|tx txs IH]; intros s; cbn [fold_left List.length];
    [lia|].
  specialize (IH (add_participants s tx)).
  assert (Hadd : forall a (l : set str),
             (List.length (set_add str_eq_dec a l) <= S (List.length l))%nat).
  { intros a l. induction l as [|b l IHl]; cbn; [lia|].
    destruct (str_eq_dec a b); cbn; lia. }
  unfold add_participants in *.
  pose proof (Hadd (lower (tx_to tx))
                   (set_add str_eq_dec (lower (tx_from tx)) s)).
  pose proof (Hadd (lower (tx_from tx)) s). lia.
Qed.

Lemma set_remove_length (a : str) (l : set str) :
  (List.length (set_remove str_eq_dec a l) <= List.length l)%nat.
Proof.
  induction l as [|b l IH]; cbn; [lia|].
  destruct (str_eq_dec a b); cbn; lia.
Qed.

Lemma counted_spec (token_address : str) (txs : list Transfer) :
  NoDup (counted token_address txs) /\
  forall a,
    In a (counted token_address txs) <->
    a <> zero_address /\ a <> lower token_address /\
    exists tx, In tx txs /\ (a = lower (tx_from tx) \/ a = lower (tx_to tx)).
Proof.
  unfold counted, unique_addresses.
  pose proof (fold_step_nodup txs (empty_set str) (NoDup_nil _)) as Hnd.
  split.
  - now repeat apply set_remove_nodup.
  - intros a. rewrite set_remove_iff by now apply set_remove_nodup.
    rewrite set_remove_iff by assumption.
    rewrite fold_step_in. cbn [In empty_set]. tauto.
Qed.

(** X14.  The estimate counts every participant of the transfers once, whatever
    the case of its letters, except the zero address and the contract
    itself; it is at most twice the number of transfers. *)
Theorem count_holders_spec (token_address : str) (txs : list Transfer) :
  exists participants : list str,
    count_holders token_address txs = Z.of_nat (List.length participants) /\
    NoDup participants /\
    (forall a,
        In a participants <->
        a <> zero_address /\ a <> lower token_address /\
        exists tx, In tx txs /\
                   (a = lower (tx_from tx) \/ a = lower (tx_to tx))) /\
    0 <= count_holders token_address txs <= 2 * Z.of_nat (List.length txs).
Proof.
  exists (counted token_address txs).
  destruct (counted_spec token_address txs) as [Hnd Hin].
  split; [reflexivity|]. split; [exact Hnd|]. split; [exact Hin|].
  unfold count_holders, counted.
  pose proof (set_remove_length (lower token_address)
                (set_remove str_eq_dec zero_address (unique_addresses txs))).
  pose proof (set_remove_length zero_address (unique_addresses txs)).
  pose proof (fold_step_length txs (empty_set str)) as Hl.
  unfold unique_addresses in *. cbn [List.length empty_set] in Hl. lia.
Qed.

(** X15.  The estimate does not depend on the order of the transfers. *)
Theorem count_holders_permutation (token_address : str)
        (txs txs' : list Transfer) :
  Permutation txs txs' ->
  count_holders token_address txs = count_holders token_address txs'.
Proof.
  intros Hp.
  destruct (counted_spec token_address txs) as [Hnd Hin].
  destruct (counted_spec token_address txs') as [Hnd' Hin'].
  change (Z.of_nat (List.length (counted token_address txs))
          = Z.of_nat (List.length (counted token_address txs'))).
  f_equal. apply Permutation_length. apply NoDup_Permutation; try assumption.
  intros a. rewrite Hin, Hin'.
  split; intros (H1 & H2 & tx & Htx & H); repeat split; try assumption;
    exists tx; (split; [|assumption]).
  - eapply Permutation_in; eassumption.
  - eapply Permutation_in; [apply Permutation_sym|]; eassumption.
Qed.

Lemma count_holders_permutation_witness :
  count_holders (lit "0xToken")
    [mkTransfer (lit "0xA") (lit "0xB"); mkTransfer (lit "0xb") (lit "0xC")]
  = count_holders (lit "0xToken")
    [mkTransfer (lit "0xb") (lit "0xC"); mkTransfer (lit "0xA") (lit "0xB")].
Proof.
  apply count_holders_permutation. apply perm_swap.
Defined.

End HolderFacts.

(** ** Scam database *)

Section ScamDbFacts.

Import ScamDb.
Local Close Scope string_scope.
Local Open Scope Z_scope.

Lemma str_eqb_refl (a : str) : str_eqb a a = true.
Proof. unfold str_eqb. destruct (str_eq_dec a a); congruence. Qed.

Lemma str_eqb_neq (a b : str) : a <> b -> str_eqb a b = false.
Proof. unfold str_eqb. destruct (str_eq_dec a b); congruence. Qed.

Lemma str_eqb_eq (a b : str) : str_eqb a b = true -> a = b.
Proof. unfold str_eqb. destruct (str_eq_dec a b); congruence. Qed.

Lemma get_assign_same {V} (d : dict V) (k : str) (v : V) :
  get (assign d k v) k = Some v.
Proof.
  induction d as [|[k' v'] d IH]; cbn [assign get].
  - now rewrite str_eqb_refl.
  - destruct (str_eqb k' k) eqn:E; cbn [get]; rewrite E; [reflexivity|exact IH].
Qed.

Lemma get_assign_other {V} (d : dict V) (k k' : str) (v : V) :
  k <> k' -> get (assign d k v) k' = get d k'.
Proof.
  intros Hne. induction d as [|[k0 v0] d IH]; cbn [assign get].
  - now rewrite str_eqb_neq.
  - destruct (str_eqb k0 k) eqn:E; cbn [get]; [|now rewrite IH].
    apply str_eqb_eq in E. subst k0. now rewrite str_eqb_neq.
Qed.

Lemma assign_length_mem {V} (d : dict V) (k : str) (v : V) :
  mem d k = true -> List.length (assign d k v) = List.length d.
Proof.
  unfold mem. induction d as [|[k0 v0] d IH]; cbn [assign get];
    [discriminate|].
  destruct (str_eqb k0 k); cbn [List.length]; [reflexivity|].
  intros H. now rewrite IH.
Qed.

(** X18.  A report that has been added is the one [check_token] shows, under the
    date of the second reading of the clock and without references to
    tweets, whatever the database held for this token before; the answers
    for all other tokens are unchanged. *)
Theorem add_then_check (data : ScamData)
        (token_address report_type severity description : str)
        (warning_signs recommendations : list str) (source now1 now2 : str) :
  let data' :=
    snd (add_scam_report data token_address report_type severity description
                         warning_signs recommendations source now1 now2) in
  get (scam_tokens data') token_address =
    Some (mkScamReport (Some report_type) (Some severity) (Some description)
                       (Some warning_signs) (Some recommendations)
                       (Some source) (Some now1) (Some now2) None) /\
  check_token data' token_address =
    _format_scam_report
      (mkScamReport (Some report_type) (Some severity) (Some description)
                    (Some warning_signs) (Some recommendations)
                    (Some source) (Some now1) (Some now2) None) /\
  (forall other, other <> token_address ->
                 check_token data' other = check_token data other).
Proof.
  cbv zeta. unfold add_scam_report, _add_to_database, check_token.
  cbn [snd scam_tokens suspicious_addresses r_type r_severity r_description
       r_warning_signs r_recommendations r_source r_reported_date
       r_twitter_reports].
  rewrite get_assign_same. split; [reflexivity|]. split; [reflexivity|].
  intros other Hne. rewrite get_assign_other by congruence. reflexivity.
Qed.

(** X19.  A suspicious address that has been added is the one [check_token]
    shows, unless the token has a scam report, which is shown first; the
    answers for all other tokens are unchanged. *)
Theorem add_suspicious_then_check (data : ScamData) (address : str)
        (indicators : list str) (details : str)
        (recommendations : list str) (now : str) :
  let data' :=
    snd (add_suspicious_address data address indicators details
                                recommendations now) in
  check_token data' address =
    match get (scam_tokens data) address with
    | Some report => _format_scam_report report
    | None =>
      _format_suspicious_report
        (mkSuspicious (Some indicators) (Some details) (Some recommendations)
                      (Some now))
    end /\
  (forall other, other <> address ->
                 check_token data' other = check_token data other).
Proof.
  cbv zeta. unfold add_suspicious_address, check_token.
  cbn [snd scam_tokens suspicious_addresses].
  rewrite get_assign_same. split; [reflexivity|].
  intros other Hne. rewrite get_assign_other by congruence. reflexivity.
Qed.

Lemma assign_keys_mem {V} (d : dict V) (k : str) (v : V) :
  mem d k = true -> List.map fst (assign d k v) = List.map fst d.
Proof.
  unfold mem. induction d as [|[k0 v0] d IH]; cbn [assign get];
    [discriminate|].
  destruct (str_eqb k0 k); cbn [List.map fst]; [reflexivity|].
  intros H. now rewrite IH.
Qed.

(** X20.  The reference of a tweet is kept only for a token that has a scam
    report: the stored report is the old one, field by field, with the
    reference added at the end of its references; the reports of the other
    tokens, the suspicious addresses and the order of the tokens stay as
    they are.  For a token without report the database is unchanged.  In
    both cases [check_token] answers as before for every token. *)
Theorem add_tweet_reference_spec (data : ScamData)
        (token_address tweet_id : str) :
  let data' := _add_tweet_reference data token_address tweet_id in
  match get (scam_tokens data) token_address with
  | None => data' = data
  | Some report =>
    get (scam_tokens data') token_address =
      Some (mkScamReport (r_type report) (r_severity report)
                         (r_description report) (r_warning_signs report)
                         (r_recommendations report) (r_source report)
                         (r_reported_date report) (r_added_date report)
                         (Some (get_or (r_twitter_reports report) []
                                ++ [tweet_id])%list)) /\
    (forall other, other <> token_address ->
                   get (scam_tokens data') other = get (scam_tokens data) other) /\
    suspicious_addresses data' = suspicious_addresses data /\
    List.map fst (scam_tokens data') = List.map fst (scam_tokens data) /\
    List.length (scam_tokens data') = List.length (scam_tokens data)
  end /\
  (forall token, check_token data' token = check_token data token).
Proof.
  cbv zeta. unfold _add_tweet_reference.
  destruct (get (scam_tokens data) token_address) as [report|] eqn:Hg;
    [|split; reflexivity].
  cbn [scam_tokens suspicious_addresses].
  assert (Hm : mem (scam_tokens data) token_address = true)
    by (unfold mem; now rewrite Hg).
  split; [split; [|split; [|split; [|split]]]|].
  - apply get_assign_same.
  - intros other Hne. apply get_assign_other. congruence.
  - reflexivity.
  - apply assign_keys_mem. exact Hm.
  - apply assign_length_mem. exact Hm.
  - intros token. unfold check_token. cbn [scam_tokens suspicious_addresses].
    destruct (str_eq_dec token_address token) as [<-|Hne].
    + rewrite get_assign_same, Hg. reflexivity.
    + now rewrite get_assign_other.
Qed.

Lemma post_sent_bounded (data : ScamData) (reply : TweetReply)
      (token_address tweet_text : str) :
  (List.length tweet_text <= 280)%nat ->
  Forall (fun text => (List.length text <= 280)%nat)
         (sent (post data reply token_address tweet_text)).
Proof.
  intros H. destruct reply; cbn [post sent];
    (constructor; [exact H|constructor]).
Qed.

(** X21.  Every text the three reporting methods hand to Twitter has at most 280
    characters. *)
Theorem sent_tweets_bounded (data : ScamData) (reply : TweetReply)
        (token_address kind description : str)
        (warning_signs : list str) (evidence : option str) :
  let short := Forall (fun text : str => (List.length text <= 280)%nat) in
  short (sent (report_to_twitter data reply token_address kind description
                                 warning_signs evidence)) /\
  short (sent (report_suspicious_activity data reply token_address kind
                                          description evidence)) /\
  short (sent (update_scam_report data reply token_address kind description)).
Proof.
  cbv zeta. split; [|split].
  - apply post_sent_bounded. apply firstn_le_length.
  - apply post_sent_bounded. apply firstn_le_length.
  - unfold update_scam_report.
    destruct (negb (mem (scam_tokens data) token_address));
      [constructor|]. apply post_sent_bounded. apply firstn_le_length.
Qed.

(** X22.  A scam reported to Twitter for a token that has no report in the
    database returns [True] once the tweet is posted, and the reference of
    the tweet is lost: the database is unchanged.  An update for such a
    token returns [False] without handing anything to Twitter. *)
Theorem reports_for_unknown_token (data : ScamData) (tweet_id : str)
        (token_address kind description : str)
        (warning_signs : list str) (evidence : option str) (reply : TweetReply) :
  get (scam_tokens data) token_address = None ->
  let posted :=
    report_to_twitter data (TweetPosted tweet_id) token_address kind
                      description warning_signs evidence in
  let update :=
    update_scam_report data reply token_address kind description in
  returned posted = true /\ data_after posted = data /\
  returned update = false /\ data_after update = data /\ sent update = [].
Proof.
  intros Hg. cbv zeta.
  unfold report_to_twitter, update_scam_report, post, _add_tweet_reference, mem.
  rewrite Hg. repeat split.
Qed.

Lemma reports_for_unknown_token_witness :
  returned (report_to_twitter (mkScamData [] []) (TweetPosted (lit "1"))
              (lit "0xabc") (lit "rug") (lit "text") [] None) = true.
Proof.
  apply (reports_for_unknown_token (mkScamData [] []) (lit "1") (lit "0xabc")
           (lit "rug") (lit "text") [] None TweetNoData eq_refl).
Defined.

End ScamDbFacts.

(** ** Scam tweet *)

Section TweetFacts.

Import Vocabulary Tweet.
Local Close Scope string_scope.
Local Open Scope Z_scope.

Lemma tweet_text_head (token_address scam_type description : str)
      (warning_signs : list str) (evidence : option str) :
  exists rest,
    tweet_text token_address scam_type description warning_signs evidence
    = tweet_head token_address scam_type description ++ rest.
Proof.
  eexists. unfold tweet_text, tweet_head.
  repeat rewrite <- app_assoc. reflexivity.
Qed.

Lemma tweet_head_length (token_address scam_type description : str) :
  List.length (tweet_head token_address scam_type description)
  = (33 + List.length token_address + List.length scam_type
     + List.length description)%nat.
Proof.
  unfold tweet_head. repeat rewrite length_app.
  change (List.length newline) with 1%nat.
  change (List.length police_light) with 1%nat.
  change (List.length (lit " SCAM ALERT ")) with 12%nat.
  change (List.length (lit "Token: ")) with 7%nat.
  change (List.length (lit "Type: ")) with 6%nat.
  lia.
Qed.

(** X23.  Every scam tweet begins with the alert line and the token; when the
    address, the type and the description have 247 characters or more
    together, the warning signs, the evidence and the hashtags are cut off:
    the tweet is the same whatever they are. *)
Theorem long_tweet_drops_warnings
        (token_address scam_type description : str)
        (warning_signs : list str) (evidence : option str) :
  (247 <= List.length token_address + List.length scam_type
          + List.length description)%nat ->
  _format_scam_tweet token_address scam_type description warning_signs evidence
  = slice_to 280 (tweet_head token_address scam_type description).
Proof.
  intros Hlen. unfold _format_scam_tweet, slice_to.
  destruct (tweet_text_head token_address scam_type description
                            warning_signs evidence) as (rest & ->).
  rewrite firstn_app.
  replace (280 - List.length (tweet_head token_address scam_type description))%nat
    with 0%nat by (rewrite tweet_head_length; lia).
  cbn [firstn]. apply app_nil_r.
Qed.

Lemma long_tweet_drops_warnings_witness :
  _format_scam_tweet (repeat 48%N 42) (lit "rug pull") (repeat 97%N 200)
                     [lit "no audit"] (Some (lit "see chart"))
  = _format_scam_tweet (repeat 48%N 42) (lit "rug pull") (repeat 97%N 200)
                     [] None.
Proof.
  rewrite (long_tweet_drops_warnings (repeat 48%N 42) (lit "rug pull")
             (repeat 97%N 200) [lit "no audit"] (Some (lit "see chart")))
    by (vm_compute; lia).
  rewrite (long_tweet_drops_warnings (repeat 48%N 42) (lit "rug pull")
             (repeat 97%N 200) [] None)
    by (vm_compute; lia).
  reflexivity.
Defined.

End TweetFacts.

(** ** Markdown escaping *)

Section EscapeFacts.

Import Vocabulary Bot.
Local Close Scope string_scope.
Local Open Scope Z_scope.

Lemma replace_char_app (c : char) (s1 s2 : str) :
  replace_char c (s1 ++ s2) = replace_char c s1 ++ replace_char c s2.
Proof. unfold replace_char. apply flat_map_app. Qed.

Lemma fold_replace_app (cs : list char) : forall s1 s2 : str,
  fold_left (fun text char => replace_char char text) cs (s1 ++ s2)
  = fold_left (fun text char => replace_char char text) cs s1
    ++ fold_left (fun text char => replace_char char text) cs s2.
Proof.
  induction cs as [|c cs IH]; intros s1 s2; cbn [fold_left]; [reflexivity|].
  rewrite replace_char_app. apply IH.
Qed.

Lemma replace_char_absent (c : char) (s : str) :
  ~ In c s -> replace_char c s = s.
Proof.
  unfold replace_char. induction s as [|x s IH]; intros Hn; cbn [flat_map];
    [reflexivity|].
  destruct (N.eqb_spec x c) as [->|Hne]; [destruct Hn; now left|].
  cbn [app]. f_equal. apply IH. intros H. apply Hn. now right.
Qed.

Lemma fold_replace_absent (cs : list char) : forall s : str,
  (forall c, In c cs -> ~ In c s) ->
  fold_left (fun text char => replace_char char text) cs s = s.
Proof.
  induction cs as [|c cs IH]; intros s Hn; cbn [fold_left]; [reflexivity|].
  rewrite replace_char_absent by (apply Hn; now left).
  apply IH. intros c' Hc'. apply Hn. now right.
Qed.

Lemma fold_replace_single (cs : list char) : forall x : char,
  NoDup cs -> ~ In backslash cs ->
  fold_left (fun text char => replace_char char text) cs [x]
  = if existsb (N.eqb x) cs then [backslash; x] else [x].
Proof.
  induction cs as [|c cs IH]; intros x Hnd Hb; cbn [fold_left existsb];
    [reflexivity|].
  inversion Hnd as [|c' cs' Hc Hnd']; subst.
  unfold replace_char at 2. cbn [flat_map app].
  destruct (N.eqb_spec x c) as [->|Hne]; cbn [orb].
  - apply fold_replace_absent. intros c' Hc' [<-|[<-|[]]].
    + apply Hb. now right.
    + exact (Hc Hc').
  - apply IH; [assumption|]. intros H. apply Hb. now right.
Qed.

Lemma special_chars_distinct :
  NoDup special_chars /\ ~ In backslash special_chars.
Proof.
  split.
  - vm_compute.
    repeat (constructor;
            [cbn [In]; intros H;
             repeat (destruct H as [H|H]; [discriminate H|]); exact H|]).
    constructor.
  - vm_compute. intros H.
    repeat (destruct H as [H|H]; [discriminate H|]). exact H.
Qed.

(** X24.  The eighteen replacements of [_escape_markdown], one after the other,
    amount to one pass over the text: each special character gets exactly
    one backslash before it and every other character is kept, so that the
    text grows by the number of its special characters. *)
Theorem escape_markdown_one_pass (text : str) :
  _escape_markdown text = flat_map escape_char text /\
  List.length (_escape_markdown text)
  = (List.length text + List.length (filter is_special text))%nat.
Proof.
  assert (H1 : _escape_markdown text = flat_map escape_char text).
  { unfold _escape_markdown. induction text as [|x text IH];
      [apply fold_replace_absent; intros c _ []|].
    change (x :: text) with ([x] ++ text).
    rewrite fold_replace_app, IH. cbn [flat_map app]. f_equal.
    destruct special_chars_distinct as [Hnd Hb].
    rewrite (fold_replace_single special_chars x Hnd Hb). reflexivity. }
  split; [exact H1|]. rewrite H1. clear H1.
  induction text as [|x text IH]; [reflexivity|].
  cbn [flat_map filter]. rewrite length_app, IH. unfold escape_char.
  destruct (is_special x); cbn [List.length]; lia.
Qed.

End EscapeFacts.

(** ** Twitter data *)

Section SocialFacts.

Import Twitter.
Local Open Scope string_scope.
Local Open Scope Z_scope.

(** X16.  Whatever the search answers, the social analysis is consistent: the
    activity level is the one of the number of mentions, there are as many
    recent tweets as mentions but at most 5, and they are the first tweets
    of the answer in their order.  Without an answer the data are the
    defaults: no mention, sentiment 0.5, activity "very_low". *)
Theorem social_analysis_consistent
        (reply : Fetch.Reply (list Tweet * list User)) :
  let s := analyze reply in
  let d := platform_twitter s in
  activity_level s = Social._determine_activity_level (twitter_mentions s) /\
  twitter_mentions s = mentions d /\
  sentiment_score s = sentiment d /\
  Z.of_nat (List.length (recent_tweets d)) = Z.min 5 (mentions d) /\
  match reply with
  | Fetch.Data (tweets, users) =>
    mentions d = Z.of_nat (List.length tweets) /\
    List.map ft_text (recent_tweets d) = firstn 5 (List.map tw_text tweets)
  | _ =>
    d = _get_default_platform_data /\ activity_level s = "very_low" /\
    sentiment_score s = 0.5%float
  end.
Proof.
  cbv zeta. unfold analyze.
  cbn [activity_level twitter_mentions sentiment_score platform_twitter].
  repeat split.
  - destruct reply as [msg| |[tweets users]];
      cbn [_get_twitter_data _get_default_platform_data recent_tweets mentions
           List.length]; try reflexivity.
    rewrite length_map, length_firstn. unfold Text.len. lia.
  - destruct reply as [msg| |[tweets users]];
      cbn [_get_twitter_data recent_tweets mentions];
      repeat split; try reflexivity.
    rewrite map_map. cbn [format_tweet ft_text].
    symmetry. apply firstn_map.
Qed.

End SocialFacts.

(** ** Flags of the description analysis *)

Section FlagFacts.

Import Text.
Local Open Scope string_scope.
Local Open Scope Z_scope.

Lemma any_present_count (words : list str) (s : str) :
  any_present words s = (0 <? count_present words s).
Proof.
  unfold any_present, count_present.
  induction words as [|w words IH]; cbn [existsb filter]; [reflexivity|].
  destruct (contains w s); cbn [orb List.length]; [|exact IH].
  symmetry. apply Z.ltb_lt. lia.
Qed.

Lemma score_signs (k : Z) :
  In k (zrange 6) ->
  gt (int_true_div k 5) 0 = (0 <? k) /\
  lt (1 - int_true_div k 5)%float 1 = (0 <? k).
Proof.
  intros H. vm_compute in H.
  repeat (destruct H as [<-|H]; [split; reflexivity|]). destruct H.
Qed.

(** X8.  For a description that is not empty the analysis reports its length,
    and its two flags agree with the scores: there are technical terms
    exactly when the technical score is positive, and warning signs exactly
    when the warning score is below 1. *)
Theorem description_flags_match_scores (t : TokenSnapshot) :
  description t <> [] ->
  exists da,
    description_analysis (_analyze_text_data t) = Some da /\
    length da = len (description t) /\
    has_technical_terms da = gt (technical_score (lower (description t))) 0 /\
    has_warning_signs da = lt (warning_score (lower (description t))) 1.
Proof.
  intros Hd.
  assert (Ht : truthy (description t) = true)
    by (destruct (description t); [contradiction|reflexivity]).
  unfold _analyze_text_data, _analyze_text_data_body. rewrite Ht.
  cbn [read_local bind ret try_except description_analysis].
  eexists. split; [reflexivity|].
  cbn [length has_technical_terms has_warning_signs].
  split; [reflexivity|].
  unfold technical_score, warning_score. rewrite !any_present_count.
  change (len technical_terms) with 5. change (len warning_terms) with 5.
  pose proof (score_signs _ (count_in_range technical_terms
                               (lower (description t)) eq_refl)) as [H1 _].
  pose proof (score_signs _ (count_in_range warning_terms
                               (lower (description t)) eq_refl)) as [_ H2].
  now rewrite H1, H2.
Qed.

Lemma description_flags_match_scores_witness :
  exists da,
    description_analysis
      (_analyze_text_data (mkSnapshot 1 1 1 1 (lit "audit to the moon") [] []))
    = Some da /\ has_technical_terms da = true /\ has_warning_signs da = true.
Proof.
  destruct (description_flags_match_scores
              (mkSnapshot 1 1 1 1 (lit "audit to the moon") [] []))
    as (da & H1 & _ & H2 & H3); [discriminate|].
  exists da. split; [exact H1|]. split; [rewrite H2|rewrite H3]; reflexivity.
Defined.

End FlagFacts.

(** ** Binary64 quotients of counts, and the sentiment of the tweets *)

Section Binary64Quotients.

Import FloatOrder Twitter.
Local Close Scope string_scope.
Local Open Scope Z_scope.

Lemma digits2_pos_le (p : positive) (k : Z) :
  0 <= k -> Zpos p < 2 ^ k -> Zpos (digits2_pos p) <= k.
Proof.
  intros Hk Hp. pose proof (digits2_pos_lower p) as Hlo.
  destruct (Z_le_gt_dec (Zpos (digits2_pos p)) k) as [|Hgt]; [assumption|].
  assert (2 ^ k <= 2 ^ (Zpos (digits2_pos p) - 1))
    by (apply Z.pow_le_mono_r; lia).
  lia.
Qed.

Lemma round_nearest_even_le mx lx : round_nearest_even mx lx <= mx + 1.
Proof.
  destruct lx as [|[]]; cbn [round_nearest_even]; try lia.
  destruct (Z.even mx); lia.
Qed.

(** The shift of [shr_fexp], away from the subnormal range: none for a
    mantissa of at most 53 digits, and down to 53 digits otherwise. *)
Lemma shr_fexp_bounds (m : positive) (e : Z) (l : location) :
  -1000 <= e ->
  let d := Zpos (digits2_pos m) in
  let r := shr_fexp prec emax (Zpos m) e l in
  0 < shr_m (fst r) < 2 ^ Z.min d 53 /\
  snd r = e + Z.max 0 (d - 53).
Proof.
  intros He. cbv zeta. unfold shr_fexp, shr. cbn [Zdigits2]. rewrite fexp_eq.
  pose proof (digits2_pos_lower m) as Hlo.
  pose proof (digits2_pos_upper m) as Hup.
  set (d := Zpos (digits2_pos m)) in *.
  assert (Hd : 0 < d) by (unfold d; lia).
  replace (Z.max (d + e - 53) (-1074) - e) with (d - 53) by lia.
  destruct (d - 53) as [|n|n] eqn:Hn; cbn [fst snd].
  - rewrite shr_record_of_loc_m. replace (Z.min d 53) with d by lia. lia.
  - rewrite shr_iter_m by (rewrite shr_record_of_loc_m; lia).
    rewrite shr_record_of_loc_m. replace (Z.min d 53) with 53 by lia.
    split; [split|lia].
    + apply Z.div_str_pos. split; [lia|].
      apply Z.le_trans with (2 ^ (d - 1)); [|assumption].
      apply Z.pow_le_mono_r; lia.
    + apply Z.div_lt_upper_bound; [lia|].
      rewrite <- Z.pow_add_r by lia.
      replace (Zpos n + 53) with d by lia. exact Hup.
  - rewrite shr_record_of_loc_m. replace (Z.min d 53) with d by lia. lia.
Qed.

(** Rounding a positive mantissa gives a finite positive number when the
    exponent stays in the range of the format. *)
Lemma binary_round_aux_finite (m : positive) (e : Z) (l : location) :
  -1000 <= e ->
  e + Z.max 0 (Zpos (digits2_pos m) - 53) + 1 <= 971 ->
  exists m' e',
    binary_round_aux prec emax false (Zpos m) e l = S754_finite false m' e' /\
    e <= e' <= e + Z.max 0 (Zpos (digits2_pos m) - 53) + 1.
Proof.
  intros He Hmax. unfold binary_round_aux.
  destruct (shr_fexp_bounds m e l He) as [[Hm1 Hm1'] He1].
  destruct (shr_fexp prec emax (Zpos m) e l) as [mrs1 e1]. cbn [fst snd] in *.
  pose proof (round_nearest_even_pos _ (loc_of_shr_record mrs1) Hm1) as Hr.
  pose proof (round_nearest_even_le (shr_m mrs1) (loc_of_shr_record mrs1)) as Hr'.
  destruct (round_nearest_even (shr_m mrs1) (loc_of_shr_record mrs1))
    as [|m1|m1]; try lia.
  assert (H53 : 2 ^ Z.min (Zpos (digits2_pos m)) 53 <= 2 ^ 53)
    by (apply Z.pow_le_mono_r; lia).
  assert (Hd1 : Zpos (digits2_pos m1) <= 54).
  { apply digits2_pos_le; [lia|].
    change (2 ^ 54) with (2 * 2 ^ 53). lia. }
  destruct (shr_fexp_bounds m1 e1 loc_Exact ltac:(lia)) as [[Hm2 _] He2].
  destruct (shr_fexp prec emax (Zpos m1) e1 loc_Exact) as [mrs2 e2].
  cbn [fst snd] in *.
  destruct (shr_m mrs2) as [|m2|m2]; try lia.
  assert (Hle : (e2 <=? emax - prec) = true).
  { apply Z.leb_le. change (emax - prec) with 971. lia. }
  rewrite Hle. exists m2, e2. split; [reflexivity|lia].
Qed.

Lemma digits2_pos_iter_xO (p n : positive) :
  Zpos (digits2_pos (Pos.iter xO p n)) = Zpos (digits2_pos p) + Zpos n.
Proof.
  induction n as [|n IH] using Pos.peano_ind.
  - cbn [Pos.iter digits2_pos]. lia.
  - rewrite Pos.iter_succ. cbn [digits2_pos]. lia.
Qed.

(** [float(n)] for [1 <= n < 2^63] is a positive normal number. *)
Lemma of_uint63_positive (i : PrimInt63.int) :
  1 <= Uint63.to_Z i ->
  exists m e,
    Prim2SF (of_uint63 i) = S754_finite false m e /\ -52 <= e <= 11 /\
    Zpos (digits2_pos m) = 53.
Proof.
  intros Hi. pose proof (Uint63.to_Z_bounded i) as Hb.
  assert (Hex : exists m e,
             Prim2SF (of_uint63 i) = S754_finite false m e /\ -52 <= e <= 11).
  { rewrite of_uint63_spec.
    destruct (Uint63.to_Z i) as [|p|p]; try lia.
    cbn [binary_normalize]. unfold binary_round, shl_align. rewrite fexp_eq.
    pose proof (digits2_pos_le p 63 ltac:(lia) (proj2 Hb)) as Hd63.
    set (d := Zpos (digits2_pos p)) in *.
    assert (Hd : 1 <= d) by (unfold d; lia).
    replace (Z.max (d + 0 - 53) (-1074) - 0) with (d - 53) by lia.
    replace (Z.max (d + 0 - 53) (-1074)) with (d - 53) by lia.
    destruct (d - 53) as [|n|n] eqn:Hn.
    - destruct (binary_round_aux_finite p 0 loc_Exact ltac:(lia) ltac:(lia))
        as (m' & e' & H & He). exists m', e'. split; [exact H|lia].
    - destruct (binary_round_aux_finite p 0 loc_Exact ltac:(lia) ltac:(lia))
        as (m' & e' & H & He). exists m', e'. split; [exact H|lia].
    - pose proof (digits2_pos_iter_xO p n) as Hdig.
      destruct (binary_round_aux_finite (Pos.iter xO p n) (Zneg n) loc_Exact
                  ltac:(lia) ltac:(lia))
        as (m' & e' & H & He). exists m', e'. split; [exact H|lia]. }
  destruct Hex as (m & e & Hx & He). exists m, e.
  split; [exact Hx|]. split; [exact He|].
  exact (valid_normal_digits _ false m e Hx ltac:(lia)).
Qed.

(** The quotient of two positive integers below [2^63] is positive or
    infinite, and not NaN. *)
Lemma div_positive (x y : float) (mx my : positive) (ex ey : Z) :
  Prim2SF x = S754_finite false mx ex -> Zpos (digits2_pos mx) = 53 ->
  Prim2SF y = S754_finite false my ey -> Zpos (digits2_pos my) = 53 ->
  -52 <= ex <= 11 -> -52 <= ey <= 11 ->
  Prim2SF (x / y) = S754_infinity false \/
  exists m e, Prim2SF (x / y) = S754_finite false m e.
Proof.
  intros Hx Hdx Hy Hdy Hex Hey.
  pose proof (digits2_pos_lower mx) as Hlo. rewrite Hdx in Hlo.
  pose proof (digits2_pos_upper my) as Hup. rewrite Hdy in Hup.
  change (2 ^ (53 - 1)) with 4503599627370496 in Hlo.
  change (2 ^ 53) with 9007199254740992 in Hup.
  rewrite div_spec, Hx, Hy.
  unfold SF64div, SFdiv, SFdiv_core_binary. cbn [xorb Zdigits2].
  rewrite Hdx, Hdy, fexp_eq.
  replace (Z.min (Z.max (53 + ex - (53 + ey) - 53) (-1074)) (ex - ey))
    with (ex - ey - 53) by lia.
  replace (ex - ey - (ex - ey - 53)) with 53 by lia.
  rewrite Z.shiftl_mul_pow2 by lia.
  change (2 ^ 53) with 9007199254740992.
  pose proof (Z.div_str_pos (Zpos mx * 9007199254740992) (Zpos my)
                ltac:(nia)) as Hq.
  unfold Z.div in Hq.
  destruct (Z.div_eucl (Zpos mx * 9007199254740992) (Zpos my)) as [q r].
  destruct q as [|q|q]; try lia.
  destruct (binary_round_aux_pos q (ex - ey - 53)
              (new_location (Zpos my) r) ltac:(lia))
    as [H|(m' & e' & H & He')]; [left; exact H|right].
  exists m', e'. exact H.
Qed.

Lemma total_engagement_nonneg (tweets : list Tweet) :
  (forall tw, In tw tweets ->
              0 <= retweet_count tw /\ 0 <= reply_count tw /\ 0 <= like_count tw) ->
  0 <= total_engagement tweets.
Proof.
  unfold total_engagement.
  assert (H : forall acc, 0 <= acc ->
    (forall tw, In tw tweets ->
                0 <= retweet_count tw /\ 0 <= reply_count tw /\ 0 <= like_count tw) ->
    0 <= fold_left (fun acc tw =>
                      acc + (retweet_count tw + reply_count tw + like_count tw))
                   tweets acc).
  { induction tweets as [|tw tweets IH]; intros acc Hacc Hall; cbn [fold_left];
      [assumption|].
    apply IH.
    - pose proof (Hall tw (or_introl eq_refl)). lia.
    - intros tw' Hin. apply Hall. now right. }
  intros Hall. apply H; [lia|assumption].
Qed.

(** X17.  The sentiment proxy of the tweets lies in [0, 1]: it is 0.5 without
    tweets, and otherwise the engagement per tweet in hundredths, capped at
    1.0.  The counts are those of Twitter, non-negative and small enough for
    the integers to be exact as floats. *)
Theorem twitter_sentiment_in_unit (tweets : list Tweet) :
  (forall tw, In tw tweets ->
              0 <= retweet_count tw /\ 0 <= reply_count tw /\ 0 <= like_count tw) ->
  total_engagement tweets < 2 ^ 53 ->
  Z.of_nat (List.length tweets) * 100 < 2 ^ 53 ->
  in_unit (_analyze_twitter_sentiment tweets) = true /\
  (tweets = [] -> _analyze_twitter_sentiment tweets = 0.5%float) /\
  (tweets <> [] -> total_engagement tweets = 0 ->
   _analyze_twitter_sentiment tweets = 0%float).
Proof.
  intros Hall Htot Hlen.
  pose proof (total_engagement_nonneg tweets Hall) as Hnn.
  destruct tweets as [|tw tweets'] eqn:Htw.
  { split; [reflexivity|]. split; [reflexivity|]. intros H; contradiction. }
  rewrite <- Htw in *. clear Hall.
  assert (Hsent : _analyze_twitter_sentiment tweets
                  = py_min (Text.int_true_div (total_engagement tweets)
                                              (Text.len tweets * 100)) 1)
    by (rewrite Htw; reflexivity).
  rewrite Hsent. unfold Text.int_true_div, of_int, Text.len.
  set (a := total_engagement tweets) in *.
  set (b := Z.of_nat (List.length tweets) * 100) in *.
  assert (Hb : 100 <= b) by (unfold b; rewrite Htw; cbn [List.length]; lia).
  assert (H63 : 2 ^ 53 < 2 ^ 63) by (apply Z.pow_lt_mono_r; lia).
  assert (Hwb : forall z, 0 <= z < 2 ^ 53 -> Uint63.to_Z (Uint63.of_Z z) = z).
  { intros z Hz. rewrite Uint63.of_Z_spec. apply Z.mod_small.
    change Uint63.wB with (2 ^ 63). lia. }
  destruct (of_uint63_positive (Uint63.of_Z b)) as (my & ey & Hy & Hey & Hdy);
    [rewrite Hwb; lia|].
  assert (Hcases :
    is_nan (Prim2SF (of_uint63 (Uint63.of_Z a) / of_uint63 (Uint63.of_Z b))) = false /\
    ~ key_lt (key (Prim2SF (of_uint63 (Uint63.of_Z a) / of_uint63 (Uint63.of_Z b))))
             (0, 0, 0) /\
    (a = 0 -> (of_uint63 (Uint63.of_Z a) / of_uint63 (Uint63.of_Z b) = 0)%float)).
  { destruct (Z.eq_dec a 0) as [Ha|Ha].
    - rewrite Ha. change (of_uint63 (Uint63.of_Z 0)) with 0%float.
      assert (Hz : Prim2SF (0 / of_uint63 (Uint63.of_Z b)) = S754_zero false).
      { rewrite div_spec, Hy. reflexivity. }
      rewrite Hz. cbn. repeat split; try lia.
      intros _. apply Prim2SF_inj. rewrite Hz. reflexivity.
    - destruct (of_uint63_positive (Uint63.of_Z a))
        as (mx & ex & Hx & Hex & Hdx); [rewrite Hwb; lia|].
      destruct (div_positive _ _ mx my ex ey Hx Hdx Hy Hdy Hex Hey)
        as [Hq|(m & e & Hq)]; rewrite Hq; cbn; repeat split; try lia;
        contradiction. }
  destruct Hcases as (Hnan & Hpos & Hzero).
  split; [apply min_one_in_unit; assumption|].
  split; [intros Hnil; rewrite Htw in Hnil; discriminate|].
  intros _ Ha. rewrite (Hzero Ha). reflexivity.
Qed.

Lemma twitter_sentiment_in_unit_witness :
  in_unit (_analyze_twitter_sentiment
             [mkTweet (lit "to the moon") (lit "2024-01-01") 30 5 200 (lit "7")])
  = true.
Proof.
  apply (twitter_sentiment_in_unit
           [mkTweet (lit "to the moon") (lit "2024-01-01") 30 5 200 (lit "7")]).
  - intros tw [<-|[]]. cbn. lia.
  - vm_compute. reflexivity.
  - vm_compute. reflexivity.
Defined.

End Binary64Quotients.
